(** * Vogue Tribe backend: checkout, coupons, cancellation and payment
      reconciliation

    A shallow embedding of the order pipeline of the backend:

    - the pricing helper [calculateOrderTotal] (common/helpers),
    - [CartService.applyCoupon],
    - [OrdersService.checkout] and [OrdersService.cancelOrder],
    - [PaymentsService.handleWebhook].

    Conventions of the embedding.

    - A JavaScript [number] holding money is an IEEE 754 binary64 value
      ([float]): sums, products and quotients round as the doubles of the
      code do, comparisons are those of doubles, and [Math.round] and
      [Math.max] follow ECMAScript.  A [Decimal] column is taken to give
      back, through [Number()], the number that was written to it.
      Quantities, stock and counters are integers ([Z]): Prisma [Int]
      columns carry no sign constraint.
    - A [Date] is its epoch value in [Z]; [new Date()] is an argument [now].
    - A Prisma table is the list of its rows.  [findUnique]/[findFirst]
      return the first row matching the filter, [update] rewrites the first
      row matching it and raises the record-not-found error otherwise.
    - A service method is a computation in the monad [Prisma]: it receives
      the database, returns a value or throws, and hands back the database
      as it stands then.  Writes made before a throw persist, except inside
      [transaction], which restores the database it started from. *)

From Stdlib Require Import ZArith QArith Qround Floats.
From Stdlib Require Import String List Bool Lia.
Import ListNotations.

Local Open Scope string_scope.
Local Open Scope Z_scope.

(** Decimal literals stand for the nearest double, as in the source. *)
Set Warnings "-inexact-float".

(* ===================================================================== *)
(** * Enumerations (common/types/enums.ts) *)
(* ===================================================================== *)

Module OrderStatus.
Inductive t : Set :=
  PENDING | CONFIRMED | PROCESSING | SHIPPED | DELIVERED | CANCELLED | REFUNDED.

Definition eqb (a b : t) : bool :=
  match a, b with
  | PENDING, PENDING | CONFIRMED, CONFIRMED | PROCESSING, PROCESSING
  | SHIPPED, SHIPPED | DELIVERED, DELIVERED | CANCELLED, CANCELLED
  | REFUNDED, REFUNDED => true
  | _, _ => false
  end.

(** [Array.prototype.includes] on a list of statuses. *)
Definition includes (l : list t) (s : t) : bool := existsb (eqb s) l.
End OrderStatus.

Module PaymentStatus.
Inductive t : Set := PENDING | SUCCESS | FAILED | REFUNDED | PARTIALLY_REFUNDED.
End PaymentStatus.

(** The status field of the provider callback:
    [z.enum(['SUCCESS', 'FAILED', 'PENDING'])]. *)
Module WebhookStatus.
Inductive t : Set := SUCCESS | FAILED | PENDING.

Definition isSuccess (s : t) : bool :=
  match s with SUCCESS => true | _ => false end.

(** The callback status is written as it is into [Payment.status]. *)
Definition toPaymentStatus (s : t) : PaymentStatus.t :=
  match s with
  | SUCCESS => PaymentStatus.SUCCESS
  | FAILED => PaymentStatus.FAILED
  | PENDING => PaymentStatus.PENDING
  end.
End WebhookStatus.

Module CouponType.
Inductive t : Set := PERCENTAGE | FIXED_AMOUNT | FREE_SHIPPING.
End CouponType.

(* ===================================================================== *)
(** * Exceptions (common/filters/exceptions.ts) *)
(* ===================================================================== *)

Module MESSAGES.
Definition CART_INVALID_COUPON := "This coupon code is invalid or has expired.".
Definition CART_COUPON_MAX_USES_REACHED :=
  "This coupon has reached its maximum usage limit.".
Definition COUPON_EXPIRED := "This coupon has expired.".
Definition COUPON_NOT_ACTIVE := "This coupon is not currently active.".
End MESSAGES.

(** The exceptions the four services throw.  [PrismaClientError] stands for
    what the database client itself raises: code [P2025] when [update] finds
    no row, [P2002] on a unique index, and an inconsistent-result error when
    a required relation has no row. *)
Inductive Exception : Type :=
| EmptyCartException
| NotFoundException (resource : string)
| OrderNotFoundException
| OrderCancelNotAllowedException
| InsufficientStockException (available : Z)
| InvalidCouponException (message : string)
| CouponMinNotMetException (minAmount : string)
| PaymentFailedException
| PrismaClientError (code : string).

(** The stable error code each business exception passes to
    [BusinessException]. *)
Definition errorCode (e : Exception) : string :=
  match e with
  | EmptyCartException => "EMPTY_CART"
  | NotFoundException _ => "NOT_FOUND"
  | OrderNotFoundException => "ORDER_NOT_FOUND"
  | OrderCancelNotAllowedException => "CANCEL_NOT_ALLOWED"
  | InsufficientStockException _ => "INSUFFICIENT_STOCK"
  | InvalidCouponException _ => "INVALID_COUPON"
  | CouponMinNotMetException _ => "COUPON_MIN_NOT_MET"
  | PaymentFailedException => "PAYMENT_FAILED"
  | PrismaClientError _ => "INTERNAL_SERVER_ERROR"
  end.

(* ===================================================================== *)
(** * Pricing calculator (common/helpers, price helper) *)
(* ===================================================================== *)

(** An integer of the program (a Prisma [Int], a count) as a number. *)
Definition Number_of_int (n : Z) : float :=
  SF2Prim (binary_normalize prec emax n 0 false).

Module APP_CONSTANTS.
(** [VAT_RATE: 0.075] *)
Definition VAT_RATE : float := 0.075.
End APP_CONSTANTS.

(** [Math.round]: NaN, the infinities and the zeros are returned as they
    are, and so is a number without fractional bits; any other number
    [x] gives the integer [floor (x + 1/2)], taken on the exact value
    of [x] (halves go towards plus infinity), with the sign of [x] when
    that integer is 0. *)
Definition Math_round (x : float) : float :=
  match Prim2SF x with
  | S754_finite s m e =>
      if 0 <=? e then x
      else
        let twice := 2 * (if s then Z.neg m else Z.pos m) in
        let n := Z.shiftr (twice + Z.shiftl 1 (- e)) (1 - e) in
        SF2Prim (binary_normalize prec emax n 0 s)
  | _ => x
  end.

(** [Math.max] on two numbers: NaN when one of them is NaN, and +0
    rather than -0. *)
Definition Math_max (x y : float) : float :=
  if is_nan x || is_nan y then nan
  else if (x <? y)%float then y
  else if (y <? x)%float then x
  else if get_sign x then y else x.

(** [x || 0] on a number: 0 for the falsy numbers, which are NaN and the
    zeros. *)
Definition orZero (x : float) : float :=
  if is_nan x || is_zero x then 0%float else x.

(** [a !== b] on two numbers. *)
Definition notSame (a b : float) : bool := negb (a =? b)%float.

(** [Math.round(amount * APP_CONSTANTS.VAT_RATE * 100) / 100] *)
Definition calculateVAT (amount : float) : float :=
  (Math_round (amount * APP_CONSTANTS.VAT_RATE * 100) / 100)%float.

Record OrderTotal : Type := mkOrderTotal {
  vat : float;
  total : float;
  discountedSubtotal : float
}.

Definition calculateOrderTotal (subtotal shippingCost discount : float) : OrderTotal :=
  let discountedSubtotal := Math_max (subtotal - discount)%float 0%float in
  let vat := calculateVAT discountedSubtotal in
  let total := (discountedSubtotal + vat + shippingCost)%float in
  {| vat := (Math_round (vat * 100) / 100)%float;
     total := (Math_round (total * 100) / 100)%float;
     discountedSubtotal := (Math_round (discountedSubtotal * 100) / 100)%float |}.

(** [roundPrice] of the same file: the rounding step the calculator
    applies to every figure it returns. *)
Definition roundPrice (amount : float) : float :=
  (Math_round (amount * 100) / 100)%float.

(** ** The calculator in exact decimal arithmetic

    For comparison with the code: the figures of the calculator on
    amounts in kobo (hundredths of a naira), computed without rounding
    error, the VAT rounded to the nearest kobo, halves upwards. *)
Module Stated.
Definition discountedSubtotal (subtotal discount : Z) : Z :=
  Z.max (subtotal - discount) 0.

Definition vat (discountedSubtotal : Z) : Z :=
  (discountedSubtotal * 75 + 500) / 1000.

Definition total (subtotal shippingCost discount : Z) : Z :=
  discountedSubtotal subtotal discount
  + vat (discountedSubtotal subtotal discount) + shippingCost.
End Stated.

(** The number written with two decimals for an amount of kobo: the
    double nearest to [k / 100]. *)
Definition ofKobo (k : Z) : float := (Number_of_int k / 100)%float.

(** Two numbers that [===] holds of, on their unpacked form: two zeros
    of any sign, or the same number; never NaN. *)
Definition sameValue (x y : spec_float) : Prop :=
  match x, y with
  | S754_zero _, S754_zero _ => True
  | S754_infinity s1, S754_infinity s2 => s1 = s2
  | S754_finite s1 m1 e1, S754_finite s2 m2 e2 => s1 = s2 /\ m1 = m2 /\ e1 = e2
  | _, _ => False
  end.

(* ===================================================================== *)
(** * Data model: the rows the services read and write *)
(* ===================================================================== *)

Module Product.
Record t : Type := mk { id : string; name : string; basePrice : float }.
End Product.

Module ProductVariant.
Record t : Type := mk {
  id : string;
  productId : string;
  color : string;
  size : string;
  priceModifier : float;
  stockQuantity : Z;
  isActive : bool
}.

Definition withStock (f : Z -> Z) (v : t) : t :=
  mk (id v) (productId v) (color v) (size v) (priceModifier v)
     (f (stockQuantity v)) (isActive v).
End ProductVariant.

Module Coupon.
Record t : Type := mk {
  id : string;
  code : string;
  type : CouponType.t;
  value : float;
  isActive : bool;
  startsAt : Z;
  expiresAt : Z;
  maxUses : option Z;
  usedCount : Z;
  minOrderAmount : option float
}.

Definition withUsedCount (f : Z -> Z) (c : t) : t :=
  mk (id c) (code c) (type c) (value c) (isActive c) (startsAt c)
     (expiresAt c) (maxUses c) (f (usedCount c)) (minOrderAmount c).
End Coupon.

Module Cart.
Record t : Type := mk { id : string; userId : string; couponId : option string }.

Definition withCouponId (c : option string) (x : t) : t := mk (id x) (userId x) c.
End Cart.

Module CartItem.
Record t : Type := mk {
  id : string;
  cartId : string;
  variantId : string;
  quantity : Z
}.
End CartItem.

(** The address fields copied onto an order. *)
Record ShippingAddress : Type := mkShippingAddress {
  firstName : string;
  lastName : string;
  phone : string;
  street : string;
  city : string;
  state : string;
  postalCode : string;
  country : string
}.

Module Address.
Record t : Type := mk { id : string; userId : string; fields : ShippingAddress }.
End Address.

Module Order.
Record t : Type := mk {
  id : string;
  orderNumber : string;
  userId : string;
  status : OrderStatus.t;
  subtotal : float;
  discount : float;
  shippingCost : float;
  vat : float;
  total : float;
  shippingAddress : ShippingAddress;
  notes : option string;
  couponId : option string
}.

Definition withStatus (s : OrderStatus.t) (o : t) : t :=
  mk (id o) (orderNumber o) (userId o) s (subtotal o) (discount o)
     (shippingCost o) (vat o) (total o) (shippingAddress o) (notes o)
     (couponId o).
End Order.

Module OrderItem.
Record t : Type := mk {
  orderId : string;
  variantId : string;
  quantity : Z;
  unitPrice : float;
  totalPrice : float;
  productName : string;
  variantColor : string;
  variantSize : string
}.
End OrderItem.

(** [OPayWebhookDto] (payments schema). *)
Module OPayWebhookDto.
Record t : Type := mk {
  orderId : string;
  reference : string;
  status : WebhookStatus.t;
  amount : float;
  currency : string;
  signature : option string
}.
End OPayWebhookDto.

Module Payment.
Record t : Type := mk {
  id : string;
  orderId : string;
  reference : string;
  amount : float;
  status : PaymentStatus.t;
  providerRef : option string;
  paidAt : option Z;
  metadata : option OPayWebhookDto.t
}.
End Payment.

(** [CreateOrderDto] (orders schema). *)
Module CreateOrderDto.
Record t : Type := mk { addressId : string; notes : option string }.
End CreateOrderDto.

(** The relational store: one list of rows per Prisma model. *)
Record DB : Type := mkDB {
  products : list Product.t;
  productVariants : list ProductVariant.t;
  coupons : list Coupon.t;
  carts : list Cart.t;
  cartItems : list CartItem.t;
  addresses : list Address.t;
  orders : list Order.t;
  orderItems : list OrderItem.t;
  payments : list Payment.t
}.

Definition setProductVariants (x : list ProductVariant.t) (db : DB) : DB :=
  mkDB (products db) x (coupons db) (carts db) (cartItems db) (addresses db)
       (orders db) (orderItems db) (payments db).
Definition setCoupons (x : list Coupon.t) (db : DB) : DB :=
  mkDB (products db) (productVariants db) x (carts db) (cartItems db)
       (addresses db) (orders db) (orderItems db) (payments db).
Definition setCarts (x : list Cart.t) (db : DB) : DB :=
  mkDB (products db) (productVariants db) (coupons db) x (cartItems db)
       (addresses db) (orders db) (orderItems db) (payments db).
Definition setCartItems (x : list CartItem.t) (db : DB) : DB :=
  mkDB (products db) (productVariants db) (coupons db) (carts db) x
       (addresses db) (orders db) (orderItems db) (payments db).
Definition setOrders (x : list Order.t) (db : DB) : DB :=
  mkDB (products db) (productVariants db) (coupons db) (carts db)
       (cartItems db) (addresses db) x (orderItems db) (payments db).
Definition setOrderItems (x : list OrderItem.t) (db : DB) : DB :=
  mkDB (products db) (productVariants db) (coupons db) (carts db)
       (cartItems db) (addresses db) (orders db) x (payments db).
Definition setPayments (x : list Payment.t) (db : DB) : DB :=
  mkDB (products db) (productVariants db) (coupons db) (carts db)
       (cartItems db) (addresses db) (orders db) (orderItems db) x.

(* ===================================================================== *)
(** * The monad of service methods *)
(* ===================================================================== *)

Inductive Result (A : Type) : Type :=
| Ok (a : A)
| Throw (e : Exception).
Arguments Ok {A} a.
Arguments Throw {A} e.

Definition Prisma (A : Type) : Type := DB -> Result A * DB.

Definition ret {A} (a : A) : Prisma A := fun db => (Ok a, db).

Definition throw {A} (e : Exception) : Prisma A := fun db => (Throw e, db).

Definition bind {A B} (m : Prisma A) (k : A -> Prisma B) : Prisma B :=
  fun db =>
    match m db with
    | (Ok a, db') => k a db'
    | (Throw e, db') => (Throw e, db')
    end.

Declare Scope prisma_scope.
Delimit Scope prisma_scope with prisma.
Notation "x <- m ;; k" := (bind m (fun x => k))
  (at level 100, m at next level, right associativity) : prisma_scope.
Notation "m ;; k" := (bind m (fun _ => k))
  (at level 100, right associativity) : prisma_scope.
Local Open Scope prisma_scope.

(** A query that only reads. *)
Definition query {A} (f : DB -> A) : Prisma A := fun db => (Ok (f db), db).

(** A write that cannot fail. *)
Definition exec (f : DB -> DB) : Prisma unit := fun db => (Ok tt, f db).

(** [prisma.$transaction(async (tx) => ...)]: the callback's writes are kept
    when it returns and discarded when it throws. *)
Definition transaction {A} (body : Prisma A) : Prisma A :=
  fun db =>
    match body db with
    | (Ok a, db') => (Ok a, db')
    | (Throw e, _) => (Throw e, db)
    end.

(** [for (const x of xs) { await body(x) }] *)
Fixpoint forEach {A} (xs : list A) (body : A -> Prisma unit) : Prisma unit :=
  match xs with
  | [] => ret tt
  | x :: rest => body x ;; forEach rest body
  end.

(* ===================================================================== *)
(** * Prisma client operations on a table *)
(* ===================================================================== *)

Definition findFirst {A} (where_ : A -> bool) (rows : list A) : option A :=
  find where_ rows.

Definition findMany {A} (where_ : A -> bool) (rows : list A) : list A :=
  filter where_ rows.

(** [update({ where, data })] on the rows: the first matching row is
    rewritten and returned; [None] when no row matches. *)
Fixpoint updateRows {A} (where_ : A -> bool) (data : A -> A) (rows : list A)
  : option (A * list A) :=
  match rows with
  | [] => None
  | r :: rest =>
      if where_ r then Some (data r, data r :: rest)
      else match updateRows where_ data rest with
           | Some (r', rest') => Some (r', r :: rest')
           | None => None
           end
  end.

Definition deleteMany {A} (where_ : A -> bool) (rows : list A) : list A :=
  filter (fun r => negb (where_ r)) rows.

Definition update {A} (get : DB -> list A) (set : list A -> DB -> DB)
    (where_ : A -> bool) (data : A -> A) : Prisma A :=
  fun db =>
    match updateRows where_ data (get db) with
    | Some (r, rows') => (Ok r, set rows' db)
    | None => (Throw (PrismaClientError "P2025"), db)
    end.

(** JavaScript truthiness of the values the services test with [if (x)] or
    [x && ...]. *)
Definition truthyInt (x : option Z) : bool :=
  match x with Some n => negb (n =? 0) | None => false end.

Definition truthyString (x : option string) : bool :=
  match x with Some s => negb (String.eqb s "") | None => false end.

(* ===================================================================== *)
(** * Reading a cart with its relations *)
(* ===================================================================== *)

(** A cart item with [include: { variant: { include: { product } } }]. *)
Record CartLine : Type := mkCartLine {
  item : CartItem.t;
  variant : ProductVariant.t;
  product : Product.t
}.

Record CartWithItems : Type := mkCartWithItems {
  cartRow : Cart.t;
  items : list CartLine;
  coupon : option Coupon.t
}.

Definition includeVariant (db : DB) (it : CartItem.t) : option CartLine :=
  match findFirst (fun v => String.eqb (ProductVariant.id v) (CartItem.variantId it))
                  (productVariants db) with
  | Some v =>
      match findFirst (fun p => String.eqb (Product.id p) (ProductVariant.productId v))
                      (products db) with
      | Some p => Some (mkCartLine it v p)
      | None => None
      end
  | None => None
  end.

Fixpoint includeVariants (db : DB) (its : list CartItem.t) : option (list CartLine) :=
  match its with
  | [] => Some []
  | it :: rest =>
      match includeVariant db it, includeVariants db rest with
      | Some l, Some ls => Some (l :: ls)
      | _, _ => None
      end
  end.

Definition cartItemsOf (db : DB) (cartId : string) : list CartItem.t :=
  findMany (fun i => String.eqb (CartItem.cartId i) cartId) (cartItems db).

Definition couponOf (db : DB) (c : Cart.t) : option Coupon.t :=
  match Cart.couponId c with
  | Some cid => findFirst (fun k => String.eqb (Coupon.id k) cid) (coupons db)
  | None => None
  end.

(** [prisma.cart.findUnique({ where: { userId }, include: { items, coupon } })] *)
Definition findCart (userId : string) : Prisma (option CartWithItems) :=
  fun db =>
    match findFirst (fun c => String.eqb (Cart.userId c) userId) (carts db) with
    | None => (Ok None, db)
    | Some c =>
        match includeVariants db (cartItemsOf db (Cart.id c)) with
        | Some lines => (Ok (Some (mkCartWithItems c lines (couponOf db c))), db)
        | None => (Throw (PrismaClientError "inconsistent result"), db)
        end
    end.

(** [(basePrice + priceModifier) * quantity] of one line. *)
Definition unitPriceOf (l : CartLine) : float :=
  (Product.basePrice (product l) + ProductVariant.priceModifier (variant l))%float.

Definition lineTotal (l : CartLine) : float :=
  (unitPriceOf l * Number_of_int (CartItem.quantity (item l)))%float.

(** [items.reduce((sum, item) => sum + (basePrice + priceModifier) * quantity, 0)] *)
Definition cartSubtotal (ls : list CartLine) : float :=
  fold_left (fun sum l => (sum + lineTotal l)%float) ls 0%float.

(** The discount of the attached coupon: the same branch appears in
    [CartService.calculateTotals] and in [OrdersService.checkout]. *)
Definition couponDiscount (coupon : option Coupon.t) (subtotal : float) : float :=
  match coupon with
  | Some c =>
      let couponValue := Coupon.value c in
      match Coupon.type c with
      | CouponType.PERCENTAGE => (subtotal * couponValue / 100)%float
      | CouponType.FIXED_AMOUNT => couponValue
      | CouponType.FREE_SHIPPING => 0%float
      end
  | None => 0%float
  end.

(* ===================================================================== *)
(** * OrdersService.checkout *)
(* ===================================================================== *)

(** An element of the local array [orderItems]. *)
Module OrderItemData.
Record t : Type := mk {
  variantId : string;
  quantity : Z;
  unitPrice : float;
  totalPrice : float;
  productName : string;
  variantColor : string;
  variantSize : string
}.

Definition toRow (orderId : string) (d : t) : OrderItem.t :=
  OrderItem.mk orderId (variantId d) (quantity d) (unitPrice d) (totalPrice d)
               (productName d) (variantColor d) (variantSize d).
End OrderItemData.

Definition orderItemOf (l : CartLine) : OrderItemData.t :=
  OrderItemData.mk (ProductVariant.id (variant l)) (CartItem.quantity (item l))
    (unitPriceOf l) (lineTotal l) (Product.name (product l))
    (ProductVariant.color (variant l)) (ProductVariant.size (variant l)).

(** The loop "Verify stock and calculate totals": it throws at the first
    line whose variant has less stock than the line's quantity. *)
Fixpoint verifyStock (lines : list CartLine) (subtotal : float)
    (orderItems : list OrderItemData.t) : Result (float * list OrderItemData.t) :=
  match lines with
  | [] => Ok (subtotal, orderItems)
  | l :: rest =>
      if ProductVariant.stockQuantity (variant l) <? CartItem.quantity (item l)
      then Throw (InsufficientStockException (ProductVariant.stockQuantity (variant l)))
      else verifyStock rest (subtotal + lineTotal l)%float (orderItems ++ [orderItemOf l])
  end.

(** Flat shipping rate of [checkout]. *)
Definition shippingCostFlat : float := 2500.

(** What [checkout] has computed when it opens the transaction: the values
    the transaction callback closes over. *)
Record CheckoutPlan : Type := mkCheckoutPlan {
  planUserId : string;
  planNotes : option string;
  planCart : Cart.t;
  planAddress : Address.t;
  planOrderItems : list OrderItemData.t;
  planDiscount : float;
  planShippingCost : float;
  planTotals : OrderTotal
}.

(** Lines 70-146 of the service: the reads, the stock check and the price
    computation.  No statement of this part writes. *)
Definition checkoutPrepare (userId : string) (dto : CreateOrderDto.t)
  : Prisma CheckoutPlan :=
  c <- findCart userId ;;
  match c with
  | None => throw EmptyCartException
  | Some cart =>
      if (length (items cart) =? 0)%nat then throw EmptyCartException
      else
        address <- query (fun db =>
          findFirst (fun a => String.eqb (Address.id a) (CreateOrderDto.addressId dto)
                              && String.eqb (Address.userId a) userId)
                    (addresses db)) ;;
        match address with
        | None => throw (NotFoundException "Shipping address")
        | Some address =>
            match verifyStock (items cart) 0%float [] with
            | Throw e => throw e
            | Ok (subtotal, orderItems) =>
                let discount := couponDiscount (coupon cart) subtotal in
                let shippingCost := shippingCostFlat in
                ret (mkCheckoutPlan userId (CreateOrderDto.notes dto) (cartRow cart)
                       address orderItems discount shippingCost
                       (calculateOrderTotal subtotal shippingCost discount))
            end
        end
  end.

(** [tx.order.create({ data: { ..., items: { create: orderItems } } })]; the
    order id and the order number are unique columns. *)
Definition createOrder (o : Order.t) (its : list OrderItem.t)
  : Prisma (Order.t * list OrderItem.t) :=
  fun db =>
    if existsb (fun x => String.eqb (Order.id x) (Order.id o)
                         || String.eqb (Order.orderNumber x) (Order.orderNumber o))
               (orders db)
    then (Throw (PrismaClientError "P2002"), db)
    else (Ok (o, its),
          setOrderItems (orderItems db ++ its) (setOrders (orders db ++ [o]) db)).

Definition decrementStock (variantId : string) (n : Z) : Prisma unit :=
  update productVariants setProductVariants
    (fun v => String.eqb (ProductVariant.id v) variantId)
    (ProductVariant.withStock (fun s => s - n)) ;;
  ret tt.

Definition incrementStock (variantId : string) (n : Z) : Prisma unit :=
  update productVariants setProductVariants
    (fun v => String.eqb (ProductVariant.id v) variantId)
    (ProductVariant.withStock (fun s => s + n)) ;;
  ret tt.

(** The callback passed to [$transaction] (lines 149-210).  [orderId] is the
    key the database generates for the new row and [orderNumber] the result
    of [generateOrderNumber()]. *)
Definition checkoutTransaction (orderId orderNumber : string) (p : CheckoutPlan)
  : Prisma (Order.t * list OrderItem.t) :=
  newOrder <- createOrder
    (Order.mk orderId orderNumber (planUserId p) OrderStatus.PENDING
       (discountedSubtotal (planTotals p)) (planDiscount p) (planShippingCost p)
       (vat (planTotals p)) (total (planTotals p))
       (Address.fields (planAddress p)) (planNotes p)
       (Cart.couponId (planCart p)))
    (map (OrderItemData.toRow orderId) (planOrderItems p)) ;;
  forEach (planOrderItems p) (fun item =>
    decrementStock (OrderItemData.variantId item) (OrderItemData.quantity item)) ;;
  (if truthyString (Cart.couponId (planCart p)) then
     match Cart.couponId (planCart p) with
     | Some couponId =>
         update coupons setCoupons
           (fun k => String.eqb (Coupon.id k) couponId)
           (Coupon.withUsedCount (fun n => n + 1)) ;;
         ret tt
     | None => ret tt
     end
   else ret tt) ;;
  exec (fun db =>
    setCartItems
      (deleteMany (fun i => String.eqb (CartItem.cartId i) (Cart.id (planCart p)))
                  (cartItems db)) db) ;;
  update carts setCarts
    (fun c => String.eqb (Cart.id c) (Cart.id (planCart p)))
    (Cart.withCouponId None) ;;
  ret newOrder.

Definition checkout (orderId orderNumber : string) (userId : string)
    (dto : CreateOrderDto.t) : Prisma (Order.t * list OrderItem.t) :=
  plan <- checkoutPrepare userId dto ;;
  transaction (checkoutTransaction orderId orderNumber plan).

(* ===================================================================== *)
(** * OrdersService.cancelOrder *)
(* ===================================================================== *)

Definition orderItemsOf (db : DB) (orderId : string) : list OrderItem.t :=
  findMany (fun i => String.eqb (OrderItem.orderId i) orderId) (orderItems db).

(** The callback passed to [$transaction] by [cancelOrder]: "Restore stock",
    then "Update order status". *)
Definition cancelTransaction (orderId : string) (its : list OrderItem.t)
  : Prisma Order.t :=
  forEach its (fun item =>
    incrementStock (OrderItem.variantId item) (OrderItem.quantity item)) ;;
  update orders setOrders
    (fun o => String.eqb (Order.id o) orderId)
    (Order.withStatus OrderStatus.CANCELLED).

Definition cancelOrder (userId orderId : string) : Prisma Order.t :=
  order <- query (fun db =>
    match findFirst (fun o => String.eqb (Order.id o) orderId
                              && String.eqb (Order.userId o) userId) (orders db) with
    | Some o => Some (o, orderItemsOf db (Order.id o))
    | None => None
    end) ;;
  match order with
  | None => throw OrderNotFoundException
  | Some (order, orderItems) =>
      if negb (OrderStatus.includes [OrderStatus.PENDING; OrderStatus.CONFIRMED]
                                    (Order.status order))
      then throw OrderCancelNotAllowedException
      else
        transaction (cancelTransaction orderId orderItems)
  end.

(* ===================================================================== *)
(** * PaymentsService.handleWebhook *)
(* ===================================================================== *)

Definition reconcile (now : Z) (dto : OPayWebhookDto.t) (p : Payment.t) : Payment.t :=
  Payment.mk (Payment.id p) (Payment.orderId p) (Payment.reference p)
    (Payment.amount p)
    (WebhookStatus.toPaymentStatus (OPayWebhookDto.status dto))
    (Some (OPayWebhookDto.reference dto))
    (if WebhookStatus.isSuccess (OPayWebhookDto.status dto) then Some now else None)
    (Some dto).

Definition handleWebhook (now : Z) (dto : OPayWebhookDto.t) : Prisma Payment.t :=
  payment <- query (fun db =>
    findFirst (fun p => String.eqb (Payment.reference p) (OPayWebhookDto.reference dto))
              (payments db)) ;;
  match payment with
  | None => throw PaymentFailedException
  | Some payment =>
      if notSame (Payment.amount payment) (OPayWebhookDto.amount dto)
      then throw PaymentFailedException
      else
        transaction (
          updated <- update payments setPayments
            (fun p => String.eqb (Payment.id p) (Payment.id payment))
            (reconcile now dto) ;;
          (if WebhookStatus.isSuccess (OPayWebhookDto.status dto) then
             update orders setOrders
               (fun o => String.eqb (Order.id o) (Payment.orderId payment))
               (Order.withStatus OrderStatus.CONFIRMED) ;;
             ret tt
           else ret tt) ;;
          ret updated)
  end.

(* ===================================================================== *)
(** * CartService: the cart view and applyCoupon *)
(* ===================================================================== *)

Module CartResponse.
Record t : Type := mk {
  id : string;
  itemCount : Z;
  subtotal : float;
  discount : float;
  total : float;
  coupon : option (string * CouponType.t * float)
}.
End CartResponse.

(** [CartService.calculateTotals] *)
Definition calculateTotals (ls : list CartLine) (coupon : option Coupon.t)
  : float * float * float :=
  let subtotal := cartSubtotal ls in
  let discount := couponDiscount coupon subtotal in
  let total := Math_max 0%float (subtotal - discount)%float in
  (subtotal, discount, total).

(** [CartService.getCart] *)
Definition getCart (userId : string) : Prisma CartResponse.t :=
  c <- findCart userId ;;
  match c with
  | None => ret (CartResponse.mk "" 0 0%float 0%float 0%float None)
  | Some cart =>
      let '(subtotal, discount, total) := calculateTotals (items cart) (coupon cart) in
      ret (CartResponse.mk (Cart.id (cartRow cart))
             (fold_left (fun sum l => sum + CartItem.quantity (item l)) (items cart) 0)
             subtotal discount total
             (match coupon cart with
              | Some k => Some (Coupon.code k, Coupon.type k, Coupon.value k)
              | None => None
              end))
  end.

Section ApplyCoupon.

(** [formatNaira] of common/helpers renders an amount for messages; its
    file is not part of the sources at hand, so it is a parameter. *)
Variable formatNaira : float -> string.

Definition COUPON_APPLIED (discount : string) : string :=
  "Coupon applied! You saved " ++ discount ++ ".".

(** The tail of [applyCoupon]: "Apply coupon to cart", then the cart view
    with its message. *)
Definition attachCoupon (userId : string) (cart : CartWithItems)
    (coupon : Coupon.t) : Prisma (CartResponse.t * string) :=
  update carts setCarts
    (fun c => String.eqb (Cart.id c) (Cart.id (cartRow cart)))
    (Cart.withCouponId (Some (Coupon.id coupon))) ;;
  result <- getCart userId ;;
  ret (result, COUPON_APPLIED (formatNaira (orZero (CartResponse.discount result)))).

(** [now] is the value of [new Date()], [code] is [dto.code]. *)
Definition applyCoupon (now : Z) (userId : string) (code : string)
  : Prisma (CartResponse.t * string) :=
  c <- findCart userId ;;
  match c with
  | None => throw EmptyCartException
  | Some cart =>
      if (length (items cart) =? 0)%nat then throw EmptyCartException
      else
        found <- query (fun db =>
          findFirst (fun k => String.eqb (Coupon.code k) code) (coupons db)) ;;
        match found with
        | None => throw (InvalidCouponException MESSAGES.CART_INVALID_COUPON)
        | Some coupon =>
            if negb (Coupon.isActive coupon)
            then throw (InvalidCouponException MESSAGES.COUPON_NOT_ACTIVE)
            else if (Coupon.startsAt coupon >? now) || (Coupon.expiresAt coupon <? now)
            then throw (InvalidCouponException MESSAGES.COUPON_EXPIRED)
            else if truthyInt (Coupon.maxUses coupon)
                    && match Coupon.maxUses coupon with
                       | Some maxUses => Coupon.usedCount coupon >=? maxUses
                       | None => false
                       end
            then throw (InvalidCouponException MESSAGES.CART_COUPON_MAX_USES_REACHED)
            else
              let subtotal := cartSubtotal (items cart) in
              match Coupon.minOrderAmount coupon with
              | Some minOrderAmount =>
                  if (subtotal <? minOrderAmount)%float
                  then throw (CouponMinNotMetException (formatNaira minOrderAmount))
                  else attachCoupon userId cart coupon
              | None => attachCoupon userId cart coupon
              end
        end
  end.
End ApplyCoupon.

(* ===================================================================== *)
(** * Observations on the store *)
(* ===================================================================== *)

(** The filters of the lookups, by name. *)
Definition byUserId (userId : string) : Cart.t -> bool :=
  fun c => String.eqb (Cart.userId c) userId.
Definition byCartId (id : string) : Cart.t -> bool :=
  fun c => String.eqb (Cart.id c) id.
Definition byCode (code : string) : Coupon.t -> bool :=
  fun k => String.eqb (Coupon.code k) code.
Definition byCouponId (id : string) : Coupon.t -> bool :=
  fun k => String.eqb (Coupon.id k) id.
Definition byVariantId (id : string) : ProductVariant.t -> bool :=
  fun v => String.eqb (ProductVariant.id v) id.
Definition byOwnedAddress (id userId : string) : Address.t -> bool :=
  fun a => String.eqb (Address.id a) id && String.eqb (Address.userId a) userId.
Definition byOwnedOrder (id userId : string) : Order.t -> bool :=
  fun o => String.eqb (Order.id o) id && String.eqb (Order.userId o) userId.
(** The filters [{ reference }], [{ id }] of the payment and order lookups. *)
Definition byReference (reference : string) : Payment.t -> bool :=
  fun x => String.eqb (Payment.reference x) reference.
Definition byPaymentId (id : string) : Payment.t -> bool :=
  fun x => String.eqb (Payment.id x) id.
Definition byOrderId (id : string) : Order.t -> bool :=
  fun x => String.eqb (Order.id x) id.

(** A cart line that asks for no more than the stock of its variant: the
    negation of the test [stockQuantity < quantity] of [checkout]. *)
Definition withinStock (l : CartLine) : Prop :=
  CartItem.quantity (item l) <= ProductVariant.stockQuantity (variant l).

(** The [data] of [tx.order.create] in [checkout], for a plan. *)
Definition plannedOrder (orderId orderNumber : string) (p : CheckoutPlan) : Order.t :=
  Order.mk orderId orderNumber (planUserId p) OrderStatus.PENDING
    (discountedSubtotal (planTotals p)) (planDiscount p) (planShippingCost p)
    (vat (planTotals p)) (total (planTotals p))
    (Address.fields (planAddress p)) (planNotes p)
    (Cart.couponId (planCart p)).

(** The unique columns of a new order are taken. *)
Definition orderNumberTaken (orderId orderNumber : string) (db : DB) : bool :=
  existsb (fun x => String.eqb (Order.id x) orderId
                    || String.eqb (Order.orderNumber x) orderNumber)
          (orders db).

(** The stock of a variant, when the variant exists. *)
Definition stockOf (db : DB) (variantId : string) : option Z :=
  option_map ProductVariant.stockQuantity
    (findFirst (fun v => String.eqb (ProductVariant.id v) variantId) (productVariants db)).

(** Units of a variant on order-item rows: what has been sold of it. *)
Definition unitsSold (db : DB) (variantId : string) : Z :=
  fold_right (fun i acc =>
      if String.eqb (OrderItem.variantId i) variantId then OrderItem.quantity i + acc
      else acc)
    0 (orderItems db).

(** Units of a variant in a list of (variant, quantity) pairs. *)
Fixpoint quantityOf (variantId : string) (l : list (string * Z)) : Z :=
  match l with
  | [] => 0
  | (v, q) :: rest =>
      if String.eqb v variantId then q + quantityOf variantId rest
      else quantityOf variantId rest
  end.

(** The (variant, quantity) pairs of a list of items. *)
Definition movements {I} (vid : I -> string) (delta : I -> Z) (its : list I)
  : list (string * Z) :=
  map (fun i => (vid i, delta i)) its.

Fixpoint uniqueStrings (l : list string) : bool :=
  match l with
  | [] => true
  | x :: rest => negb (existsb (String.eqb x) rest) && uniqueStrings rest
  end.

(** The unique index [cartId_variantId] of the cart items: within a cart no
    two lines name the same variant. *)
Definition cartLinesUnique (db : DB) (cartId : string) : bool :=
  uniqueStrings (map CartItem.variantId (cartItemsOf db cartId)).

Definition cartItemsUnique (db : DB) : bool :=
  forallb (fun i => cartLinesUnique db (CartItem.cartId i)) (cartItems db).

(** Primary keys. *)
Definition orderIdsUnique (db : DB) : bool := uniqueStrings (map Order.id (orders db)).
Definition cartIdsUnique (db : DB) : bool := uniqueStrings (map Cart.id (carts db)).

(** Foreign key of order items: the variant of every item of the order
    exists. *)
Definition orderVariantsExist (db : DB) (orderId : string) : bool :=
  forallb (fun i =>
      existsb (fun v => String.eqb (ProductVariant.id v) (OrderItem.variantId i))
              (productVariants db))
    (orderItemsOf db orderId).

(* ===================================================================== *)
(** * Several checkout requests: one after another, and interleaved *)
(* ===================================================================== *)

Record CheckoutRequest : Type := mkCheckoutRequest {
  reqOrderId : string;
  reqOrderNumber : string;
  reqUserId : string;
  reqDto : CreateOrderDto.t
}.

Definition runCheckout (r : CheckoutRequest) (db : DB) : DB :=
  snd (checkout (reqOrderId r) (reqOrderNumber r) (reqUserId r) (reqDto r) db).

(** Requests served one after another. *)
Definition runCheckouts (rs : list CheckoutRequest) (db : DB) : DB :=
  fold_left (fun db r => runCheckout r db) rs db.

(** Requests served by an event loop.  [checkout] awaits the database
    between its reads and its transaction, so another request may run in
    between.  [Prepare i] lets request [i] run up to the transaction,
    [Commit i] lets it run its transaction.  (The two reads of the first
    part are taken together and the transaction is taken as one step: the
    schedules of this model are among those of the real handler.) *)
Inductive Event : Type :=
| Prepare (i : nat)
| Commit (i : nat).

Fixpoint pendingPlan (i : nat) (pending : list (nat * CheckoutPlan))
  : option CheckoutPlan :=
  match pending with
  | [] => None
  | (j, p) :: rest => if Nat.eqb i j then Some p else pendingPlan i rest
  end.

Definition stepEvent (rs : list CheckoutRequest) (st : DB * list (nat * CheckoutPlan))
    (e : Event) : DB * list (nat * CheckoutPlan) :=
  let '(db, pending) := st in
  match e with
  | Prepare i =>
      match nth_error rs i with
      | Some r =>
          match checkoutPrepare (reqUserId r) (reqDto r) db with
          | (Ok plan, db') => (db', (i, plan) :: pending)
          | (Throw _, db') => (db', pending)
          end
      | None => st
      end
  | Commit i =>
      match nth_error rs i, pendingPlan i pending with
      | Some r, Some plan =>
          (snd (transaction
                  (checkoutTransaction (reqOrderId r) (reqOrderNumber r) plan) db),
           filter (fun jp => negb (Nat.eqb i (fst jp))) pending)
      | _, _ => st
      end
  end.

Definition runSchedule (rs : list CheckoutRequest) (schedule : list Event) (db : DB)
  : DB :=
  fst (fold_left (stepEvent rs) schedule (db, [])).

(* ===================================================================== *)
(** * Example data *)
(* ===================================================================== *)

Module Example.
Definition lagos : ShippingAddress :=
  mkShippingAddress "Ada" "Obi" "08030000000" "1 Marina" "Lagos" "Lagos"
                    "100001" "Nigeria".

(** One pending order of user [u1] with its pending payment. *)
Definition order1 : Order.t :=
  Order.mk "o1" "VT-1" "u1" OrderStatus.PENDING 9000 1000 2500 675 12175
           lagos None None.
Definition payment1 : Payment.t :=
  Payment.mk "pay1" "o1" "PAY-1" 12175 PaymentStatus.PENDING None None None.
Definition paymentsDB : DB := mkDB [] [] [] [] [] [] [order1] [] [payment1].

Definition callback (status : WebhookStatus.t) (amount : float) : OPayWebhookDto.t :=
  OPayWebhookDto.mk "o1" "PAY-1" status amount "NGN" None.

(** A shop with one product in two variants, two customers with a cart
    holding one unit of variant [vA] each, and one coupon of 10 percent.
    The stock of [vA], the coupon row and the coupon attached to the
    first cart vary. *)
Definition dress : Product.t := Product.mk "p1" "Ankara Dress" 10000.
Definition variantA (stock : Z) : ProductVariant.t :=
  ProductVariant.mk "vA" "p1" "Red" "M" 0 stock true.
Definition variantB : ProductVariant.t :=
  ProductVariant.mk "vB" "p1" "Blue" "L" 0 5 true.

Definition save10 (isActive : bool) (expiresAt : Z) (maxUses : option Z)
    (usedCount : Z) (minOrderAmount : option float) : Coupon.t :=
  Coupon.mk "k1" "SAVE10" CouponType.PERCENTAGE 10 isActive 0 expiresAt
            maxUses usedCount minOrderAmount.

Definition shopDB (stockA : Z) (k : Coupon.t) (attached : option string) : DB :=
  mkDB [dress] [variantA stockA; variantB] [k]
       [Cart.mk "c1" "u1" attached; Cart.mk "c2" "u2" None]
       [CartItem.mk "i1" "c1" "vA" 1; CartItem.mk "i2" "c2" "vA" 1]
       [Address.mk "a1" "u1" lagos; Address.mk "a2" "u2" lagos]
       [] [] [].

Definition toLagos (addressId : string) : CreateOrderDto.t :=
  CreateOrderDto.mk addressId None.

(** A stand-in for [formatNaira] where a concrete rendering is needed. *)
Definition plainNaira (amount : float) : string := "NGN".

(** The pending order [o1] with two items: two units of [vA] and one
    unit of [vB]. *)
Definition cancelDB : DB :=
  mkDB [dress] [variantA 1; variantB] [] [] [] [] [order1]
       [OrderItem.mk "o1" "vA" 2 10000 20000 "Ankara Dress" "Red" "M";
        OrderItem.mk "o1" "vB" 1 10000 10000 "Ankara Dress" "Blue" "L"]
       [].

(** The two customers check out. *)
Definition twoRequests : list CheckoutRequest :=
  [mkCheckoutRequest "o1" "VT-1" "u1" (toLagos "a1");
   mkCheckoutRequest "o2" "VT-2" "u2" (toLagos "a2")].
(** A customer [u3] with three scarves at 1000.30 in the cart, and a
    coupon that asks for an order of 3000.90 at least. *)
Definition scarf : Product.t := Product.mk "p2" "Silk Scarf" 1000.30.
Definition scarfVariant : ProductVariant.t :=
  ProductVariant.mk "vS" "p2" "Green" "One" 0 10 true.
Definition scarf10 : Coupon.t :=
  Coupon.mk "k2" "SCARF10" CouponType.PERCENTAGE 10 true 0 1000
            None 0 (Some 3000.90%float).
Definition scarfDB : DB :=
  mkDB [scarf] [scarfVariant] [scarf10]
       [Cart.mk "c3" "u3" None]
       [CartItem.mk "i3" "c3" "vS" 3]
       [] [] [] [].

(** A customer [u4] whose cart asks for more than the stock on both of
    its lines: three units of [vA], of which two are left, then nine of
    [vB], of which five are left. *)
Definition greedyDB : DB :=
  mkDB [dress] [variantA 2; variantB] []
       [Cart.mk "c4" "u4" None]
       [CartItem.mk "i4" "c4" "vA" 3; CartItem.mk "i5" "c4" "vB" 9]
       [Address.mk "a4" "u4" lagos]
       [] [] [].
End Example.

(* ===================================================================== *)
(** * Further client operations *)
(* ===================================================================== *)

From Stdlib Require DecimalString DecimalNat.

(** [delete({ where })] on the rows: the first matching row is removed and
    returned; [None] when no row matches. *)
Fixpoint deleteRow {A} (where_ : A -> bool) (rows : list A) : option (A * list A) :=
  match rows with
  | [] => None
  | r :: rest =>
      if where_ r then Some (r, rest)
      else match deleteRow where_ rest with
           | Some (r', rest') => Some (r', r :: rest')
           | None => None
           end
  end.

Definition delete {A} (get : DB -> list A) (set : list A -> DB -> DB)
    (where_ : A -> bool) : Prisma A :=
  fun db =>
    match deleteRow where_ (get db) with
    | Some (r, rows') => (Ok r, set rows' db)
    | None => (Throw (PrismaClientError "P2025"), db)
    end.

(** The filters of the cart-item lookups. *)
Definition byCartAndVariant (cartId variantId : string) : CartItem.t -> bool :=
  fun i => String.eqb (CartItem.cartId i) cartId
           && String.eqb (CartItem.variantId i) variantId.
Definition byItemId (id : string) : CartItem.t -> bool :=
  fun i => String.eqb (CartItem.id i) id.
Definition byItemInCart (id cartId : string) : CartItem.t -> bool :=
  fun i => String.eqb (CartItem.id i) id && String.eqb (CartItem.cartId i) cartId.

(** [data: { quantity }] on a cart item. *)
Definition withQuantity (q : Z) (i : CartItem.t) : CartItem.t :=
  CartItem.mk (CartItem.id i) (CartItem.cartId i) (CartItem.variantId i) q.

(* ===================================================================== *)
(** * Services that throw further exceptions *)
(* ===================================================================== *)

(** [addItem] and [initializePayment] throw two exceptions beside those of
    the services above. *)
Inductive ServiceException : Type :=
| Business (e : Exception)
| OutOfStockException
| PaymentAlreadyPaidException.

Definition serviceErrorCode (e : ServiceException) : string :=
  match e with
  | Business e => errorCode e
  | OutOfStockException => "OUT_OF_STOCK"
  | PaymentAlreadyPaidException => "ALREADY_PAID"
  end.

Inductive Outcome (A : Type) : Type :=
| Returned (a : A)
| Raised (e : ServiceException).
Arguments Returned {A} a.
Arguments Raised {A} e.

Definition Service (A : Type) : Type := DB -> Outcome A * DB.

Definition retS {A} (a : A) : Service A := fun db => (Returned a, db).

Definition raise {A} (e : ServiceException) : Service A := fun db => (Raised e, db).

Definition bindS {A B} (m : Service A) (k : A -> Service B) : Service B :=
  fun db =>
    match m db with
    | (Returned a, db') => k a db'
    | (Raised e, db') => (Raised e, db')
    end.

(** A computation of the first monad, run in the second. *)
Definition lift {A} (m : Prisma A) : Service A :=
  fun db =>
    match m db with
    | (Ok a, db') => (Returned a, db')
    | (Throw e, db') => (Raised (Business e), db')
    end.

Declare Scope service_scope.
Delimit Scope service_scope with service.
Notation "x <- m ;; k" := (bindS m (fun x => k))
  (at level 100, m at next level, right associativity) : service_scope.
Notation "m ;; k" := (bindS m (fun _ => k))
  (at level 100, right associativity) : service_scope.

(* ===================================================================== *)
(** * CartService: the other methods *)
(* ===================================================================== *)

Module CART_MESSAGES.
Definition ITEM_ADDED := "Item has been added to your cart.".
Definition ITEM_UPDATED := "Cart has been updated.".
Definition ITEM_REMOVED := "Item has been removed from your cart.".
Definition CART_CLEARED := "Your cart is now empty.".
Definition COUPON_REMOVED := "Coupon has been removed.".
End CART_MESSAGES.

(** [AddCartItemDto] (cart schema). *)
Module AddCartItemDto.
Record t : Type := mk { variantId : string; quantity : Z }.
End AddCartItemDto.

(** [prisma.cart.create]: the identifier and the owner are unique columns.
    The [expiresAt] column the call also sets is read by none of the
    services and is not part of the row. *)
Definition createCart (c : Cart.t) : Prisma Cart.t :=
  fun db =>
    if existsb (fun x => String.eqb (Cart.id x) (Cart.id c)
                         || String.eqb (Cart.userId x) (Cart.userId c))
               (carts db)
    then (Throw (PrismaClientError "P2002"), db)
    else (Ok c, setCarts (carts db ++ [c]) db).

(** [CartService.getOrCreateCart]; [newCartId] is the key the database
    generates if a row is created. *)
Definition getOrCreateCart (newCartId userId : string) : Prisma string :=
  cart <- query (fun db =>
    findFirst (fun c => String.eqb (Cart.userId c) userId) (carts db)) ;;
  match cart with
  | Some cart => ret (Cart.id cart)
  | None =>
      cart <- createCart (Cart.mk newCartId userId None) ;;
      ret (Cart.id cart)
  end.

(** [prisma.productVariant.findUnique({ where: { id }, include: { product } })] *)
Definition findVariant (variantId : string) : Prisma (option ProductVariant.t) :=
  fun db =>
    match findFirst (fun v => String.eqb (ProductVariant.id v) variantId)
                    (productVariants db) with
    | None => (Ok None, db)
    | Some v =>
        match findFirst (fun p => String.eqb (Product.id p) (ProductVariant.productId v))
                        (products db) with
        | Some _ => (Ok (Some v), db)
        | None => (Throw (PrismaClientError "inconsistent result"), db)
        end
    end.

(** [prisma.cartItem.create]: the identifier and the pair (cart, variant)
    are unique. *)
Definition createCartItem (i : CartItem.t) : Prisma CartItem.t :=
  fun db =>
    if existsb (fun x => String.eqb (CartItem.id x) (CartItem.id i)
                         || (String.eqb (CartItem.cartId x) (CartItem.cartId i)
                             && String.eqb (CartItem.variantId x) (CartItem.variantId i)))
               (cartItems db)
    then (Throw (PrismaClientError "P2002"), db)
    else (Ok i, setCartItems (cartItems db ++ [i]) db).

(** The branch of [addItem] on the line already in the cart. *)
Definition addOrMerge (newItemId cartId : string) (dto : AddCartItemDto.t)
    (variant : ProductVariant.t) (existingItem : option CartItem.t) : Service unit :=
  match existingItem with
  | Some existingItem =>
      let newQuantity := CartItem.quantity existingItem + AddCartItemDto.quantity dto in
      if newQuantity >? ProductVariant.stockQuantity variant
      then raise (Business (InsufficientStockException
                              (ProductVariant.stockQuantity variant)))
      else
        lift (update cartItems setCartItems
                (fun i => String.eqb (CartItem.id i) (CartItem.id existingItem))
                (withQuantity newQuantity) ;;
              ret tt)
  | None =>
      lift (createCartItem
              (CartItem.mk newItemId cartId (AddCartItemDto.variantId dto)
                           (AddCartItemDto.quantity dto)) ;;
            ret tt)
  end.

(** [CartService.addItem]; [newCartId] and [newItemId] are the keys the
    database generates for the rows it may create. *)
Definition addItem (newCartId newItemId : string) (userId : string)
    (dto : AddCartItemDto.t) : Service (CartResponse.t * string) :=
  (variant <- lift (findVariant (AddCartItemDto.variantId dto)) ;;
   match variant with
   | None => raise (Business (NotFoundException "Product variant"))
   | Some variant =>
       if negb (ProductVariant.isActive variant)
       then raise (Business (NotFoundException "Product variant"))
       else if ProductVariant.stockQuantity variant <=? 0
       then raise OutOfStockException
       else if ProductVariant.stockQuantity variant <? AddCartItemDto.quantity dto
       then raise (Business (InsufficientStockException
                               (ProductVariant.stockQuantity variant)))
       else
         cartId <- lift (getOrCreateCart newCartId userId) ;;
         existingItem <- lift (query (fun db =>
           findFirst (fun i => String.eqb (CartItem.cartId i) cartId
                               && String.eqb (CartItem.variantId i)
                                             (AddCartItemDto.variantId dto))
                     (cartItems db))) ;;
         addOrMerge newItemId cartId dto variant existingItem ;;
         result <- lift (getCart userId) ;;
         retS (result, CART_MESSAGES.ITEM_ADDED)
   end)%service.

(** [prisma.cartItem.findFirst({ where: { id, cartId }, include: { variant } })] *)
Definition findItemWithVariant (itemId cartId : string)
  : Prisma (option (CartItem.t * ProductVariant.t)) :=
  fun db =>
    match findFirst (fun i => String.eqb (CartItem.id i) itemId
                              && String.eqb (CartItem.cartId i) cartId)
                    (cartItems db) with
    | None => (Ok None, db)
    | Some i =>
        match findFirst (fun v => String.eqb (ProductVariant.id v) (CartItem.variantId i))
                        (productVariants db) with
        | Some v => (Ok (Some (i, v)), db)
        | None => (Throw (PrismaClientError "inconsistent result"), db)
        end
    end.

(** [CartService.updateItem]; [quantity] is [dto.quantity]. *)
Definition updateItem (userId itemId : string) (quantity : Z)
  : Prisma (CartResponse.t * string) :=
  cart <- query (fun db =>
    findFirst (fun c => String.eqb (Cart.userId c) userId) (carts db)) ;;
  match cart with
  | None => throw EmptyCartException
  | Some cart =>
      item <- findItemWithVariant itemId (Cart.id cart) ;;
      match item with
      | None => throw (NotFoundException "Cart item")
      | Some (item, variant) =>
          if quantity >? ProductVariant.stockQuantity variant
          then throw (InsufficientStockException (ProductVariant.stockQuantity variant))
          else
            update cartItems setCartItems
              (fun i => String.eqb (CartItem.id i) itemId)
              (withQuantity quantity) ;;
            result <- getCart userId ;;
            ret (result, CART_MESSAGES.ITEM_UPDATED)
      end
  end.

(** [CartService.removeItem] *)
Definition removeItem (userId itemId : string) : Prisma (CartResponse.t * string) :=
  cart <- query (fun db =>
    findFirst (fun c => String.eqb (Cart.userId c) userId) (carts db)) ;;
  match cart with
  | None => throw EmptyCartException
  | Some cart =>
      item <- query (fun db =>
        findFirst (fun i => String.eqb (CartItem.id i) itemId
                            && String.eqb (CartItem.cartId i) (Cart.id cart))
                  (cartItems db)) ;;
      match item with
      | None => throw (NotFoundException "Cart item")
      | Some _ =>
          delete cartItems setCartItems
            (fun i => String.eqb (CartItem.id i) itemId) ;;
          result <- getCart userId ;;
          ret (result, CART_MESSAGES.ITEM_REMOVED)
      end
  end.

(** [CartService.clearCart] *)
Definition clearCart (userId : string) : Prisma string :=
  cart <- query (fun db =>
    findFirst (fun c => String.eqb (Cart.userId c) userId) (carts db)) ;;
  (match cart with
   | Some cart =>
       exec (fun db =>
         setCartItems
           (deleteMany (fun i => String.eqb (CartItem.cartId i) (Cart.id cart))
                       (cartItems db)) db) ;;
       update carts setCarts
         (fun c => String.eqb (Cart.id c) (Cart.id cart))
         (Cart.withCouponId None) ;;
       ret tt
   | None => ret tt
   end) ;;
  ret CART_MESSAGES.CART_CLEARED.

(** [CartService.removeCoupon] *)
Definition removeCoupon (userId : string) : Prisma (CartResponse.t * string) :=
  cart <- query (fun db =>
    findFirst (fun c => String.eqb (Cart.userId c) userId) (carts db)) ;;
  match cart with
  | None => throw EmptyCartException
  | Some cart =>
      update carts setCarts
        (fun c => String.eqb (Cart.id c) (Cart.id cart))
        (Cart.withCouponId None) ;;
      result <- getCart userId ;;
      ret (result, CART_MESSAGES.COUPON_REMOVED)
  end.

(** The response [getCart] builds from a cart it has read. *)
Definition cartResponseOf (cart : CartWithItems) : CartResponse.t :=
  let '(subtotal, discount, total) := calculateTotals (items cart) (coupon cart) in
  CartResponse.mk (Cart.id (cartRow cart))
    (fold_left (fun sum l => sum + CartItem.quantity (item l)) (items cart) 0)
    subtotal discount total
    (match coupon cart with
     | Some k => Some (Coupon.code k, Coupon.type k, Coupon.value k)
     | None => None
     end).

(** The quantity of a variant in a cart: that of its line, 0 without
    one. *)
Definition lineQuantity (db : DB) (cartId variantId : string) : Z :=
  match findFirst (byCartAndVariant cartId variantId) (cartItems db) with
  | Some i => CartItem.quantity i
  | None => 0
  end.

(** The owner index of carts: no two carts of one user. *)
Definition cartOwnersUnique (db : DB) : bool :=
  uniqueStrings (map Cart.userId (carts db)).

(** Primary key of cart items. *)
Definition cartItemIdsUnique (db : DB) : bool :=
  uniqueStrings (map CartItem.id (cartItems db)).

(* ===================================================================== *)
(** * OrdersService.updateStatus (admin) *)
(* ===================================================================== *)

(** [status] is [dto.status]: one of the seven order statuses. *)
Definition updateStatus (orderId : string) (status : OrderStatus.t) : Prisma Order.t :=
  order <- query (fun db =>
    findFirst (fun o => String.eqb (Order.id o) orderId) (orders db)) ;;
  match order with
  | None => throw OrderNotFoundException
  | Some _ =>
      update orders setOrders
        (fun o => String.eqb (Order.id o) orderId)
        (Order.withStatus status)
  end.

(* ===================================================================== *)
(** * PaymentsService: initializePayment and initiateRefund *)
(* ===================================================================== *)

Definition PAYMENT_INITIATED := "Payment initiated. Please complete the transaction.".
Definition GENERAL_SUCCESS := "Operation completed successfully.".

(** [data: { status }] on a payment. *)
Definition withPaymentStatus (s : PaymentStatus.t) (p : Payment.t) : Payment.t :=
  Payment.mk (Payment.id p) (Payment.orderId p) (Payment.reference p)
    (Payment.amount p) s (Payment.providerRef p) (Payment.paidAt p)
    (Payment.metadata p).

Definition isPaymentStatus (s : PaymentStatus.t) (p : Payment.t) : bool :=
  match s, Payment.status p with
  | PaymentStatus.PENDING, PaymentStatus.PENDING
  | PaymentStatus.SUCCESS, PaymentStatus.SUCCESS
  | PaymentStatus.FAILED, PaymentStatus.FAILED
  | PaymentStatus.REFUNDED, PaymentStatus.REFUNDED
  | PaymentStatus.PARTIALLY_REFUNDED, PaymentStatus.PARTIALLY_REFUNDED => true
  | _, _ => false
  end.

(** The payments of an order ([include: { payments: true }]). *)
Definition paymentsOf (db : DB) (orderId : string) : list Payment.t :=
  findMany (fun p => String.eqb (Payment.orderId p) orderId) (payments db).

(** [prisma.payment.create]: the identifier and the reference are unique
    columns.  The constant [provider] column is not part of the row. *)
Definition createPayment (p : Payment.t) : Prisma Payment.t :=
  fun db =>
    if existsb (fun x => String.eqb (Payment.id x) (Payment.id p)
                         || String.eqb (Payment.reference x) (Payment.reference p))
               (payments db)
    then (Throw (PrismaClientError "P2002"), db)
    else (Ok p, setPayments (payments db ++ [p]) db).

Module PaymentInitResponse.
Record t : Type := mk { payment : Payment.t; paymentUrl : string; reference : string }.
End PaymentInitResponse.

Section InitializePayment.

(** The front-end address read from the configuration and the rendering of
    a number inside a template string. *)
Variable frontendUrl : string.
Variable numberToText : float -> string.

(** [PaymentsService.generatePaymentUrl] *)
Definition generatePaymentUrl (reference : string) (amount : float) : string :=
  frontendUrl ++ "/payment?ref=" ++ reference ++ "&amount=" ++ numberToText amount.

(** [PaymentsService.initializePayment]; [newPaymentId] is the key the
    database generates and [newReference] the result of
    [generatePaymentReference()], used if a payment is created. *)
Definition initializePayment (newPaymentId newReference : string)
    (userId orderId : string) : Service (PaymentInitResponse.t * string) :=
  (order <- lift (query (fun db =>
     match findFirst (fun o => String.eqb (Order.id o) orderId
                               && String.eqb (Order.userId o) userId) (orders db) with
     | Some o => Some (o, paymentsOf db (Order.id o))
     | None => None
     end)) ;;
   match order with
   | None => raise (Business OrderNotFoundException)
   | Some (order, payments) =>
       match find (isPaymentStatus PaymentStatus.SUCCESS) payments with
       | Some _ => raise PaymentAlreadyPaidException
       | None =>
           match find (isPaymentStatus PaymentStatus.PENDING) payments with
           | Some pendingPayment =>
               retS (PaymentInitResponse.mk pendingPayment
                       (generatePaymentUrl (Payment.reference pendingPayment)
                                           (Order.total order))
                       (Payment.reference pendingPayment),
                     GENERAL_SUCCESS)
           | None =>
               payment <- lift (createPayment
                 (Payment.mk newPaymentId (Order.id order) newReference
                    (Order.total order) PaymentStatus.PENDING None None None)) ;;
               retS (PaymentInitResponse.mk payment
                       (generatePaymentUrl newReference (Order.total order))
                       newReference,
                     PAYMENT_INITIATED)
           end
       end
   end)%service.

End InitializePayment.

(** [PaymentsService.initiateRefund] *)
Definition initiateRefund (paymentId : string) : Prisma Payment.t :=
  payment <- query (fun db =>
    findFirst (fun p => String.eqb (Payment.id p) paymentId) (payments db)) ;;
  match payment with
  | None => throw PaymentFailedException
  | Some payment =>
      if negb (isPaymentStatus PaymentStatus.SUCCESS payment)
      then throw PaymentFailedException
      else
        transaction (
          refunded <- update payments setPayments
            (fun p => String.eqb (Payment.id p) paymentId)
            (withPaymentStatus PaymentStatus.REFUNDED) ;;
          update orders setOrders
            (fun o => String.eqb (Order.id o) (Payment.orderId payment))
            (Order.withStatus OrderStatus.REFUNDED) ;;
          ret refunded)
  end.

(* ===================================================================== *)
(** * Pagination helpers (common/helpers) *)
(* ===================================================================== *)

(** [Math.ceil] *)
Definition Math_ceil (x : Q) : Z := Qceiling x.

(** [calculatePagination]: the pair [{ skip, take }]. *)
Definition calculatePagination (page limit : Z) : Z * Z :=
  ((page - 1) * limit, limit).

Module PaginationMeta.
Record t : Type := mk { page : Z; limit : Z; total : Z; totalPages : Z }.
End PaginationMeta.

(** [createPaginationMeta].  The quotient [total / limit] is taken on
    numbers; for [limit = 0] JavaScript yields an infinity or NaN, which
    the query schemas exclude ([limit] is at least 1). *)
Definition createPaginationMeta (total page limit : Z) : PaginationMeta.t :=
  PaginationMeta.mk page limit total
    (Math_ceil (inject_Z total / inject_Z limit)%Q).

(** [createPaginatedResult] *)
Definition createPaginatedResult {A} (items : list A) (total page limit : Z)
  : list A * PaginationMeta.t :=
  (items, createPaginationMeta total page limit).

(** [findMany({ skip, take })] on the rows a list endpoint has selected. *)
Definition skipTake {A} (skip take : Z) (rows : list A) : list A :=
  firstn (Z.to_nat take) (skipn (Z.to_nat skip) rows).

(** The two queries of a list endpoint ([getUserOrders], [findAll]) on the
    rows [rows] its filter and order select: one page of them, and their
    count, assembled by [createPaginatedResult]. *)
Definition listPage {A} (rows : list A) (page limit : Z) : list A * PaginationMeta.t :=
  let '(skip, take) := calculatePagination page limit in
  createPaginatedResult (skipTake skip take rows) (Z.of_nat (length rows)) page limit.

(* ===================================================================== *)
(** * Further price helpers *)
(* ===================================================================== *)

(** [Math.round((amount * percentage) / 100 * 100) / 100] *)
Definition calculatePercentageDiscount (amount percentage : float) : float :=
  (Math_round (amount * percentage / 100 * 100) / 100)%float.

(** ** The helpers on ranges of amounts

    The exact value of a double, in the integer [n] and the shift that
    [Math_round] works with: a finite number with mantissa [m] and a
    negative exponent [e] is [m / 2^(-e)]. *)
Definition nearestInteger (negative : bool) (m : positive) (e : Z) : Z :=
  Z.shiftr (2 * (if negative then Z.neg m else Z.pos m) + Z.shiftl 1 (- e)) (1 - e).

(** Two doubles with the same unpacked form. *)
Definition identical (a b : float) : bool :=
  match Prim2SF a, Prim2SF b with
  | S754_zero s1, S754_zero s2 | S754_infinity s1, S754_infinity s2 => Bool.eqb s1 s2
  | S754_finite s1 m1 e1, S754_finite s2 m2 e2 =>
      Bool.eqb s1 s2 && Pos.eqb m1 m2 && Z.eqb e1 e2
  | S754_nan, S754_nan => true
  | _, _ => false
  end.

(** The integers [from], [from + 1], ..., [n] of them. *)
Fixpoint countFrom (from : Z) (n : nat) : list Z :=
  match n with
  | O => []
  | S n' => from :: countFrom (from + 1) n'
  end.

(** The integers from 0 to [n]. *)
Definition upTo (n : Z) : list Z := countFrom 0 (S (Z.to_nat n)).

(** The calculator on a discounted amount of [d] kobo: it is returned as
    it is, and the VAT and the total are those of exact arithmetic, or a
    kobo below when the exact VAT falls on half a kobo. *)
Definition vatWithinAKobo (subtotal shippingCost discount : float) (d shipping : Z)
  : bool :=
  let r := calculateOrderTotal subtotal shippingCost discount in
  let exact := Stated.vat d in
  identical (discountedSubtotal r) (ofKobo d)
  && ((identical (vat r) (ofKobo exact)
       && identical (total r) (ofKobo (d + exact + shipping)))
      || (((d * 75) mod 1000 =? 500)
          && identical (vat r) (ofKobo (exact - 1))
          && identical (total r) (ofKobo (d + (exact - 1) + shipping)))).

(** The percentage discount on [k] kobo at [p] percent: the exact
    discount rounded to the kobo, halves upwards, or a kobo below when
    the exact discount falls on half a kobo. *)
Definition discountWithinAKobo (k p : Z) : bool :=
  let d := calculatePercentageDiscount (ofKobo k) (Number_of_int p) in
  let exact := (k * p + 50) / 100 in
  identical d (ofKobo exact)
  || (((k * p) mod 100 =? 50) && identical d (ofKobo (exact - 1))).

(* ===================================================================== *)
(** * Unique slugs (common/helpers, slug helper) *)
(* ===================================================================== *)

(** A counter inside a template string: its decimal digits. *)
Definition counterToText (n : nat) : string :=
  DecimalString.NilEmpty.string_of_uint (Nat.to_uint n).

Section Slug.

(** [generateSlug] rewrites its text with regular expressions on Unicode
    strings; the loop below only calls it. *)
Variable generateSlug : string -> string.

(** The [while] loop of [generateUniqueSlug], run for at most [fuel]
    tests of its condition. *)
Fixpoint generateUniqueSlugLoop (fuel : nat) (text : string)
    (existingSlugs : list string) (slug : string) (counter : nat) : option string :=
  match fuel with
  | O => None
  | S fuel' =>
      if existsb (String.eqb slug) existingSlugs
      then generateUniqueSlugLoop fuel' text existingSlugs
             (generateSlug text ++ "-" ++ counterToText counter) (S counter)
      else Some slug
  end.

(** [generateUniqueSlug], with one test more than there are existing
    slugs. *)
Definition generateUniqueSlug (text : string) (existingSlugs : list string)
  : option string :=
  generateUniqueSlugLoop (S (length existingSlugs)) text existingSlugs
    (generateSlug text) 1.

(** The slugs the loop tries, in order: the plain slug, then the slug
    with the suffixes -1, -2, ... *)
Definition slugCandidate (text : string) (i : nat) : string :=
  match i with
  | O => generateSlug text
  | S _ => generateSlug text ++ "-" ++ counterToText i
  end.

End Slug.

(* ===================================================================== *)
(** * Further example data *)
(* ===================================================================== *)

Module Scenario.
(** The front-end address and a rendering of whole amounts. *)
Definition frontend : string := "http://localhost:3000".
Definition wholeNaira (amount : float) : string :=
  match Prim2SF amount with
  | S754_finite false m e => counterToText (Z.to_nat (Z.shiftl (Z.pos m) e))
  | _ => "0"
  end.

(** The order [o1] of [Example] after a failed payment attempt. *)
Definition failedDB : DB :=
  mkDB [] [] [] [] [] [] [Example.order1] []
       [withPaymentStatus PaymentStatus.FAILED Example.payment1].

(** The shop of [Example] with five units of [vA], the first customer's
    cart holding two of them, and the coupon attached to that cart or
    not. *)
Definition coupon10 : Coupon.t := Example.save10 true 1000 None 0 None.
Definition cartDB (attached : option string) : DB :=
  mkDB [Example.dress] [Example.variantA 5; Example.variantB] [coupon10]
       [Cart.mk "c1" "u1" attached; Cart.mk "c2" "u2" None]
       [CartItem.mk "i1" "c1" "vA" 2; CartItem.mk "i2" "c2" "vA" 1]
       [Address.mk "a1" "u1" Example.lagos; Address.mk "a2" "u2" Example.lagos]
       [] [] [].

(** A customer [u5] with one kimono at 5000.15 in the cart and the
    coupon of 10 percent attached. *)
Definition kimono : Product.t := Product.mk "p3" "Kimono" 5000.15.
Definition kimonoDB : DB :=
  mkDB [kimono] [ProductVariant.mk "vK" "p3" "Black" "M" 0 4 true] [coupon10]
       [Cart.mk "c5" "u5" (Some "k1")]
       [CartItem.mk "i5" "c5" "vK" 1]
       [Address.mk "a5" "u5" Example.lagos]
       [] [] [].
End Scenario.

(* ===================================================================== *)
(** * Pricing calculator: properties *)
(* ===================================================================== *)

Section Numbers.
Local Open Scope float_scope.

(** ** Comparisons of doubles *)

Lemma SFeqb_sameValue (x y : spec_float) : SFeqb x y = true <-> sameValue x y.
Proof.
  unfold SFeqb.
  destruct x as [s1 | s1 | | s1 m1 e1], y as [s2 | s2 | | s2 m2 e2]; cbn;
    try (destruct s1); try (destruct s2);
    try (split; [reflexivity || discriminate
                | reflexivity || contradiction || discriminate
                  || (intros (H & _); discriminate)]);
    try tauto.
  - destruct (Z.compare_spec e1 e2) as [E | E | E];
      try (split; [discriminate | intros (_ & _ & H); lia]).
    fold (Pos.compare m1 m2).
    destruct (Pos.compare_spec m1 m2) as [E' | E' | E']; cbn;
      try (split; [discriminate | intros (_ & H & _); lia]).
    subst. tauto.
  - destruct (Z.compare_spec e1 e2) as [E | E | E];
      try (split; [discriminate | intros (_ & _ & H); lia]).
    fold (Pos.compare m1 m2).
    destruct (Pos.compare_spec m1 m2) as [E' | E' | E']; cbn;
      try (split; [discriminate | intros (_ & H & _); lia]).
    subst. tauto.
Qed.

Lemma sameValue_sym (x y : spec_float) : sameValue x y -> sameValue y x.
Proof. destruct x, y; cbn; intuition congruence. Qed.

Lemma sameValue_trans (x y z : spec_float) :
  sameValue x y -> sameValue y z -> sameValue x z.
Proof. destruct x, y, z; cbn; intuition congruence. Qed.

(** [===] on numbers is symmetric and transitive. *)
Lemma same_sym (a b : float) : (a =? b) = true -> (b =? a) = true.
Proof.
  rewrite !FloatAxioms.eqb_spec, !SFeqb_sameValue. apply sameValue_sym.
Qed.

Lemma same_trans (a b c : float) :
  (a =? b) = true -> (b =? c) = true -> (a =? c) = true.
Proof.
  rewrite !FloatAxioms.eqb_spec, !SFeqb_sameValue. apply sameValue_trans.
Qed.

Lemma is_nan_spec (x : float) : is_nan x = true <-> Prim2SF x = S754_nan.
Proof.
  unfold is_nan. rewrite negb_true_iff, FloatAxioms.eqb_spec. split.
  - intros H. destruct (Prim2SF x) as [s | s | | s m e] eqn:E; trivial; exfalso.
    + discriminate.
    + destruct s; discriminate.
    + assert (Hs : sameValue (S754_finite s m e) (S754_finite s m e)) by (cbn; auto).
      apply SFeqb_sameValue in Hs. congruence.
  - intros ->. reflexivity.
Qed.

Lemma get_sign_spec (x : float) :
  get_sign x = match Prim2SF x with
               | S754_zero s | S754_infinity s | S754_finite s _ _ => s
               | S754_nan => false
               end.
Proof.
  unfold get_sign, is_zero. rewrite FloatAxioms.eqb_spec.
  destruct (Prim2SF x) as [s | s | | s m e] eqn:E.
  - change (Prim2SF zero) with (S754_zero false). cbn.
    rewrite FloatAxioms.ltb_spec, FloatAxioms.div_spec, E.
    change (Prim2SF 1) with (S754_finite false 4503599627370496 (-52)).
    change (Prim2SF 0) with (S754_zero false). destruct s; reflexivity.
  - change (Prim2SF zero) with (S754_zero false).
    replace (SFeqb (S754_infinity s) (S754_zero false)) with false
      by (destruct s; reflexivity).
    rewrite FloatAxioms.ltb_spec, E. destruct s; reflexivity.
  - cbn. rewrite FloatAxioms.ltb_spec, E. reflexivity.
  - change (Prim2SF zero) with (S754_zero false).
    replace (SFeqb (S754_finite s m e) (S754_zero false)) with false
      by (destruct s; reflexivity).
    rewrite FloatAxioms.ltb_spec, E. destruct s; reflexivity.
Qed.

(** ** [Math.max] against zero *)

(** [Math.max(x, 0)] and [Math.max(0, x)] are the same number. *)
Lemma Math_max_zero_comm (x : float) : Math_max x 0 = Math_max 0 x.
Proof.
  unfold Math_max. change (is_nan 0) with false. rewrite orb_false_r. cbn [orb].
  destruct (is_nan x) eqn:Hnan; [reflexivity |].
  rewrite (get_sign_spec x), !FloatAxioms.ltb_spec.
  change (get_sign 0) with false. change (Prim2SF 0) with (S754_zero false).
  assert (Hx : Prim2SF x <> S754_nan).
  { intros E. apply is_nan_spec in E. congruence. }
  destruct (Prim2SF x) as [s | s | | s m e] eqn:E.
  - cbn. destruct s; [reflexivity |].
    apply Prim2SF_inj. now rewrite E.
  - destruct s; reflexivity.
  - now elim Hx.
  - destruct s; reflexivity.
Qed.

(** A positive number is kept; any other number, NaN apart, gives 0. *)
Lemma Math_max_floor (x : float) :
  is_nan x = false ->
  ((0 <? x) = true -> Math_max x 0 = x)
  /\ ((0 <? x) = false -> Math_max x 0 = 0).
Proof.
  intros Hnan. unfold Math_max. rewrite Hnan. change (is_nan 0) with false. cbn [orb].
  rewrite (get_sign_spec x), !FloatAxioms.ltb_spec.
  change (Prim2SF 0) with (S754_zero false).
  assert (Hx : Prim2SF x <> S754_nan).
  { intros E. apply is_nan_spec in E. congruence. }
  destruct (Prim2SF x) as [s | s | | s m e] eqn:E.
  - cbn. split; [discriminate |]. intros _. destruct s; [reflexivity |].
    apply Prim2SF_inj. now rewrite E.
  - destruct s; cbn; split; try discriminate; reflexivity.
  - now elim Hx.
  - destruct s; cbn; split; try discriminate; reflexivity.
Qed.

(** [Math.max(x, 0)] is NaN or a number that is not below 0. *)
Lemma Math_max_not_negative (x : float) : (Math_max x 0 <? 0) = false.
Proof.
  destruct (is_nan x) eqn:Hnan.
  - unfold Math_max. rewrite Hnan. reflexivity.
  - destruct (Math_max_floor x Hnan) as [Hpos Hneg].
    destruct (0 <? x) eqn:Hlt.
    + rewrite (Hpos eq_refl).
      rewrite FloatAxioms.ltb_spec in Hlt |- *.
      change (Prim2SF 0) with (S754_zero false) in *.
      destruct (Prim2SF x) as [s | s | | s m e]; try discriminate;
        destruct s; try discriminate; reflexivity.
    + rewrite (Hneg eq_refl). reflexivity.
Qed.

(** Two doubles with different unpacked forms are different. *)
Lemma different_numbers (a b : float) : Prim2SF a <> Prim2SF b -> a <> b.
Proof. intros H E. apply H. now rewrite E. Qed.

End Numbers.

(** C4, as stated, fails.  For a subtotal of 25001 and a shipping cost of
    2500 without discount, the VAT at 0.075 is 1875.075, which rounds to
    1875.08 at two decimal places, and the total is then 29376.08; the
    calculator returns 1875.07 and 29376.07, because the double product
    [25001 * 0.075] lies just below 1875.075.  Likewise the VAT returned
    on a subtotal of 3 is 0.22, not 0.23. *)
Lemma calculateOrderTotal_vat_a_kobo_short :
  let r := calculateOrderTotal 25001 2500 0 in
  Stated.vat (Stated.discountedSubtotal 2500100 0) = 187508
  /\ Stated.total 2500100 250000 0 = 2937608
  /\ ofKobo 2500100 = 25001%float /\ ofKobo 250000 = 2500%float
  /\ discountedSubtotal r = 25001%float
  /\ vat r = 1875.07%float
  /\ total r = 29376.07%float
  /\ vat r <> ofKobo (Stated.vat (Stated.discountedSubtotal 2500100 0))
  /\ total r <> ofKobo (Stated.total 2500100 250000 0)
  /\ vat (calculateOrderTotal 3 2500 0) = 0.22%float
  /\ ~ (forall subtotal shippingCost discount : Z,
          0 <= subtotal -> 0 <= shippingCost -> 0 <= discount ->
          let c := calculateOrderTotal (ofKobo subtotal) (ofKobo shippingCost)
                     (ofKobo discount) in
          discountedSubtotal c = ofKobo (Stated.discountedSubtotal subtotal discount)
          /\ vat c = ofKobo (Stated.vat (Stated.discountedSubtotal subtotal discount))
          /\ total c = ofKobo (Stated.total subtotal shippingCost discount)).
Proof.
  assert (Hvat : vat (calculateOrderTotal 25001 2500 0)
                 <> ofKobo (Stated.vat (Stated.discountedSubtotal 2500100 0))).
  { apply different_numbers. vm_compute. discriminate. }
  cbv zeta.
  split; [reflexivity |]. split; [reflexivity |].
  split; [vm_compute; reflexivity |]. split; [vm_compute; reflexivity |].
  split; [vm_compute; reflexivity |]. split; [vm_compute; reflexivity |].
  split; [vm_compute; reflexivity |].
  split; [exact Hvat |].
  split; [apply different_numbers; vm_compute; discriminate |].
  split; [vm_compute; reflexivity |].
  intros H.
  destruct (H 2500100 250000 0 ltac:(lia) ltac:(lia) ltac:(lia)) as (_ & E & _).
  apply Hvat. rewrite <- E. vm_compute. reflexivity.
Qed.

(** C4, amended.  [calculateOrderTotal] computes in double-precision
    arithmetic.  The subtotal less the discount is floored at zero before
    VAT: a positive difference is kept, any other difference gives 0, and
    the floored amount is never negative.  The figures returned are that
    amount, the VAT on it ([calculateVAT], the amount times 0.075) and the
    sum of the amount, that VAT and the shipping cost, each rounded by
    [Math.round(x * 100) / 100] on doubles; VAT and total are computed
    from the amount before its rounding.  When the discount leaves
    nothing, the discounted subtotal and the VAT are 0 and the total is
    the rounded shipping cost.  Subtotal 10000, discount 1000 and shipping
    2500 give 9000, 675 and 12175; subtotal 25001 and shipping 2500 give a
    VAT of 1875.07 and a total of 29376.07, a kobo below the figures of
    exact decimal arithmetic.  The calculator is a function of its three
    arguments: it reads and writes nothing else. *)
Theorem calculateOrderTotal_correct (subtotal shippingCost discount : float) :
  let difference := (subtotal - discount)%float in
  let floored := Math_max difference 0 in
  let r := calculateOrderTotal subtotal shippingCost discount in
  (discountedSubtotal r = roundPrice floored
   /\ calculateVAT floored = roundPrice (floored * 0.075)%float
   /\ vat r = roundPrice (calculateVAT floored)
   /\ total r = roundPrice (floored + calculateVAT floored + shippingCost)%float)
  /\ (floored <? 0)%float = false
  /\ (is_nan difference = false -> (0 <? difference)%float = true ->
      floored = difference)
  /\ (is_nan difference = false -> (0 <? difference)%float = false ->
      floored = 0%float
      /\ discountedSubtotal r = 0%float /\ vat r = 0%float
      /\ total r = roundPrice (0 + shippingCost)%float)
  /\ calculateOrderTotal 10000 2500 1000
     = {| vat := 675; total := 12175; discountedSubtotal := 9000 |}
  /\ calculateOrderTotal 1000 2500 1500
     = {| vat := 0; total := 2500; discountedSubtotal := 0 |}
  /\ calculateOrderTotal 25001 2500 0
     = {| vat := 1875.07; total := 29376.07; discountedSubtotal := 25001 |}
  /\ calculateOrderTotal 5000.15 2500 500.015
     = {| vat := 337.51; total := 7337.65; discountedSubtotal := 4500.13 |}.
Proof.
  intros difference floored r.
  split; [repeat split |].
  split; [apply Math_max_not_negative |].
  split; [intros Hnan Hpos; now apply Math_max_floor |].
  split.
  { intros Hnan Hneg.
    assert (E : floored = 0%float) by now apply Math_max_floor.
    split; [exact E |].
    unfold r, calculateOrderTotal. fold difference. fold floored. rewrite E.
    cbn [discountedSubtotal vat total].
    split; [vm_compute; reflexivity |]. split; [vm_compute; reflexivity |].
    replace (0 + calculateVAT 0)%float with 0%float by (vm_compute; reflexivity).
    reflexivity. }
  repeat split; vm_compute; reflexivity.
Qed.

Lemma calculateOrderTotal_correct_witness :
  (is_nan (10000 - 1000)%float = false /\ (0 <? 10000 - 1000)%float = true
   /\ Math_max (10000 - 1000)%float 0 = 9000%float)
  /\ (is_nan (1000 - 1500)%float = false /\ (0 <? 1000 - 1500)%float = false
      /\ total (calculateOrderTotal 1000 2500 1500) = 2500%float).
Proof.
  split.
  - split; [reflexivity |]. split; [reflexivity |].
    destruct (calculateOrderTotal_correct 10000 2500 1000) as (_ & _ & H & _).
    rewrite (H eq_refl eq_refl). vm_compute. reflexivity.
  - split; [reflexivity |]. split; [reflexivity |].
    destruct (calculateOrderTotal_correct 1000 2500 1500) as (_ & _ & _ & H & _).
    destruct (H eq_refl eq_refl) as (_ & _ & _ & E).
    rewrite E. vm_compute. reflexivity.
Defined.

(* ===================================================================== *)
(** * Tables: lookups after updates *)
(* ===================================================================== *)

Section Tables.
Context {A : Type}.
Implicit Types (w q : A -> bool) (data : A -> A) (rows : list A).

Lemma updateRows_found w data rows r :
  find w rows = Some r ->
  exists rows', updateRows w data rows = Some (data r, rows').
Proof.
  induction rows as [| x rest IH]; simpl; [discriminate |].
  destruct (w x).
  - intros [= ->]. eauto.
  - intros H. destruct (IH H) as [rows' ->]. eauto.
Qed.

Lemma updateRows_source w data rows r' rows' :
  updateRows w data rows = Some (r', rows') ->
  exists r, find w rows = Some r /\ r' = data r.
Proof.
  revert rows'. induction rows as [| x rest IH]; simpl; intros rows'; [discriminate |].
  destruct (w x).
  - intros [= <- <-]. eauto.
  - destruct (updateRows w data rest) as [[y ys] |]; [| discriminate].
    intros [= <- <-]. eapply IH. reflexivity.
Qed.

(** Two updates through the same filter compose, when the first keeps
    the filter's verdict on every row. *)
Lemma updateRows_twice w data1 data2 rows r1 rows1 :
  (forall r, w (data1 r) = w r) ->
  updateRows w data1 rows = Some (r1, rows1) ->
  updateRows w data2 rows1 =
  updateRows w (fun r => data2 (data1 r)) rows.
Proof.
  intros Hw. revert rows1.
  induction rows as [| x rest IH]; simpl; intros rows1; [discriminate |].
  destruct (w x) eqn:Hx.
  - intros [= <- <-]. simpl. now rewrite Hw, Hx.
  - destruct (updateRows w data1 rest) as [[y ys] |]; [| discriminate].
    intros [= <- <-]. simpl. rewrite Hx.
    now rewrite (IH ys eq_refl).
Qed.

(** A lookup through a filter whose verdict [data] keeps finds the row
    it found before, as it was or as [data] rewrote it. *)
Lemma find_updateRows q w data rows r' rows' :
  (forall r, q (data r) = q r) ->
  updateRows w data rows = Some (r', rows') ->
  find q rows' = find q rows
  \/ exists r, find q rows = Some r /\ find q rows' = Some (data r).
Proof.
  intros Hq. revert rows'.
  induction rows as [| x rest IH]; simpl; intros rows'; [discriminate |].
  destruct (w x).
  - intros [= <- <-]. simpl. rewrite Hq.
    destruct (q x); [right; eauto | left; reflexivity].
  - destruct (updateRows w data rest) as [[y ys] |]; [| discriminate].
    intros [= <- <-]. simpl.
    destruct (q x); [left; reflexivity | now apply IH].
Qed.

Section Keyed.
Variable key : A -> string.

(** Lookup by key after an update by key that keeps the keys. *)
Lemma find_updateRows_key k k' data rows r' rows' :
  (forall r, key (data r) = key r) ->
  updateRows (fun r => String.eqb (key r) k) data rows = Some (r', rows') ->
  find (fun r => String.eqb (key r) k') rows' =
  if String.eqb k k' then Some r'
  else find (fun r => String.eqb (key r) k') rows.
Proof.
  intros Hkey. revert rows'.
  induction rows as [| x rest IH]; simpl; intros rows'; [discriminate |].
  destruct (String.eqb_spec (key x) k) as [Ex | Nx].
  - intros [= <- <-]. simpl. rewrite Hkey, Ex.
    destruct (String.eqb_spec k k'); reflexivity.
  - destruct (updateRows _ data rest) as [[y ys] |]; [| discriminate].
    intros [= <- <-]. simpl.
    destruct (String.eqb_spec (key x) k') as [Ex' | Nx'].
    + destruct (String.eqb_spec k k'); [congruence | reflexivity].
    + now apply IH.
Qed.

(** With unique keys, the row a filter finds is the first row with
    that row's key. *)
Lemma find_unique_key q rows r :
  uniqueStrings (map key rows) = true ->
  find q rows = Some r ->
  find (fun x => String.eqb (key x) (key r)) rows = Some r.
Proof.
  induction rows as [| x rest IH]; simpl; [discriminate |].
  intros Hu Hf. apply andb_prop in Hu as [Hx Hrest].
  destruct (q x).
  - injection Hf as ->. now rewrite String.eqb_refl.
  - destruct (String.eqb_spec (key x) (key r)) as [E | _]; [| now apply IH].
    exfalso. apply find_some in Hf as [Hin _].
    apply negb_true_iff in Hx.
    assert (existsb (String.eqb (key x)) (map key rest) = true); [| congruence].
    apply existsb_exists. exists (key r). split.
    + now apply in_map.
    + rewrite E. apply String.eqb_refl.
Qed.
End Keyed.
End Tables.

(** * The monad: transactions and read-only computations *)

Lemma transaction_rollback {A} (body : Prisma A) (db db' : DB) (e : Exception) :
  transaction body db = (Throw e, db') -> db' = db.
Proof.
  unfold transaction. destruct (body db) as [[a | e'] d]; congruence.
Qed.

Lemma transaction_commit {A} (body : Prisma A) (db db' : DB) (a : A) :
  transaction body db = (Ok a, db') <-> body db = (Ok a, db').
Proof.
  unfold transaction. destruct (body db) as [[a' | e'] d]; split; congruence.
Qed.

(* ===================================================================== *)
(** * Payment reconciliation: properties *)
(* ===================================================================== *)

Section Webhook.
Implicit Types (now : Z) (dto : OPayWebhookDto.t) (db : DB) (p : Payment.t).

(** What a successful call has done. *)
Lemma handleWebhook_Ok_inv now dto db p' db' :
  handleWebhook now dto db = (Ok p', db') ->
  exists p rows',
    find (byReference (OPayWebhookDto.reference dto)) (payments db) = Some p
    /\ (Payment.amount p =? OPayWebhookDto.amount dto)%float = true
    /\ updateRows (byPaymentId (Payment.id p)) (reconcile now dto) (payments db)
       = Some (p', rows')
    /\ if WebhookStatus.isSuccess (OPayWebhookDto.status dto)
       then exists o' orders',
           updateRows (byOrderId (Payment.orderId p))
             (Order.withStatus OrderStatus.CONFIRMED) (orders db) = Some (o', orders')
           /\ db' = setOrders orders' (setPayments rows' db)
       else db' = setPayments rows' db.
Proof.
  unfold handleWebhook, notSame, bind, query, throw, ret, transaction, update, findFirst.
  fold (byReference (OPayWebhookDto.reference dto)).
  destruct (find _ (payments db)) as [p |] eqn:Hfind; [| discriminate].
  fold (byPaymentId (Payment.id p)). fold (byOrderId (Payment.orderId p)).
  destruct (Payment.amount p =? OPayWebhookDto.amount dto)%float eqn:Hamt; simpl;
    [| discriminate].
  destruct (updateRows _ _ (payments db)) as [[u rows'] |] eqn:Hup; [| discriminate].
  destruct (WebhookStatus.isSuccess _) eqn:Hs; simpl.
  - destruct (updateRows _ _ (orders db)) as [[o' orders'] |] eqn:Hord;
      [| discriminate].
    intros [= <- <-]. exists p, rows'. repeat split; eauto.
  - intros [= <- <-]. exists p, rows'. repeat split; eauto.
Qed.

(** A callback with a known reference and the stored amount is accepted,
    provided the order of the payment exists when the order is written. *)
Lemma handleWebhook_accepts now dto db p :
  find (byReference (OPayWebhookDto.reference dto)) (payments db) = Some p ->
  (Payment.amount p =? OPayWebhookDto.amount dto)%float = true ->
  (WebhookStatus.isSuccess (OPayWebhookDto.status dto) = true ->
   find (byOrderId (Payment.orderId p)) (orders db) <> None) ->
  exists p' db', handleWebhook now dto db = (Ok p', db').
Proof.
  intros Hfind Hamt Hord.
  assert (Hid : find (byPaymentId (Payment.id p)) (payments db) <> None).
  { apply find_some in Hfind as [Hin _]. intros Hnone.
    apply (find_none _ _ Hnone) in Hin. unfold byPaymentId in Hin.
    now rewrite String.eqb_refl in Hin. }
  unfold handleWebhook, notSame, bind, query, throw, ret, transaction, update, findFirst.
  fold (byReference (OPayWebhookDto.reference dto)). rewrite Hfind, Hamt. simpl.
  fold (byPaymentId (Payment.id p)). fold (byOrderId (Payment.orderId p)).
  destruct (find (byPaymentId (Payment.id p)) (payments db)) as [r0 |] eqn:Hr0;
    [| congruence].
  destruct (updateRows_found _ (reconcile now dto) _ _ Hr0) as [rows' ->].
  destruct (WebhookStatus.isSuccess _); simpl; [| eauto].
  destruct (find (byOrderId (Payment.orderId p)) (orders db)) as [o |] eqn:Ho;
    [| now elim Hord].
  destruct (updateRows_found _ (Order.withStatus OrderStatus.CONFIRMED) _ _ Ho)
    as [orders' ->].
  eauto.
Qed.

(** The converse of [handleWebhook_Ok_inv]. *)
Lemma handleWebhook_Ok_intro now dto db p p' rows' :
  find (byReference (OPayWebhookDto.reference dto)) (payments db) = Some p ->
  (Payment.amount p =? OPayWebhookDto.amount dto)%float = true ->
  updateRows (byPaymentId (Payment.id p)) (reconcile now dto) (payments db)
    = Some (p', rows') ->
  (WebhookStatus.isSuccess (OPayWebhookDto.status dto) = false ->
   handleWebhook now dto db = (Ok p', setPayments rows' db))
  /\ (forall o' orders',
        WebhookStatus.isSuccess (OPayWebhookDto.status dto) = true ->
        updateRows (byOrderId (Payment.orderId p))
          (Order.withStatus OrderStatus.CONFIRMED) (orders db) = Some (o', orders') ->
        handleWebhook now dto db = (Ok p', setOrders orders' (setPayments rows' db))).
Proof.
  intros Hfind Hamt Hup.
  unfold handleWebhook, notSame, bind, query, throw, ret, transaction, update, findFirst.
  fold (byReference (OPayWebhookDto.reference dto)). rewrite Hfind, Hamt. simpl.
  fold (byPaymentId (Payment.id p)). fold (byOrderId (Payment.orderId p)).
  rewrite Hup. split.
  - intros ->. reflexivity.
  - intros o' orders' -> Hord. simpl. rewrite Hord. reflexivity.
Qed.

(** After an accepted callback, the lookup by reference finds a row with
    the identifier, order and amount of the row found before. *)
Lemma find_after_reconcile now dto rows p w r' rows' :
  find (byReference (OPayWebhookDto.reference dto)) rows = Some p ->
  updateRows w (reconcile now dto) rows = Some (r', rows') ->
  exists pf,
    find (byReference (OPayWebhookDto.reference dto)) rows' = Some pf
    /\ Payment.id pf = Payment.id p
    /\ Payment.orderId pf = Payment.orderId p
    /\ Payment.amount pf = Payment.amount p.
Proof.
  intros Hfind Hup.
  destruct (find_updateRows (byReference (OPayWebhookDto.reference dto))
              w (reconcile now dto) rows r' rows') as [E | (r & Hr & E)];
    [reflexivity | exact Hup | |].
  - exists p. rewrite E. auto.
  - exists (reconcile now dto r). rewrite Hfind in Hr. injection Hr as <-. auto.
Qed.

End Webhook.

(** C7.  A callback whose reference names no payment, or whose amount is
    not the stored amount of the payment it names, is rejected with the
    typed error [PaymentFailedException] (code [PAYMENT_FAILED]) and
    nothing is written: the store after the call is the store before it,
    payments and orders included. *)
Theorem handleWebhook_rejects_without_writing
    (now : Z) (dto : OPayWebhookDto.t) (db : DB) :
  (find (byReference (OPayWebhookDto.reference dto)) (payments db) = None
   \/ exists p,
       find (byReference (OPayWebhookDto.reference dto)) (payments db) = Some p
       /\ (Payment.amount p =? OPayWebhookDto.amount dto)%float = false) ->
  handleWebhook now dto db = (Throw PaymentFailedException, db)
  /\ errorCode PaymentFailedException = "PAYMENT_FAILED".
Proof.
  intros H. split; [| reflexivity].
  unfold handleWebhook, notSame, bind, query, throw, findFirst.
  fold (byReference (OPayWebhookDto.reference dto)).
  destruct H as [-> | (p & -> & Hne)]; [reflexivity |].
  rewrite Hne. reflexivity.
Qed.

Lemma handleWebhook_rejects_without_writing_witness :
  handleWebhook 100 (Example.callback WebhookStatus.SUCCESS 12000) Example.paymentsDB
  = (Throw PaymentFailedException, Example.paymentsDB).
Proof.
  apply (handleWebhook_rejects_without_writing 100
           (Example.callback WebhookStatus.SUCCESS 12000) Example.paymentsDB).
  right. exists Example.payment1. split; reflexivity.
Defined.

(** The writes of an accepted callback. *)
Lemma handleWebhook_effect (now : Z) (dto : OPayWebhookDto.t) (db : DB) (p : Payment.t) :
  find (byReference (OPayWebhookDto.reference dto)) (payments db) = Some p ->
  (Payment.amount p =? OPayWebhookDto.amount dto)%float = true ->
  (WebhookStatus.isSuccess (OPayWebhookDto.status dto) = true ->
   find (byOrderId (Payment.orderId p)) (orders db) <> None) ->
  exists p' db',
    handleWebhook now dto db = (Ok p', db')
    /\ Payment.status p' = WebhookStatus.toPaymentStatus (OPayWebhookDto.status dto)
    /\ Payment.paidAt p' =
       (if WebhookStatus.isSuccess (OPayWebhookDto.status dto) then Some now else None)
    /\ find (byPaymentId (Payment.id p)) (payments db') = Some p'
    /\ (WebhookStatus.isSuccess (OPayWebhookDto.status dto) = false ->
        orders db' = orders db)
    /\ (WebhookStatus.isSuccess (OPayWebhookDto.status dto) = true ->
        exists o,
          find (byOrderId (Payment.orderId p)) (orders db) = Some o
          /\ find (byOrderId (Payment.orderId p)) (orders db')
             = Some (Order.withStatus OrderStatus.CONFIRMED o)).
Proof.
  intros Hfind Hamt Hord.
  destruct (handleWebhook_accepts now dto db p Hfind Hamt Hord) as (p' & db' & Hrun).
  exists p', db'. split; [exact Hrun |].
  destruct (handleWebhook_Ok_inv _ _ _ _ _ Hrun) as (p0 & rows' & Hf0 & _ & Hup & Hdb).
  rewrite Hfind in Hf0. injection Hf0 as <-.
  destruct (updateRows_source _ _ _ _ _ Hup) as (r0 & _ & ->).
  assert (Hkey : find (byPaymentId (Payment.id p)) rows' = Some (reconcile now dto r0)).
  { unfold byPaymentId.
    rewrite (find_updateRows_key Payment.id (Payment.id p) (Payment.id p)
               (reconcile now dto) (payments db) _ rows' (fun _ => eq_refl) Hup).
    now rewrite String.eqb_refl. }
  split; [reflexivity |]. split; [reflexivity |].
  destruct (WebhookStatus.isSuccess (OPayWebhookDto.status dto)).
  - destruct Hdb as (o' & orders' & Hupo & ->). cbn.
    split; [exact Hkey |]. split; [discriminate |].
    intros _. destruct (updateRows_source _ _ _ _ _ Hupo) as (o & Ho & ->).
    exists o. split; [exact Ho |].
    unfold byOrderId.
    rewrite (find_updateRows_key Order.id (Payment.orderId p) (Payment.orderId p)
               (Order.withStatus OrderStatus.CONFIRMED) (orders db) _ orders'
               (fun _ => eq_refl) Hupo).
    now rewrite String.eqb_refl.
  - subst db'. cbn. split; [exact Hkey |]. split; [reflexivity | discriminate].
Qed.

(** C10.  A callback with a known reference and the stored amount
    overwrites the payment's status with the callback status (SUCCESS,
    FAILED or PENDING, whatever the status was) and sets [paidAt] to the
    current time when that status is SUCCESS and to null otherwise; the
    order is written (to CONFIRMED) only when the status is SUCCESS, and
    for FAILED and PENDING the order rows are unchanged.  So a FAILED
    callback that follows a successful one clears [paidAt] and sets the
    payment to FAILED while the order stays CONFIRMED. *)
Theorem handleWebhook_overwrites_payment
    (now : Z) (dto : OPayWebhookDto.t) (db : DB) (p : Payment.t) :
  find (byReference (OPayWebhookDto.reference dto)) (payments db) = Some p ->
  (Payment.amount p =? OPayWebhookDto.amount dto)%float = true ->
  (OPayWebhookDto.status dto = WebhookStatus.SUCCESS ->
   find (byOrderId (Payment.orderId p)) (orders db) <> None) ->
  exists p' db',
    handleWebhook now dto db = (Ok p', db')
    /\ find (byPaymentId (Payment.id p)) (payments db') = Some p'
    /\ Payment.providerRef p' = Some (OPayWebhookDto.reference dto)
    /\ match OPayWebhookDto.status dto with
       | WebhookStatus.SUCCESS =>
           Payment.status p' = PaymentStatus.SUCCESS
           /\ Payment.paidAt p' = Some now
           /\ exists o o',
               find (byOrderId (Payment.orderId p)) (orders db) = Some o
               /\ find (byOrderId (Payment.orderId p)) (orders db') = Some o'
               /\ o' = Order.withStatus OrderStatus.CONFIRMED o
               /\ Order.status o' = OrderStatus.CONFIRMED
       | WebhookStatus.FAILED =>
           Payment.status p' = PaymentStatus.FAILED
           /\ Payment.paidAt p' = None
           /\ orders db' = orders db
       | WebhookStatus.PENDING =>
           Payment.status p' = PaymentStatus.PENDING
           /\ Payment.paidAt p' = None
           /\ orders db' = orders db
       end
    /\ (forall (later : Z) (failed : OPayWebhookDto.t),
          OPayWebhookDto.status dto = WebhookStatus.SUCCESS ->
          OPayWebhookDto.status failed = WebhookStatus.FAILED ->
          OPayWebhookDto.reference failed = OPayWebhookDto.reference dto ->
          (OPayWebhookDto.amount failed =? OPayWebhookDto.amount dto)%float = true ->
          exists p2 db2,
            handleWebhook later failed db' = (Ok p2, db2)
            /\ Payment.status p2 = PaymentStatus.FAILED
            /\ Payment.paidAt p2 = None
            /\ find (byPaymentId (Payment.id p)) (payments db2) = Some p2
            /\ orders db2 = orders db'
            /\ exists o,
                find (byOrderId (Payment.orderId p)) (orders db2) = Some o
                /\ Order.status o = OrderStatus.CONFIRMED).
Proof.
  intros Hfind Hamt Hord.
  assert (Hord' : WebhookStatus.isSuccess (OPayWebhookDto.status dto) = true ->
                  find (byOrderId (Payment.orderId p)) (orders db) <> None).
  { intros Hs. apply Hord. now destruct (OPayWebhookDto.status dto). }
  destruct (handleWebhook_effect now dto db p Hfind Hamt Hord')
    as (p' & db' & Hrun & Hst & Hpaid & Hrow & Hkeep & Hconf).
  exists p', db'. split; [exact Hrun |]. split; [exact Hrow |].
  destruct (handleWebhook_Ok_inv _ _ _ _ _ Hrun) as (p0 & rows' & Hf0 & _ & Hup & Hdb).
  rewrite Hfind in Hf0. injection Hf0 as <-.
  split.
  { destruct (updateRows_source _ _ _ _ _ Hup) as (r0 & _ & ->). reflexivity. }
  split.
  { destruct (OPayWebhookDto.status dto); cbn in Hst, Hpaid, Hkeep, Hconf.
    - split; [exact Hst |]. split; [exact Hpaid |].
      destruct (Hconf eq_refl) as (o & Ho & Ho').
      exists o, (Order.withStatus OrderStatus.CONFIRMED o). auto.
    - auto.
    - auto. }
  intros later failed Hs Hf Href Hamt2.
  rewrite Hs in Hdb, Hconf. cbn in Hdb, Hconf.
  destruct Hdb as (o' & orders' & Hupo & Hdb').
  destruct (Hconf eq_refl) as (o & _ & Ho').
  destruct (find_after_reconcile now dto (payments db) p _ _ _ Hfind Hup)
    as (pf & Hpf & Hid & Hoid & Hamtf).
  assert (Hpay : payments db' = rows') by (subst db'; reflexivity).
  destruct (handleWebhook_effect later failed db' pf) as
    (p2 & db2 & Hrun2 & Hst2 & Hpaid2 & Hrow2 & Hkeep2 & _).
  { rewrite Href, Hpay. exact Hpf. }
  { rewrite Hamtf. apply (same_trans _ _ _ Hamt). now apply same_sym. }
  { rewrite Hf. discriminate. }
  rewrite Hf in *. cbn in *.
  exists p2, db2. rewrite <- Hid, <- Hoid.
  repeat (split; [assumption || auto |]).
  rewrite (Hkeep2 eq_refl). rewrite Hoid.
  eexists. split; [exact Ho' | reflexivity].
Qed.

Lemma handleWebhook_overwrites_payment_witness :
  exists p' db',
    handleWebhook 100 (Example.callback WebhookStatus.SUCCESS 12175) Example.paymentsDB
    = (Ok p', db')
    /\ Payment.status p' = PaymentStatus.SUCCESS
    /\ Payment.paidAt p' = Some 100
    /\ exists p2 db2,
        handleWebhook 200 (Example.callback WebhookStatus.FAILED 12175) db'
        = (Ok p2, db2)
        /\ Payment.status p2 = PaymentStatus.FAILED
        /\ Payment.paidAt p2 = None
        /\ exists o,
            find (byOrderId "o1") (orders db2) = Some o
            /\ Order.status o = OrderStatus.CONFIRMED.
Proof.
  destruct (handleWebhook_overwrites_payment 100
              (Example.callback WebhookStatus.SUCCESS 12175)
              Example.paymentsDB Example.payment1)
    as (p' & db' & Hrun & _ & _ & (Hst & Hpaid & _) & Hlater).
  - reflexivity.
  - reflexivity.
  - intros _. discriminate.
  - exists p', db'. split; [exact Hrun |]. split; [exact Hst |].
    split; [exact Hpaid |].
    destruct (Hlater 200 (Example.callback WebhookStatus.FAILED 12175))
      as (p2 & db2 & Hrun2 & Hst2 & Hpaid2 & _ & _ & Horder);
      try reflexivity.
    exists p2, db2. split; [exact Hrun2 |]. split; [exact Hst2 |].
    split; [exact Hpaid2 |]. exact Horder.
Defined.

(** C6, as stated, fails: the same SUCCESS callback delivered at time 100
    and again at time 200 leaves a payment whose [paidAt] is 200, while
    one delivery leaves 100; the second call has overwritten the paid
    timestamp and the store is not the one a single call produces. *)
Lemma handleWebhook_redelivery_overwrites_paidAt :
  let dto := Example.callback WebhookStatus.SUCCESS 12175 in
  let once := snd (handleWebhook 100 dto Example.paymentsDB) in
  let twice := snd (handleWebhook 200 dto once) in
  map Payment.paidAt (payments once) = [Some 100]
  /\ map Payment.paidAt (payments twice) = [Some 200]
  /\ twice <> once.
Proof.
  vm_compute. split; [reflexivity |]. split; [reflexivity |]. discriminate.
Qed.

(** C6, amended.  Delivering the same SUCCESS callback again after it has
    been accepted is accepted again, not an error; the order rows are the
    ones the first delivery left (the order is CONFIRMED), and the payment
    row differs from the one the first delivery left only in [paidAt],
    which now holds the time of the second delivery: the store is the one
    a single delivery at the later time produces, and the one the first
    delivery left when both deliveries read the same time. *)
Theorem handleWebhook_redelivery
    (t1 t2 : Z) (dto : OPayWebhookDto.t) (db db1 : DB) (p1 : Payment.t) :
  OPayWebhookDto.status dto = WebhookStatus.SUCCESS ->
  handleWebhook t1 dto db = (Ok p1, db1) ->
  exists p2 db2,
    handleWebhook t2 dto db1 = (Ok p2, db2)
    /\ orders db2 = orders db1
    /\ p2 = reconcile t2 dto p1
    /\ Payment.paidAt p2 = Some t2
    /\ handleWebhook t2 dto db = (Ok p2, db2)
    /\ (t2 = t1 -> p2 = p1 /\ db2 = db1).
Proof.
  intros Hs Hrun.
  destruct (handleWebhook_Ok_inv _ _ _ _ _ Hrun) as (p & rows' & Hfind & Hamt & Hup & Hdb).
  rewrite Hs in Hdb. cbn in Hdb. destruct Hdb as (o' & orders' & Hupo & ->).
  destruct (find_after_reconcile t1 dto (payments db) p _ _ _ Hfind Hup)
    as (pf & Hpf & Hid & Hoid & Hamtf).
  destruct (updateRows_source _ _ _ _ _ Hup) as (r0 & Hr0 & ->).
  destruct (updateRows_found _ (reconcile t2 dto) _ _ Hr0) as [rows2 Hup2].
  (* the second update of the payment row, on the rows the first call left *)
  assert (Hup2' : updateRows (byPaymentId (Payment.id pf)) (reconcile t2 dto) rows'
                  = Some (reconcile t2 dto r0, rows2)).
  { rewrite Hid.
    erewrite (updateRows_twice (byPaymentId (Payment.id p)) (reconcile t1 dto)
                (reconcile t2 dto));
      [exact Hup2 | intros r; reflexivity | exact Hup]. }
  (* the second update of the order row *)
  assert (Hupo' : updateRows (byOrderId (Payment.orderId pf))
                    (Order.withStatus OrderStatus.CONFIRMED) orders'
                  = Some (o', orders')).
  { rewrite Hoid.
    erewrite (updateRows_twice (byOrderId (Payment.orderId p))
                (Order.withStatus OrderStatus.CONFIRMED)
                (Order.withStatus OrderStatus.CONFIRMED));
      [exact Hupo | intros r; reflexivity | exact Hupo]. }
  exists (reconcile t2 dto r0), (setOrders orders' (setPayments rows2 db)).
  assert (Hsucc : WebhookStatus.isSuccess (OPayWebhookDto.status dto) = true)
    by now rewrite Hs.
  split.
  { destruct (handleWebhook_Ok_intro t2 dto
                (setOrders orders' (setPayments rows' db)) pf
                (reconcile t2 dto r0) rows2) as [_ Hi].
    - exact Hpf.
    - now rewrite Hamtf.
    - exact Hup2'.
    - rewrite (Hi o' orders' Hsucc Hupo'). reflexivity. }
  split; [reflexivity |].
  split; [reflexivity |].
  split; [cbn; now rewrite Hs |].
  split.
  { destruct (handleWebhook_Ok_intro t2 dto db p (reconcile t2 dto r0) rows2
                Hfind Hamt Hup2) as [_ Hi].
    exact (Hi o' orders' Hsucc Hupo). }
  intros ->. rewrite Hup in Hup2. injection Hup2 as <-. split; reflexivity.
Qed.

Lemma handleWebhook_redelivery_witness :
  exists p2 db2,
    handleWebhook 200 (Example.callback WebhookStatus.SUCCESS 12175)
      (snd (handleWebhook 100 (Example.callback WebhookStatus.SUCCESS 12175)
              Example.paymentsDB))
    = (Ok p2, db2)
    /\ Payment.paidAt p2 = Some 200.
Proof.
  destruct (handleWebhook_redelivery 100 200
              (Example.callback WebhookStatus.SUCCESS 12175) Example.paymentsDB
              (snd (handleWebhook 100 (Example.callback WebhookStatus.SUCCESS 12175)
                      Example.paymentsDB))
              (Payment.mk "pay1" "o1" "PAY-1" 12175 PaymentStatus.SUCCESS
                 (Some "PAY-1") (Some 100)
                 (Some (Example.callback WebhookStatus.SUCCESS 12175))))
    as (p2 & db2 & Hrun & _ & _ & Hpaid & _).
  - reflexivity.
  - vm_compute. reflexivity.
  - exists p2, db2. split; [exact Hrun | exact Hpaid].
Defined.

(* ===================================================================== *)
(** * Reading carts: properties *)
(* ===================================================================== *)

(** When two filters find the same row, an update through one of them is
    seen through the other. *)
Lemma find_updateRows_same {A} (q w : A -> bool) (data : A -> A)
    (rows : list A) (r : A) :
  find q rows = Some r -> find w rows = Some r -> q (data r) = true ->
  exists rows',
    updateRows w data rows = Some (data r, rows')
    /\ find q rows' = Some (data r).
Proof.
  intros Hq Hw Hdata.
  induction rows as [| x rest IH]; simpl in *; [discriminate |].
  destruct (w x) eqn:Hwx.
  - injection Hw as ->. eexists. split; [reflexivity |]. simpl. now rewrite Hdata.
  - destruct (q x) eqn:Hqx.
    + injection Hq as ->. apply find_some in Hw as [_ Hwr]. congruence.
    + destruct (IH Hq Hw) as (rows' & -> & Hfind).
      eexists. split; [reflexivity |]. simpl. now rewrite Hqx.
Qed.

Lemma includeVariants_frame (db db' : DB) (its : list CartItem.t) :
  productVariants db' = productVariants db -> products db' = products db ->
  includeVariants db' its = includeVariants db its.
Proof.
  intros Hv Hp. induction its as [| it rest IH]; simpl; [reflexivity |].
  unfold includeVariant. now rewrite Hv, Hp, IH.
Qed.

Lemma findCart_eval (userId : string) (db : DB) (c : Cart.t) (lines : list CartLine) :
  find (byUserId userId) (carts db) = Some c ->
  includeVariants db (cartItemsOf db (Cart.id c)) = Some lines ->
  findCart userId db = (Ok (Some (mkCartWithItems c lines (couponOf db c))), db).
Proof.
  intros Hc Hl. unfold findCart, findFirst. fold (byUserId userId).
  now rewrite Hc, Hl.
Qed.

Lemma findCart_reads {A} (userId : string) (db db' : DB) (r : Result A)
    (k : option CartWithItems -> Prisma A) :
  (forall c, k c db = (r, db') -> db' = db) ->
  bind (findCart userId) k db = (r, db') -> db' = db.
Proof.
  intros Hk. unfold bind, findCart.
  destruct (findFirst _ (carts db)) as [c |]; [| now apply Hk].
  destruct (includeVariants db _); [now apply Hk | congruence].
Qed.

(* ===================================================================== *)
(** * Applying a coupon: properties *)
(* ===================================================================== *)

(** The four checks of [applyCoupon], once the cart and the coupon are
    found. *)
Lemma applyCoupon_checks (formatNaira : float -> string) (now : Z) (userId code : string)
    (db : DB) (c : Cart.t) (lines : list CartLine) (k : Coupon.t) :
  find (byUserId userId) (carts db) = Some c ->
  includeVariants db (cartItemsOf db (Cart.id c)) = Some lines ->
  lines <> [] ->
  find (byCode code) (coupons db) = Some k ->
  applyCoupon formatNaira now userId code db =
  let cart := mkCartWithItems c lines (couponOf db c) in
  if negb (Coupon.isActive k)
  then (Throw (InvalidCouponException MESSAGES.COUPON_NOT_ACTIVE), db)
  else if (Coupon.startsAt k >? now) || (Coupon.expiresAt k <? now)
  then (Throw (InvalidCouponException MESSAGES.COUPON_EXPIRED), db)
  else if truthyInt (Coupon.maxUses k)
          && match Coupon.maxUses k with
             | Some maxUses => Coupon.usedCount k >=? maxUses
             | None => false
             end
  then (Throw (InvalidCouponException MESSAGES.CART_COUPON_MAX_USES_REACHED), db)
  else match Coupon.minOrderAmount k with
       | Some m =>
           if (cartSubtotal lines <? m)%float
           then (Throw (CouponMinNotMetException (formatNaira m)), db)
           else attachCoupon formatNaira userId cart k db
       | None => attachCoupon formatNaira userId cart k db
       end.
Proof.
  intros Hc Hl Hne Hk.
  unfold applyCoupon, bind. rewrite (findCart_eval _ _ _ _ Hc Hl). cbn [items].
  destruct lines as [| l ls]; [congruence |]. cbn [length Nat.eqb].
  unfold query, findFirst. fold (byCode code). rewrite Hk. cbn [cartRow items].
  destruct (negb (Coupon.isActive k)); [reflexivity |].
  destruct ((Coupon.startsAt k >? now) || (Coupon.expiresAt k <? now)); [reflexivity |].
  destruct (truthyInt (Coupon.maxUses k) && _); [reflexivity |].
  destruct (Coupon.minOrderAmount k) as [m |]; [| reflexivity].
  destruct (cartSubtotal (l :: ls) <? m)%float; reflexivity.
Qed.

(** Attaching the coupon: the cart row of the user carries the coupon's
    identifier afterwards, whatever it carried before, and no other table
    is written. *)
Lemma attachCoupon_attaches (formatNaira : float -> string) (userId : string)
    (db : DB) (c : Cart.t) (lines : list CartLine) (k : Coupon.t)
    (attached : option Coupon.t) :
  find (byUserId userId) (carts db) = Some c ->
  includeVariants db (cartItemsOf db (Cart.id c)) = Some lines ->
  cartIdsUnique db = true ->
  exists resp db',
    attachCoupon formatNaira userId (mkCartWithItems c lines attached) k db
    = (Ok resp, db')
    /\ find (byUserId userId) (carts db')
       = Some (Cart.withCouponId (Some (Coupon.id k)) c)
    /\ db' = setCarts (carts db') db.
Proof.
  intros Hc Hl Hu.
  assert (Hid : find (byCartId (Cart.id c)) (carts db) = Some c)
    by exact (find_unique_key Cart.id _ _ _ Hu Hc).
  assert (Hq : byUserId userId (Cart.withCouponId (Some (Coupon.id k)) c) = true).
  { apply find_some in Hc as [_ Hc]. exact Hc. }
  destruct (find_updateRows_same _ _ (Cart.withCouponId (Some (Coupon.id k)))
              _ _ Hc Hid Hq) as (rows' & Hup & Hfind).
  unfold attachCoupon, bind, update. cbn [cartRow]. fold (byCartId (Cart.id c)).
  rewrite Hup.
  unfold getCart, bind.
  rewrite (findCart_eval userId (setCarts rows' db)
             (Cart.withCouponId (Some (Coupon.id k)) c) lines);
    [| exact Hfind
     | rewrite (includeVariants_frame db (setCarts rows' db)) by reflexivity;
       exact Hl].
  destruct (calculateTotals _ _) as [[subtotal discount] total]. unfold ret.
  eexists _, _. split; [reflexivity |]. split; [exact Hfind | reflexivity].
Qed.

(** C8, as stated, fails on two boundaries: at the very instant
    [expiresAt] the coupon is still accepted (the window of the code is
    closed on the right), and a coupon whose [maxUses] is 0 is accepted
    although [usedCount] has reached it (0 is read as no cap).  The
    subtotal that is tested against the minimum is a sum of doubles:
    three scarves at 1000.30 make 3000.90, the minimum of the coupon, but
    the sum computed is 3000.8999999999996 and the coupon is refused. *)
Lemma applyCoupon_accepts_at_expiry_and_zero_cap :
  let atExpiry := Example.save10 true 1000 None 0 None in
  let zeroCap := Example.save10 true 1000 (Some 0) 0 None in
  (Coupon.expiresAt atExpiry = 1000
   /\ exists resp db',
       applyCoupon Example.plainNaira 1000 "u1" "SAVE10" (Example.shopDB 1 atExpiry None)
       = (Ok resp, db')
       /\ map Cart.couponId (carts db') = [Some "k1"; None])
  /\ (Coupon.maxUses zeroCap = Some 0 /\ Coupon.usedCount zeroCap >= 0
      /\ exists resp db',
          applyCoupon Example.plainNaira 500 "u1" "SAVE10" (Example.shopDB 1 zeroCap None)
          = (Ok resp, db')
          /\ map Cart.couponId (carts db') = [Some "k1"; None])
  /\ (Product.basePrice Example.scarf = ofKobo 100030
      /\ Coupon.minOrderAmount Example.scarf10 = Some (ofKobo 300090)
      /\ 3 * 100030 >= 300090
      /\ applyCoupon Example.plainNaira 500 "u3" "SCARF10" Example.scarfDB
         = (Throw (CouponMinNotMetException (Example.plainNaira 3000.90)),
            Example.scarfDB)).
Proof.
  cbv zeta. split; [| split].
  - split; [reflexivity |].
    eexists _, _. split; [vm_compute; reflexivity | reflexivity].
  - split; [reflexivity |]. split; [vm_compute; discriminate |].
    eexists _, _. split; [vm_compute; reflexivity | reflexivity].
  - split; [vm_compute; reflexivity |]. split; [vm_compute; reflexivity |].
    split; [lia |]. vm_compute. reflexivity.
Qed.

(** C8, amended.  For a non-empty cart and an existing coupon code,
    [applyCoupon] fails with a typed error and writes nothing when the
    coupon is inactive, when the current time is outside the closed window
    from [startsAt] to [expiresAt] (a coupon is still valid at the instant
    [expiresAt] itself), when a non-zero [maxUses] is set and [usedCount]
    has reached it, or when [minOrderAmount] is set and the cart subtotal
    is below it, the last error carrying the required minimum; when the
    four rules pass, the coupon is attached to the cart in place of any
    coupon attached before.  The subtotal is the sum of the lines as the
    code computes it, in double-precision arithmetic, and the comparison
    with the minimum is the comparison of doubles. *)
Theorem applyCoupon_rules (formatNaira : float -> string) (now : Z) (userId code : string)
    (db : DB) (c : Cart.t) (lines : list CartLine) (k : Coupon.t) :
  find (byUserId userId) (carts db) = Some c ->
  includeVariants db (cartItemsOf db (Cart.id c)) = Some lines ->
  lines <> [] ->
  find (byCode code) (coupons db) = Some k ->
  let run := applyCoupon formatNaira now userId code db in
  let windowOpen := Coupon.startsAt k <= now <= Coupon.expiresAt k in
  let capReached :=
    exists m, Coupon.maxUses k = Some m /\ m <> 0 /\ m <= Coupon.usedCount k in
  let belowMinimum :=
    exists m, Coupon.minOrderAmount k = Some m
              /\ (cartSubtotal lines <? m)%float = true in
  (Coupon.isActive k = false ->
   run = (Throw (InvalidCouponException MESSAGES.COUPON_NOT_ACTIVE), db))
  /\ (Coupon.isActive k = true -> ~ windowOpen ->
      run = (Throw (InvalidCouponException MESSAGES.COUPON_EXPIRED), db))
  /\ (Coupon.isActive k = true -> windowOpen -> capReached ->
      run = (Throw (InvalidCouponException MESSAGES.CART_COUPON_MAX_USES_REACHED), db))
  /\ (Coupon.isActive k = true -> windowOpen -> ~ capReached ->
      forall m, Coupon.minOrderAmount k = Some m ->
                (cartSubtotal lines <? m)%float = true ->
      run = (Throw (CouponMinNotMetException (formatNaira m)), db)
      /\ errorCode (CouponMinNotMetException (formatNaira m)) = "COUPON_MIN_NOT_MET")
  /\ (Coupon.isActive k = true -> windowOpen -> ~ capReached -> ~ belowMinimum ->
      cartIdsUnique db = true ->
      exists resp db',
        run = (Ok resp, db')
        /\ find (byUserId userId) (carts db')
           = Some (Cart.withCouponId (Some (Coupon.id k)) c)
        /\ db' = setCarts (carts db') db).
Proof.
  intros Hc Hl Hne Hk run windowOpen capReached belowMinimum.
  unfold run. rewrite (applyCoupon_checks _ _ _ _ _ _ _ _ Hc Hl Hne Hk). cbv zeta.
  assert (Hwin : windowOpen ->
                 (Coupon.startsAt k >? now) || (Coupon.expiresAt k <? now) = false).
  { intros [H1 H2]. apply orb_false_iff. split.
    - rewrite Z.gtb_ltb. now apply Z.ltb_ge.
    - now apply Z.ltb_ge. }
  assert (Hcap : ~ capReached ->
                 truthyInt (Coupon.maxUses k)
                 && match Coupon.maxUses k with
                    | Some maxUses => Coupon.usedCount k >=? maxUses
                    | None => false
                    end = false).
  { intros Hn. unfold capReached in Hn.
    destruct (Coupon.maxUses k) as [m |]; [| reflexivity]. simpl.
    destruct (Z.eqb_spec m 0) as [-> | Hm]; [reflexivity |]. simpl.
    rewrite Z.geb_leb. apply Z.leb_gt.
    destruct (Z.lt_ge_cases (Coupon.usedCount k) m) as [Hlt | Hge]; [exact Hlt |].
    exfalso. apply Hn. exists m. repeat split; [exact Hm | lia]. }
  split; [intros ->; reflexivity |].
  split.
  { intros -> Hout. simpl.
    destruct ((Coupon.startsAt k >? now) || (Coupon.expiresAt k <? now)) eqn:E;
      [reflexivity |].
    exfalso. apply Hout. apply orb_false_iff in E as [E1 E2].
    rewrite Z.gtb_ltb in E1. apply Z.ltb_ge in E1. apply Z.ltb_ge in E2.
    split; assumption. }
  split.
  { intros -> Hin (m & Hm & Hm0 & Hle). simpl. rewrite (Hwin Hin), Hm. simpl.
    destruct (Z.eqb_spec m 0) as [E | _]; [contradiction |]. simpl.
    rewrite Z.geb_leb. apply Z.leb_le in Hle. now rewrite Hle. }
  split.
  { intros -> Hin Hncap m Hm Hlt. simpl. rewrite (Hwin Hin), (Hcap Hncap), Hm.
    rewrite Hlt. split; reflexivity. }
  intros -> Hin Hncap Hnmin Hu. simpl. rewrite (Hwin Hin), (Hcap Hncap).
  pose proof (attachCoupon_attaches formatNaira userId db c lines k (couponOf db c)
                Hc Hl Hu) as Hattach.
  destruct (Coupon.minOrderAmount k) as [m |] eqn:Hm; [| exact Hattach].
  destruct (cartSubtotal lines <? m)%float eqn:E; [| exact Hattach].
  exfalso. apply Hnmin. exists m. split; [reflexivity | exact E].
Qed.

Lemma applyCoupon_rules_witness :
  applyCoupon Example.plainNaira 500 "u1" "SAVE10"
    (Example.shopDB 1 (Example.save10 true 1000 (Some 5) 0 (Some 50000%float)) None)
  = (Throw (CouponMinNotMetException (Example.plainNaira 50000)),
     Example.shopDB 1 (Example.save10 true 1000 (Some 5) 0 (Some 50000%float)) None)
  /\ (cartSubtotal [mkCartLine (CartItem.mk "i3" "c3" "vS" 3) Example.scarfVariant
                               Example.scarf]
      = 3000.8999999999996%float
      /\ applyCoupon Example.plainNaira 500 "u3" "SCARF10" Example.scarfDB
         = (Throw (CouponMinNotMetException (Example.plainNaira 3000.90)),
            Example.scarfDB)).
Proof.
  split.
  - pose (k := Example.save10 true 1000 (Some 5) 0 (Some 50000%float)).
    pose (line := mkCartLine (CartItem.mk "i1" "c1" "vA" 1) (Example.variantA 1)
                             Example.dress).
    destruct (applyCoupon_rules Example.plainNaira 500 "u1" "SAVE10"
                (Example.shopDB 1 k None) (Cart.mk "c1" "u1" None) [line] k)
      as (_ & _ & _ & Hmin & _).
    + reflexivity.
    + reflexivity.
    + discriminate.
    + reflexivity.
    + apply Hmin.
      * reflexivity.
      * vm_compute. split; discriminate.
      * intros (m & Hm & Hm0 & Hle). vm_compute in Hm. injection Hm as <-.
        vm_compute in Hle. apply Hle. reflexivity.
      * reflexivity.
      * vm_compute. reflexivity.
  - split; [vm_compute; reflexivity |].
    pose (line := mkCartLine (CartItem.mk "i3" "c3" "vS" 3) Example.scarfVariant
                             Example.scarf).
    destruct (applyCoupon_rules Example.plainNaira 500 "u3" "SCARF10"
                Example.scarfDB (Cart.mk "c3" "u3" None) [line] Example.scarf10)
      as (_ & _ & _ & Hmin & _).
    + reflexivity.
    + reflexivity.
    + discriminate.
    + reflexivity.
    + apply Hmin.
      * reflexivity.
      * vm_compute. split; discriminate.
      * intros (m & Hm & _). discriminate Hm.
      * reflexivity.
      * vm_compute. reflexivity.
Defined.

(* ===================================================================== *)
(** * Stock movements: properties *)
(* ===================================================================== *)

Lemma decrementStock_incrementStock (variantId : string) (n : Z) (db : DB) :
  decrementStock variantId n db = incrementStock variantId (- n) db.
Proof.
  reflexivity.
Qed.

(** One stock movement: the variant named moves by [n], every other
    variant keeps its stock, no other table is written. *)
Lemma incrementStock_Ok (variantId : string) (n : Z) (db db' : DB) :
  incrementStock variantId n db = (Ok tt, db') ->
  (exists rows', db' = setProductVariants rows' db)
  /\ forall v,
      stockOf db' v =
      option_map (fun s => if String.eqb variantId v then s + n else s) (stockOf db v).
Proof.
  unfold incrementStock, bind, update, ret.
  destruct (updateRows _ _ (productVariants db)) as [[r' rows'] |] eqn:Hup;
    [| discriminate].
  intros [= <-]. split; [eauto |].
  intros v. unfold stockOf, findFirst. cbn [productVariants setProductVariants].
  rewrite (find_updateRows_key ProductVariant.id variantId v
             (ProductVariant.withStock (fun s => s + n)) _ _ _
             (fun _ => eq_refl) Hup).
  destruct (updateRows_source _ _ _ _ _ Hup) as (r & Hr & ->).
  destruct (String.eqb_spec variantId v) as [<- | _].
  - rewrite Hr. reflexivity.
  - destruct (find (fun x => String.eqb (ProductVariant.id x) v) (productVariants db));
      reflexivity.
Qed.

Lemma incrementStock_succeeds (variantId : string) (n : Z) (db : DB) :
  stockOf db variantId <> None ->
  exists db', incrementStock variantId n db = (Ok tt, db').
Proof.
  unfold stockOf, findFirst, incrementStock, bind, update, ret. intros H.
  destruct (find _ (productVariants db)) as [r |] eqn:Hr; [| now elim H].
  destruct (updateRows_found _ (ProductVariant.withStock (fun s => s + n)) _ _ Hr)
    as [rows' ->].
  eauto.
Qed.

Section StockLoop.
(** A loop whose body moves the stock of the variant of each item. *)
Context {I : Type} (vid : I -> string) (delta : I -> Z) (body : I -> Prisma unit).
Hypothesis body_moves : forall i db, body i db = incrementStock (vid i) (delta i) db.

Lemma forEach_stock_Ok (its : list I) (db db' : DB) :
  forEach its body db = (Ok tt, db') ->
  (exists rows', db' = setProductVariants rows' db)
  /\ forall v,
      stockOf db' v =
      option_map (fun s => s + quantityOf v (movements vid delta its)) (stockOf db v).
Proof.
  revert db. induction its as [| i rest IH]; intros db; simpl.
  - unfold ret. intros [= <-]. split.
    + exists (productVariants db). now destruct db.
    + intros v. destruct (stockOf db v); simpl; [f_equal; lia | reflexivity].
  - unfold bind at 1. rewrite body_moves.
    destruct (incrementStock (vid i) (delta i) db) as [[[] | e] db1] eqn:H1;
      [| discriminate].
    intros Hrest.
    destruct (incrementStock_Ok _ _ _ _ H1) as [[rows1 ->] Hs1].
    destruct (IH _ Hrest) as [[rows' ->] Hs'].
    split; [exists rows'; reflexivity |].
    intros v. rewrite Hs', Hs1.
    destruct (stockOf db v) as [s |]; simpl; [| reflexivity].
    destruct (String.eqb (vid i) v); f_equal; lia.
Qed.

Lemma forEach_stock_succeeds (its : list I) (db : DB) :
  (forall i, In i its -> stockOf db (vid i) <> None) ->
  exists db', forEach its body db = (Ok tt, db').
Proof.
  revert db. induction its as [| i rest IH]; intros db Hall; simpl.
  - unfold ret. eauto.
  - unfold bind at 1. rewrite body_moves.
    destruct (incrementStock_succeeds (vid i) (delta i) db) as [db1 H1].
    { apply Hall. now left. }
    rewrite H1. apply IH. intros j Hj.
    destruct (incrementStock_Ok _ _ _ _ H1) as [_ Hs1]. rewrite Hs1.
    specialize (Hall j (or_intror Hj)).
    destruct (stockOf db (vid j)); [discriminate | contradiction].
Qed.
End StockLoop.

(* ===================================================================== *)
(** * Cancellation: properties *)
(* ===================================================================== *)

Lemma cancelOrder_unfold (userId orderId : string) (db : DB) :
  cancelOrder userId orderId db =
  match find (byOwnedOrder orderId userId) (orders db) with
  | None => (Throw OrderNotFoundException, db)
  | Some o =>
      if OrderStatus.includes [OrderStatus.PENDING; OrderStatus.CONFIRMED]
                              (Order.status o)
      then transaction (cancelTransaction orderId (orderItemsOf db (Order.id o))) db
      else (Throw OrderCancelNotAllowedException, db)
  end.
Proof.
  unfold cancelOrder, bind, query, findFirst. fold (byOwnedOrder orderId userId).
  destruct (find _ (orders db)) as [o |]; [| reflexivity].
  destruct (OrderStatus.includes _ _); reflexivity.
Qed.

Lemma cancellable_iff (s : OrderStatus.t) :
  OrderStatus.includes [OrderStatus.PENDING; OrderStatus.CONFIRMED] s = true
  <-> s = OrderStatus.PENDING \/ s = OrderStatus.CONFIRMED.
Proof.
  destruct s; cbn; split; intros H; try discriminate; auto;
    destruct H; discriminate.
Qed.

Lemma byOwnedOrder_id (orderId userId : string) (rows : list Order.t) (o : Order.t) :
  find (byOwnedOrder orderId userId) rows = Some o ->
  Order.id o = orderId /\ Order.userId o = userId.
Proof.
  intros H. apply find_some in H as [_ H]. unfold byOwnedOrder in H.
  apply andb_prop in H as [H1 H2].
  split; now apply String.eqb_eq.
Qed.

Lemma stockOf_exists (db : DB) (v : string) :
  existsb (fun x => String.eqb (ProductVariant.id x) v) (productVariants db) = true ->
  stockOf db v <> None.
Proof.
  intros H. apply existsb_exists in H as (x & Hin & Hx).
  unfold stockOf, findFirst.
  destruct (find _ (productVariants db)) eqn:E; [discriminate |].
  apply (find_none _ _ E) in Hin. congruence.
Qed.

(** The transaction of a cancellation commits when the variants of the
    order's items exist; it restores the stock and marks the order. *)
Lemma cancelTransaction_commits (userId orderId : string) (db : DB) (o : Order.t) :
  orderVariantsExist db orderId = true ->
  orderIdsUnique db = true ->
  find (byOwnedOrder orderId userId) (orders db) = Some o ->
  exists rows' orders',
    transaction (cancelTransaction orderId (orderItemsOf db (Order.id o))) db
    = (Ok (Order.withStatus OrderStatus.CANCELLED o),
       setOrders orders' (setProductVariants rows' db))
    /\ find (byOwnedOrder orderId userId) orders'
       = Some (Order.withStatus OrderStatus.CANCELLED o)
    /\ find (byOrderId orderId) orders'
       = Some (Order.withStatus OrderStatus.CANCELLED o)
    /\ forall v,
        stockOf (setProductVariants rows' db) v =
        option_map
          (fun s => s + quantityOf v (movements OrderItem.variantId OrderItem.quantity
                                        (orderItemsOf db orderId)))
          (stockOf db v).
Proof.
  intros Hfk Hu Hfind.
  destruct (byOwnedOrder_id _ _ _ _ Hfind) as [Hid Huser]. rewrite Hid.
  destruct (forEach_stock_succeeds OrderItem.variantId OrderItem.quantity
              (fun item => incrementStock (OrderItem.variantId item)
                                          (OrderItem.quantity item))
              (fun _ _ => eq_refl) (orderItemsOf db orderId) db) as [db1 Hloop].
  { intros i Hi. apply stockOf_exists.
    unfold orderVariantsExist in Hfk. rewrite forallb_forall in Hfk. now apply Hfk. }
  destruct (forEach_stock_Ok _ _ _ (fun _ _ => eq_refl) _ _ _ Hloop)
    as [[rows' ->] Hstock].
  assert (Hbyid : find (byOrderId orderId) (orders db) = Some o).
  { rewrite <- Hid. exact (find_unique_key Order.id _ _ _ Hu Hfind). }
  assert (Hq : byOwnedOrder orderId userId (Order.withStatus OrderStatus.CANCELLED o)
               = true).
  { apply find_some in Hfind as [_ H]. exact H. }
  destruct (find_updateRows_same _ _ (Order.withStatus OrderStatus.CANCELLED)
              _ _ Hfind Hbyid Hq) as (orders' & Hup & Hfind').
  exists rows', orders'. split; [| split; [exact Hfind' | split; [| exact Hstock]]].
  - unfold transaction, cancelTransaction, bind. rewrite Hloop.
    unfold update. cbn [orders setProductVariants]. fold (byOrderId orderId).
    rewrite Hup. reflexivity.
  - unfold byOrderId.
    rewrite (find_updateRows_key Order.id orderId orderId
               (Order.withStatus OrderStatus.CANCELLED) _ _ _ (fun _ => eq_refl) Hup).
    now rewrite String.eqb_refl.
Qed.

(** C5.  With unique order identifiers and existing variants for the
    order's items: [cancelOrder] succeeds exactly when the order exists,
    belongs to the requesting user and is PENDING or CONFIRMED; on success
    the stock of every variant has grown by the quantities of the order's
    items of that variant, each counted once, and the order is CANCELLED;
    for any other status the call fails with the cancel-not-allowed error
    and writes nothing; a second cancellation after a successful one fails
    in that way, so stock is never restored twice. *)
Theorem cancelOrder_correct (userId orderId : string) (db : DB) :
  orderVariantsExist db orderId = true ->
  orderIdsUnique db = true ->
  let cancellable (o : Order.t) :=
    Order.status o = OrderStatus.PENDING \/ Order.status o = OrderStatus.CONFIRMED in
  ((exists o' db', cancelOrder userId orderId db = (Ok o', db'))
   <-> exists o, find (byOwnedOrder orderId userId) (orders db) = Some o /\ cancellable o)
  /\ (forall o' db',
        cancelOrder userId orderId db = (Ok o', db') ->
        Order.status o' = OrderStatus.CANCELLED
        /\ find (byOrderId orderId) (orders db') = Some o'
        /\ (forall v,
              stockOf db' v =
              option_map
                (fun s => s + quantityOf v (movements OrderItem.variantId
                                              OrderItem.quantity
                                              (orderItemsOf db orderId)))
                (stockOf db v))
        /\ cancelOrder userId orderId db' = (Throw OrderCancelNotAllowedException, db'))
  /\ (forall o,
        find (byOwnedOrder orderId userId) (orders db) = Some o -> ~ cancellable o ->
        cancelOrder userId orderId db = (Throw OrderCancelNotAllowedException, db)
        /\ errorCode OrderCancelNotAllowedException = "CANCEL_NOT_ALLOWED")
  /\ (find (byOwnedOrder orderId userId) (orders db) = None ->
      cancelOrder userId orderId db = (Throw OrderNotFoundException, db)).
Proof.
  intros Hfk Hu cancellable.
  assert (Hok : forall o,
             find (byOwnedOrder orderId userId) (orders db) = Some o -> cancellable o ->
             exists rows' orders',
               cancelOrder userId orderId db
               = (Ok (Order.withStatus OrderStatus.CANCELLED o),
                  setOrders orders' (setProductVariants rows' db))
               /\ find (byOwnedOrder orderId userId) orders'
                  = Some (Order.withStatus OrderStatus.CANCELLED o)
               /\ find (byOrderId orderId) orders'
                  = Some (Order.withStatus OrderStatus.CANCELLED o)
               /\ forall v,
                   stockOf (setProductVariants rows' db) v =
                   option_map
                     (fun s => s + quantityOf v (movements OrderItem.variantId
                                                   OrderItem.quantity
                                                   (orderItemsOf db orderId)))
                     (stockOf db v)).
  { intros o Hfind Hc.
    destruct (cancelTransaction_commits userId orderId db o Hfk Hu Hfind)
      as (rows' & orders' & Hrun & H1 & H2 & H3).
    exists rows', orders'. split; [| auto].
    rewrite cancelOrder_unfold, Hfind.
    apply cancellable_iff in Hc. rewrite Hc. exact Hrun. }
  split; [split |].
  - intros (o' & db' & Hrun). rewrite cancelOrder_unfold in Hrun.
    destruct (find _ (orders db)) as [o |]; [| discriminate].
    exists o. split; [reflexivity |].
    destruct (OrderStatus.includes _ _) eqn:E; [| discriminate].
    now apply cancellable_iff.
  - intros (o & Hfind & Hc).
    destruct (Hok o Hfind Hc) as (rows' & orders' & Hrun & _). eauto.
  - split; [| split].
    + intros o' db' Hrun.
      assert (Hinv : exists o, find (byOwnedOrder orderId userId) (orders db) = Some o
                               /\ cancellable o).
      { rewrite cancelOrder_unfold in Hrun.
        destruct (find _ (orders db)) as [o |]; [| discriminate].
        exists o. split; [reflexivity |].
        destruct (OrderStatus.includes _ _) eqn:E; [| discriminate].
        now apply cancellable_iff. }
      destruct Hinv as (o & Hfind & Hc).
      destruct (Hok o Hfind Hc) as (rows' & orders' & Hrun' & Hown & Hbyid & Hstock).
      rewrite Hrun' in Hrun. injection Hrun as <- <-.
      split; [reflexivity |]. split; [exact Hbyid |]. split; [exact Hstock |].
      rewrite cancelOrder_unfold. cbn [orders setOrders]. rewrite Hown. reflexivity.
    + intros o Hfind Hnc. split; [| reflexivity].
      rewrite cancelOrder_unfold, Hfind.
      destruct (OrderStatus.includes _ _) eqn:E; [| reflexivity].
      apply cancellable_iff in E. contradiction.
    + intros Hnone. rewrite cancelOrder_unfold, Hnone. reflexivity.
Qed.

Lemma cancelOrder_correct_witness :
  exists o' db',
    cancelOrder "u1" "o1" Example.cancelDB = (Ok o', db')
    /\ stockOf db' "vA" = Some 3 /\ stockOf db' "vB" = Some 6
    /\ cancelOrder "u1" "o1" db' = (Throw OrderCancelNotAllowedException, db').
Proof.
  destruct (cancelOrder_correct "u1" "o1" Example.cancelDB eq_refl eq_refl)
    as ((_ & Hgo) & Heffect & _).
  destruct Hgo as (o' & db' & Hrun).
  { exists Example.order1. split; [reflexivity | left; reflexivity]. }
  destruct (Heffect o' db' Hrun) as (_ & _ & Hstock & Hagain).
  exists o', db'. split; [exact Hrun |].
  split; [rewrite Hstock; reflexivity |].
  split; [rewrite Hstock; reflexivity | exact Hagain].
Defined.

(* ===================================================================== *)
(** * Checkout: the part before the transaction *)
(* ===================================================================== *)

(** The joined lines are the cart items in order, each with the variant
    row of the store that carries its identifier. *)
Lemma includeVariants_lines (db : DB) (its : list CartItem.t) (lines : list CartLine) :
  includeVariants db its = Some lines ->
  map item lines = its
  /\ forall l, In l lines ->
       ProductVariant.id (variant l) = CartItem.variantId (item l)
       /\ stockOf db (CartItem.variantId (item l))
          = Some (ProductVariant.stockQuantity (variant l)).
Proof.
  revert lines. induction its as [| it rest IH]; simpl; intros lines.
  - intros [= <-]. split; [reflexivity | intros l []].
  - unfold includeVariant, findFirst.
    destruct (find _ (productVariants db)) as [v |] eqn:Hv; [| discriminate].
    destruct (find _ (products db)) as [p |]; [| discriminate].
    destruct (includeVariants db rest) as [ls |]; [| discriminate].
    intros [= <-]. destruct (IH ls eq_refl) as [Hmap Hall].
    split; [simpl; now rewrite Hmap |].
    intros l [<- | Hin]; [| now apply Hall]. simpl. split.
    + apply find_some in Hv as [_ Hv]. now apply String.eqb_eq.
    + unfold stockOf, findFirst. now rewrite Hv.
Qed.

Lemma verifyStock_passes (lines : list CartLine) (subtotal : float)
    (acc : list OrderItemData.t) :
  (forall l, In l lines -> withinStock l) ->
  verifyStock lines subtotal acc
  = Ok (fold_left (fun sum l => (sum + lineTotal l)%float) lines subtotal,
        (acc ++ map orderItemOf lines)%list).
Proof.
  revert subtotal acc. induction lines as [| l rest IH]; intros subtotal acc Hall.
  - simpl. now rewrite app_nil_r.
  - simpl. destruct (Z.ltb_spec (ProductVariant.stockQuantity (variant l))
                                (CartItem.quantity (item l))) as [Hlt | _].
    + specialize (Hall l (or_introl eq_refl)). unfold withinStock in Hall. lia.
    + rewrite IH by (intros; apply Hall; now right).
      now rewrite <- app_assoc.
Qed.

Lemma verifyStock_Ok_inv (lines : list CartLine) (subtotal subtotal' : float)
    (acc its : list OrderItemData.t) :
  verifyStock lines subtotal acc = Ok (subtotal', its) ->
  (forall l, In l lines -> withinStock l)
  /\ subtotal' = fold_left (fun sum l => (sum + lineTotal l)%float) lines subtotal
  /\ its = (acc ++ map orderItemOf lines)%list.
Proof.
  revert subtotal acc. induction lines as [| l rest IH]; intros subtotal acc; simpl.
  - intros [= <- <-]. rewrite app_nil_r. repeat split. intros l [].
  - destruct (Z.ltb_spec (ProductVariant.stockQuantity (variant l))
                         (CartItem.quantity (item l))) as [_ | Hge]; [discriminate |].
    intros H. destruct (IH _ _ H) as (Hall & -> & ->).
    rewrite <- app_assoc. repeat split.
    intros l' [<- | Hin]; [exact Hge | now apply Hall].
Qed.

(** The loop stops at the first line that asks for more than the stock of
    its variant, with that variant's stock in the error. *)
Lemma verifyStock_Throw_inv (lines : list CartLine) (subtotal : float)
    (acc : list OrderItemData.t) (e : Exception) :
  verifyStock lines subtotal acc = Throw e ->
  exists l, In l lines /\ ~ withinStock l
            /\ e = InsufficientStockException (ProductVariant.stockQuantity (variant l)).
Proof.
  revert subtotal acc. induction lines as [| l rest IH]; intros subtotal acc; simpl;
    [discriminate |].
  destruct (Z.ltb_spec (ProductVariant.stockQuantity (variant l))
                       (CartItem.quantity (item l))) as [Hlt | _].
  - intros [= <-]. exists l. unfold withinStock. repeat split; [now left | lia].
  - intros H. destruct (IH _ _ H) as (l' & Hin & Hn & ->). exists l'. auto.
Qed.

(** The line it stops at is the first such line: every line before it
    is within stock. *)
Lemma verifyStock_Throw_first (lines : list CartLine) (subtotal : float)
    (acc : list OrderItemData.t) (e : Exception) :
  verifyStock lines subtotal acc = Throw e ->
  exists before l after,
    lines = (before ++ l :: after)%list
    /\ (forall x, In x before -> withinStock x)
    /\ ~ withinStock l
    /\ e = InsufficientStockException (ProductVariant.stockQuantity (variant l)).
Proof.
  revert subtotal acc. induction lines as [| l rest IH]; intros subtotal acc; simpl;
    [discriminate |].
  destruct (Z.ltb_spec (ProductVariant.stockQuantity (variant l))
                       (CartItem.quantity (item l))) as [Hlt | Hge].
  - intros [= <-]. exists [], l, rest. unfold withinStock.
    repeat split; [intros x [] | lia].
  - intros H. destruct (IH _ _ H) as (before & l' & after & -> & Hall & Hn & ->).
    exists (l :: before), l', after. repeat split; [| exact Hn].
    intros x [<- | Hin]; [exact Hge | now apply Hall].
Qed.

Lemma verifyStock_fails (lines : list CartLine) (subtotal : float)
    (acc : list OrderItemData.t) :
  (exists l, In l lines /\ ~ withinStock l) ->
  exists e, verifyStock lines subtotal acc = Throw e.
Proof.
  intros (l & Hin & Hn).
  destruct (verifyStock lines subtotal acc) as [[s its] | e] eqn:E; [| eauto].
  destruct (verifyStock_Ok_inv _ _ _ _ _ E) as (Hall & _). now elim Hn; apply Hall.
Qed.

(** [checkoutPrepare] only reads. *)
Lemma checkoutPrepare_reads (userId : string) (dto : CreateOrderDto.t) (db db' : DB)
    (r : Result CheckoutPlan) :
  checkoutPrepare userId dto db = (r, db') -> db' = db.
Proof.
  unfold checkoutPrepare. apply findCart_reads. intros [cart |]; [| unfold throw; congruence].
  destruct (length (items cart) =? 0)%nat; [unfold throw; congruence |].
  unfold bind, query. destruct (findFirst _ (addresses db)); [| unfold throw; congruence].
  destruct (verifyStock _ _ _) as [[s its] | e]; unfold throw, ret; congruence.
Qed.

(** [checkoutPrepare] on a found, non-empty cart and a found address. *)
Lemma checkoutPrepare_eval (userId : string) (dto : CreateOrderDto.t) (db : DB)
    (c : Cart.t) (lines : list CartLine) (address : Address.t) :
  find (byUserId userId) (carts db) = Some c ->
  includeVariants db (cartItemsOf db (Cart.id c)) = Some lines ->
  lines <> [] ->
  find (byOwnedAddress (CreateOrderDto.addressId dto) userId) (addresses db)
    = Some address ->
  checkoutPrepare userId dto db =
  match verifyStock lines 0%float [] with
  | Throw e => (Throw e, db)
  | Ok (subtotal, orderItems) =>
      (Ok (mkCheckoutPlan userId (CreateOrderDto.notes dto) c address orderItems
             (couponDiscount (couponOf db c) subtotal) shippingCostFlat
             (calculateOrderTotal subtotal shippingCostFlat
                (couponDiscount (couponOf db c) subtotal))), db)
  end.
Proof.
  intros Hc Hl Hne Ha.
  unfold checkoutPrepare, bind. rewrite (findCart_eval _ _ _ _ Hc Hl). cbn [items].
  destruct lines as [| l ls]; [congruence |]. cbn [length Nat.eqb].
  unfold query, findFirst. fold (byOwnedAddress (CreateOrderDto.addressId dto) userId).
  rewrite Ha. cbn [cartRow coupon items].
  destruct (verifyStock _ _ _) as [[s its] | e]; reflexivity.
Qed.

(* ===================================================================== *)
(** * Checkout: the transaction *)
(* ===================================================================== *)

Lemma quantityOf_opp {I} (vid : I -> string) (qty : I -> Z) (its : list I) (v : string) :
  quantityOf v (movements vid (fun i => - qty i) its)
  = - quantityOf v (movements vid qty its).
Proof.
  induction its as [| i rest IH]; simpl; [reflexivity |].
  destruct (String.eqb (vid i) v); lia.
Qed.

Lemma incrementStock_Throw (variantId : string) (n : Z) (db db' : DB) (e : Exception) :
  incrementStock variantId n db = (Throw e, db') -> e = PrismaClientError "P2025".
Proof.
  unfold incrementStock, bind, update, ret.
  destruct (updateRows _ _ (productVariants db)) as [[r' rows'] |]; congruence.
Qed.

Lemma forEach_decrement_Throw (its : list OrderItemData.t) (db db' : DB) (e : Exception) :
  forEach its (fun item =>
    decrementStock (OrderItemData.variantId item) (OrderItemData.quantity item)) db
  = (Throw e, db') ->
  e = PrismaClientError "P2025".
Proof.
  revert db. induction its as [| i rest IH]; intros db; simpl; [discriminate |].
  unfold bind at 1.
  destruct (decrementStock _ _ db) as [[[] | e1] db1] eqn:H1.
  - apply IH.
  - intros [= <- <-]. rewrite decrementStock_incrementStock in H1.
    exact (incrementStock_Throw _ _ _ _ _ H1).
Qed.

(** What a committed checkout transaction has written. *)
Lemma checkoutTransaction_Ok_inv (orderId orderNumber : string) (p : CheckoutPlan)
    (db db' : DB) (r : Order.t * list OrderItem.t) :
  checkoutTransaction orderId orderNumber p db = (Ok r, db') ->
  r = (plannedOrder orderId orderNumber p,
       map (OrderItemData.toRow orderId) (planOrderItems p))
  /\ orders db' = (orders db ++ [plannedOrder orderId orderNumber p])%list
  /\ orderItems db'
     = (orderItems db ++ map (OrderItemData.toRow orderId) (planOrderItems p))%list
  /\ (forall v,
        stockOf db' v =
        option_map
          (fun s => s - quantityOf v (movements OrderItemData.variantId
                                        OrderItemData.quantity (planOrderItems p)))
          (stockOf db v))
  /\ cartItems db'
     = deleteMany (fun i => String.eqb (CartItem.cartId i) (Cart.id (planCart p)))
                  (cartItems db)
  /\ products db' = products db.
Proof.
  unfold checkoutTransaction, bind at 1, createOrder.
  fold (plannedOrder orderId orderNumber p).
  destruct (existsb _ (orders db)); [discriminate |].
  unfold bind at 1.
  destruct (forEach _ _ _) as [[[] | e1] db2] eqn:Hloop; [| discriminate].
  destruct (forEach_stock_Ok OrderItemData.variantId
              (fun i => - OrderItemData.quantity i) _
              (fun i d => decrementStock_incrementStock _ _ d) _ _ _ Hloop)
    as [[rows2 ->] Hstock].
  unfold bind at 1.
  set (couponStep := if truthyString _ then _ else _).
  assert (Hcoupon : forall d r3 d3, couponStep d = (Ok r3, d3) ->
                                    exists ks, d3 = setCoupons ks d).
  { intros d r3 d3. unfold couponStep.
    destruct (truthyString _).
    - destruct (Cart.couponId (planCart p)) as [cid |].
      + unfold bind, update, ret.
        destruct (updateRows _ _ (coupons d)) as [[k ks] |]; [| discriminate].
        intros [= <- <-]. eauto.
      + unfold ret. intros [= <- <-]. exists (coupons d). now destruct d.
    - unfold ret. intros [= <- <-]. exists (coupons d). now destruct d. }
  destruct (couponStep _) as [[[] | e3] db3] eqn:Hc; [| discriminate].
  destruct (Hcoupon _ _ _ Hc) as [ks ->].
  unfold bind at 1, exec. unfold bind, update, ret. cbn [carts setCartItems setCoupons
    setProductVariants setOrderItems setOrders].
  destruct (updateRows _ _ (carts db)) as [[c' cs] |]; [| discriminate].
  intros [= <- <-]. split; [reflexivity |]. cbn.
  split; [reflexivity |]. split; [reflexivity |].
  split; [| split; reflexivity].
  intros v.
  change (stockOf (setCarts cs _) v)
    with (stockOf (setProductVariants rows2
            (setOrderItems (orderItems db ++ map (OrderItemData.toRow orderId)
                                                 (planOrderItems p))
               (setOrders (orders db ++ [plannedOrder orderId orderNumber p]) db))) v).
  rewrite Hstock, quantityOf_opp.
  change (stockOf (setOrderItems _ (setOrders _ db)) v) with (stockOf db v).
  destruct (stockOf db v); reflexivity.
Qed.

(** The transaction throws nothing but database-client errors: it holds
    no stock check of its own. *)
Lemma checkoutTransaction_Throw (orderId orderNumber : string) (p : CheckoutPlan)
    (db db' : DB) (e : Exception) :
  checkoutTransaction orderId orderNumber p db = (Throw e, db') ->
  exists code, e = PrismaClientError code.
Proof.
  unfold checkoutTransaction, bind at 1, createOrder.
  destruct (existsb _ (orders db)); [intros [= <- <-]; eauto |].
  unfold bind at 1.
  destruct (forEach _ _ _) as [[[] | e1] db2] eqn:Hloop.
  2:{ intros [= <- <-]. rewrite (forEach_decrement_Throw _ _ _ _ Hloop). eauto. }
  unfold bind at 1.
  destruct (truthyString _).
  - destruct (Cart.couponId (planCart p)) as [cid |].
    + unfold bind at 1, update.
      destruct (updateRows _ _ (coupons db2)) as [[k ks] |];
        [| intros [= <- <-]; eauto].
      unfold ret, bind, exec, update.
      destruct (updateRows _ _ _) as [[c' cs] |]; [discriminate |].
      intros [= <- <-]; eauto.
    + unfold ret, bind, exec, update.
      destruct (updateRows _ _ _) as [[c' cs] |]; [discriminate |].
      intros [= <- <-]; eauto.
  - unfold ret, bind, exec, update.
    destruct (updateRows _ _ _) as [[c' cs] |]; [discriminate |].
    intros [= <- <-]; eauto.
Qed.

(** The transaction commits when the new keys are free and the rows it
    updates exist. *)
Lemma checkoutTransaction_succeeds (orderId orderNumber : string) (p : CheckoutPlan)
    (db : DB) :
  orderNumberTaken orderId orderNumber db = false ->
  (forall i, In i (planOrderItems p) -> stockOf db (OrderItemData.variantId i) <> None) ->
  (forall cid, Cart.couponId (planCart p) = Some cid ->
               find (byCouponId cid) (coupons db) <> None) ->
  find (byCartId (Cart.id (planCart p))) (carts db) <> None ->
  exists r db', checkoutTransaction orderId orderNumber p db = (Ok r, db').
Proof.
  intros Hfresh Hvars Hcoupon Hcart.
  unfold checkoutTransaction, bind at 1, createOrder.
  unfold orderNumberTaken in Hfresh. cbn [Order.id Order.orderNumber]. rewrite Hfresh.
  unfold bind at 1.
  match goal with
  | |- context [forEach ?its ?body ?d] =>
      destruct (forEach_stock_succeeds OrderItemData.variantId
                  (fun i => - OrderItemData.quantity i) body
                  (fun i d' => decrementStock_incrementStock _ _ d') its d)
        as [db2 Hloop]; [exact Hvars |];
      destruct (forEach_stock_Ok OrderItemData.variantId
                  (fun i => - OrderItemData.quantity i) body
                  (fun i d' => decrementStock_incrementStock _ _ d') _ _ _ Hloop)
        as [[rows2 ->] _]
  end.
  rewrite Hloop. unfold bind at 1.
  assert (Hstep3 : exists ks,
             (if truthyString (Cart.couponId (planCart p))
              then match Cart.couponId (planCart p) with
                   | Some couponId =>
                       bind (update coupons setCoupons
                               (fun k => String.eqb (Coupon.id k) couponId)
                               (Coupon.withUsedCount (fun n => n + 1)))
                            (fun _ => ret tt)
                   | None => ret tt
                   end
              else ret tt)
               (setProductVariants rows2
                  (setOrderItems
                     (orderItems db ++ map (OrderItemData.toRow orderId) (planOrderItems p))
                     (setOrders (orders db ++ [plannedOrder orderId orderNumber p]) db)))
             = (Ok tt,
                setCoupons ks
                  (setProductVariants rows2
                     (setOrderItems
                        (orderItems db
                         ++ map (OrderItemData.toRow orderId) (planOrderItems p))
                        (setOrders (orders db ++ [plannedOrder orderId orderNumber p])
                                   db))))).
  { destruct (truthyString _); [| exists (coupons db); reflexivity].
    destruct (Cart.couponId (planCart p)) as [cid |]; [| exists (coupons db); reflexivity].
    unfold bind, update, ret. cbn [coupons setProductVariants setOrderItems setOrders].
    specialize (Hcoupon cid eq_refl). fold (byCouponId cid).
    destruct (find (byCouponId cid) (coupons db)) as [k |] eqn:Hk; [| now elim Hcoupon].
    destruct (updateRows_found _ (Coupon.withUsedCount (fun n => n + 1)) _ _ Hk)
      as [ks ->].
    exists ks. reflexivity. }
  destruct Hstep3 as [ks Hstep3]. unfold plannedOrder in Hstep3. rewrite Hstep3.
  unfold bind at 1, exec. unfold bind, update, ret.
  cbn [carts setCartItems setCoupons setProductVariants setOrderItems setOrders].
  fold (byCartId (Cart.id (planCart p))).
  destruct (find (byCartId (Cart.id (planCart p))) (carts db)) as [c |] eqn:Hc;
    [| now elim Hcart].
  destruct (updateRows_found _ (Cart.withCouponId None) _ _ Hc) as [cs ->].
  eauto.
Qed.

(* ===================================================================== *)
(** * Checkout: aborts *)
(* ===================================================================== *)

Lemma checkout_Throw_unchanged (orderId orderNumber userId : string)
    (dto : CreateOrderDto.t) (db db' : DB) (e : Exception) :
  checkout orderId orderNumber userId dto db = (Throw e, db') -> db' = db.
Proof.
  unfold checkout, bind.
  destruct (checkoutPrepare userId dto db) as [[plan | e0] db0] eqn:Hprep.
  - apply checkoutPrepare_reads in Hprep. subst db0. apply transaction_rollback.
  - apply checkoutPrepare_reads in Hprep. congruence.
Qed.

Lemma checkout_empty_cart (orderId orderNumber userId : string)
    (dto : CreateOrderDto.t) (db : DB) :
  (find (byUserId userId) (carts db) = None
   \/ exists c, find (byUserId userId) (carts db) = Some c
                /\ cartItemsOf db (Cart.id c) = []) ->
  checkout orderId orderNumber userId dto db = (Throw EmptyCartException, db).
Proof.
  unfold checkout, checkoutPrepare, bind, findCart, findFirst.
  fold (byUserId userId).
  intros [-> | (c & -> & ->)]; reflexivity.
Qed.

Lemma checkout_address_missing (orderId orderNumber userId : string)
    (dto : CreateOrderDto.t) (db : DB) (c : Cart.t) (lines : list CartLine) :
  find (byUserId userId) (carts db) = Some c ->
  includeVariants db (cartItemsOf db (Cart.id c)) = Some lines ->
  lines <> [] ->
  find (byOwnedAddress (CreateOrderDto.addressId dto) userId) (addresses db) = None ->
  checkout orderId orderNumber userId dto db
  = (Throw (NotFoundException "Shipping address"), db).
Proof.
  intros Hc Hl Hne Ha.
  unfold checkout, checkoutPrepare, bind. rewrite (findCart_eval _ _ _ _ Hc Hl).
  cbn [items]. destruct lines as [| l ls]; [congruence |]. cbn [length Nat.eqb].
  unfold query, findFirst. fold (byOwnedAddress (CreateOrderDto.addressId dto) userId).
  now rewrite Ha.
Qed.

(** With the cart and the address found, a line that asks for more than
    the stock of its variant aborts the checkout before the transaction,
    with the stock of the first such line in the error. *)
Lemma checkout_insufficient (orderId orderNumber userId : string)
    (dto : CreateOrderDto.t) (db : DB) (c : Cart.t) (lines : list CartLine)
    (address : Address.t) :
  find (byUserId userId) (carts db) = Some c ->
  includeVariants db (cartItemsOf db (Cart.id c)) = Some lines ->
  find (byOwnedAddress (CreateOrderDto.addressId dto) userId) (addresses db)
    = Some address ->
  (exists l, In l lines /\ ~ withinStock l) ->
  exists l,
    In l lines /\ ~ withinStock l
    /\ stockOf db (CartItem.variantId (item l))
       = Some (ProductVariant.stockQuantity (variant l))
    /\ checkoutPrepare userId dto db
       = (Throw (InsufficientStockException (ProductVariant.stockQuantity (variant l))),
          db)
    /\ checkout orderId orderNumber userId dto db
       = (Throw (InsufficientStockException (ProductVariant.stockQuantity (variant l))),
          db).
Proof.
  intros Hc Hl Ha Hex.
  assert (Hne : lines <> []) by (destruct Hex as (l & Hin & _); now destruct lines).
  destruct (verifyStock_fails lines 0%float [] Hex) as [e He].
  destruct (verifyStock_Throw_inv _ _ _ _ He) as (l & Hin & Hn & ->).
  destruct (includeVariants_lines _ _ _ Hl) as [_ Hrows].
  exists l. split; [exact Hin |]. split; [exact Hn |].
  split; [now apply Hrows |].
  assert (Hprep : checkoutPrepare userId dto db
                  = (Throw (InsufficientStockException
                              (ProductVariant.stockQuantity (variant l))), db)).
  { rewrite (checkoutPrepare_eval _ _ _ _ _ _ Hc Hl Hne Ha), He. reflexivity. }
  split; [exact Hprep |].
  unfold checkout, bind. now rewrite Hprep.
Qed.

(** The same, naming the line: it is the first line of the cart that
    exceeds the stock of its variant. *)
Lemma checkout_insufficient_first (orderId orderNumber userId : string)
    (dto : CreateOrderDto.t) (db : DB) (c : Cart.t) (lines : list CartLine)
    (address : Address.t) :
  find (byUserId userId) (carts db) = Some c ->
  includeVariants db (cartItemsOf db (Cart.id c)) = Some lines ->
  find (byOwnedAddress (CreateOrderDto.addressId dto) userId) (addresses db)
    = Some address ->
  (exists l, In l lines /\ ~ withinStock l) ->
  exists before l after,
    lines = (before ++ l :: after)%list
    /\ (forall x, In x before -> withinStock x)
    /\ ~ withinStock l
    /\ stockOf db (CartItem.variantId (item l))
       = Some (ProductVariant.stockQuantity (variant l))
    /\ checkoutPrepare userId dto db
       = (Throw (InsufficientStockException (ProductVariant.stockQuantity (variant l))),
          db)
    /\ checkout orderId orderNumber userId dto db
       = (Throw (InsufficientStockException (ProductVariant.stockQuantity (variant l))),
          db).
Proof.
  intros Hc Hl Ha Hex.
  assert (Hne : lines <> []) by (destruct Hex as (l & Hin & _); now destruct lines).
  destruct (verifyStock_fails lines 0%float [] Hex) as [e He].
  destruct (verifyStock_Throw_first _ _ _ _ He) as (before & l & after & E & Hall & Hn & ->).
  destruct (includeVariants_lines _ _ _ Hl) as [_ Hrows].
  exists before, l, after. split; [exact E |]. split; [exact Hall |].
  split; [exact Hn |].
  split; [apply Hrows; rewrite E; apply in_elt |].
  assert (Hprep : checkoutPrepare userId dto db
                  = (Throw (InsufficientStockException
                              (ProductVariant.stockQuantity (variant l))), db)).
  { rewrite (checkoutPrepare_eval _ _ _ _ _ _ Hc Hl Hne Ha), He. reflexivity. }
  split; [exact Hprep |].
  unfold checkout, bind. now rewrite Hprep.
Qed.

(** C1.  A checkout that aborts leaves the store as it was: no order row,
    no order-item row, every variant's stock, every coupon's [usedCount],
    the cart's items and its attached coupon are those of before.  The
    listed reasons do abort it: a missing or empty cart, an address that
    does not exist or is not the caller's, a line whose quantity exceeds
    its variant's stock. *)
Theorem checkout_atomic (orderId orderNumber userId : string)
    (dto : CreateOrderDto.t) (db : DB) :
  (forall e db',
     checkout orderId orderNumber userId dto db = (Throw e, db') ->
     db' = db
     /\ orders db' = orders db
     /\ orderItems db' = orderItems db
     /\ (forall v, stockOf db' v = stockOf db v)
     /\ map Coupon.usedCount (coupons db') = map Coupon.usedCount (coupons db)
     /\ cartItems db' = cartItems db
     /\ map Cart.couponId (carts db') = map Cart.couponId (carts db))
  /\ ((find (byUserId userId) (carts db) = None
       \/ exists c, find (byUserId userId) (carts db) = Some c
                    /\ cartItemsOf db (Cart.id c) = []) ->
      checkout orderId orderNumber userId dto db = (Throw EmptyCartException, db))
  /\ (forall c lines,
        find (byUserId userId) (carts db) = Some c ->
        includeVariants db (cartItemsOf db (Cart.id c)) = Some lines ->
        lines <> [] ->
        (find (byOwnedAddress (CreateOrderDto.addressId dto) userId) (addresses db)
           = None ->
         checkout orderId orderNumber userId dto db
         = (Throw (NotFoundException "Shipping address"), db))
        /\ (forall address,
              find (byOwnedAddress (CreateOrderDto.addressId dto) userId) (addresses db)
                = Some address ->
              (exists l, In l lines /\ ~ withinStock l) ->
              exists available,
                checkout orderId orderNumber userId dto db
                = (Throw (InsufficientStockException available), db))).
Proof.
  split; [| split].
  - intros e db' Hrun. apply checkout_Throw_unchanged in Hrun. subst db'.
    repeat split; reflexivity.
  - apply checkout_empty_cart.
  - intros c lines Hc Hl Hne. split.
    + now apply checkout_address_missing with (c := c) (lines := lines).
    + intros address Ha Hex.
      destruct (checkout_insufficient orderId orderNumber userId dto db c lines address
                  Hc Hl Ha Hex) as (l & _ & _ & _ & _ & Hrun).
      eauto.
Qed.

Lemma checkout_atomic_witness :
  checkout "o9" "VT-9" "u1" (Example.toLagos "a1")
    (Example.shopDB 0 (Example.save10 true 1000 None 0 None) (Some "k1"))
  = (Throw (InsufficientStockException 0),
     Example.shopDB 0 (Example.save10 true 1000 None 0 None) (Some "k1")).
Proof.
  pose (db := Example.shopDB 0 (Example.save10 true 1000 None 0 None) (Some "k1")).
  destruct (checkout_atomic "o9" "VT-9" "u1" (Example.toLagos "a1") db)
    as (Hsame & _ & _).
  destruct (checkout "o9" "VT-9" "u1" (Example.toLagos "a1") db) as [r db'] eqn:Hrun.
  assert (Hr : r = Throw (InsufficientStockException 0)).
  { vm_compute in Hrun. now injection Hrun as <- _. }
  subst r. destruct (Hsame _ _ eq_refl) as (-> & _). reflexivity.
Defined.

(* ===================================================================== *)
(** * Checkout: stock *)
(* ===================================================================== *)

Lemma movements_lines (db : DB) (its : list CartItem.t) (lines : list CartLine) :
  includeVariants db its = Some lines ->
  movements OrderItemData.variantId OrderItemData.quantity (map orderItemOf lines)
  = movements CartItem.variantId CartItem.quantity its.
Proof.
  intros H. destruct (includeVariants_lines _ _ _ H) as [Hmap Hrows].
  rewrite <- Hmap. clear H Hmap.
  induction lines as [| l rest IH]; [reflexivity |].
  simpl. rewrite IH by (intros; apply Hrows; now right).
  destruct (Hrows l (or_introl eq_refl)) as [-> _]. reflexivity.
Qed.

Lemma quantityOf_absent {I} (vid : I -> string) (qty : I -> Z) (its : list I) (v : string) :
  (forall i, In i its -> vid i <> v) ->
  quantityOf v (movements vid qty its) = 0.
Proof.
  induction its as [| i rest IH]; intros H; simpl; [reflexivity |].
  destruct (String.eqb_spec (vid i) v) as [E | _].
  - now elim (H i (or_introl eq_refl)).
  - apply IH. intros j Hj. apply H. now right.
Qed.

Lemma quantityOf_unique {I} (vid : I -> string) (qty : I -> Z) (its : list I) (i : I) :
  uniqueStrings (map vid its) = true -> In i its ->
  quantityOf (vid i) (movements vid qty its) = qty i.
Proof.
  induction its as [| j rest IH]; simpl; [intros _ [] |].
  intros Hu Hin. apply andb_prop in Hu as [Hj Hrest].
  apply negb_true_iff in Hj.
  assert (Hfresh : forall x, In x rest -> vid x <> vid j).
  { intros x Hx E. rewrite <- not_true_iff_false in Hj. apply Hj.
    apply existsb_exists. exists (vid x). split; [now apply in_map |].
    rewrite E. apply String.eqb_refl. }
  destruct Hin as [-> | Hin].
  - rewrite String.eqb_refl, (quantityOf_absent vid qty rest (vid i)); [lia |].
    exact Hfresh.
  - destruct (String.eqb_spec (vid j) (vid i)) as [E | _].
    + now elim (Hfresh i Hin).
    + now apply IH.
Qed.

(** C2, as stated, fails twice.  The stock check is not part of the
    transaction: the transaction of a plan for one unit of [vA], run on a
    store where [vA] has no stock left, commits and leaves the stock at
    -1.  And a line that exceeds the stock does not always give the
    insufficient-stock error: with an address that is not found, the
    error is the not-found one. *)
Lemma checkout_stock_check_not_in_transaction :
  let k := Example.save10 true 1000 None 0 None in
  (exists plan r db',
     checkoutPrepare "u1" (Example.toLagos "a1") (Example.shopDB 1 k None)
     = (Ok plan, Example.shopDB 1 k None)
     /\ stockOf (Example.shopDB 0 k None) "vA" = Some 0
     /\ transaction (checkoutTransaction "o9" "VT-9" plan) (Example.shopDB 0 k None)
        = (Ok r, db')
     /\ stockOf db' "vA" = Some (-1))
  /\ (stockOf (Example.shopDB 0 k None) "vA" = Some 0
      /\ map CartItem.quantity (cartItemsOf (Example.shopDB 0 k None) "c1") = [1]
      /\ checkout "o9" "VT-9" "u1" (Example.toLagos "nowhere") (Example.shopDB 0 k None)
         = (Throw (NotFoundException "Shipping address"), Example.shopDB 0 k None)).
Proof.
  cbv zeta. split.
  - eexists _, _, _. split; [vm_compute; reflexivity |].
    split; [reflexivity |]. split; [vm_compute; reflexivity | reflexivity].
  - split; [reflexivity |]. split; [reflexivity |]. vm_compute. reflexivity.
Qed.

(** C2, amended.  For a checkout on a sequential execution whose cart is
    found and not empty and whose address is found: if some line's
    quantity exceeds its variant's current stock, the checkout aborts with
    the insufficient-stock error carrying the available quantity of the
    first such line (every line before it in the cart being within
    stock), and it does so in the part that precedes the
    transaction (the transaction itself never raises that error: it
    decrements without a check); if every line's quantity is within stock
    (the lines of the cart naming distinct variants, the new order keys
    being free and the attached coupon row existing), the checkout
    succeeds and the stock of each ordered variant is decremented by
    exactly the ordered quantity, every other stock being unchanged. *)
Theorem checkout_stock_check (orderId orderNumber userId : string)
    (dto : CreateOrderDto.t) (db : DB) (c : Cart.t) (lines : list CartLine)
    (address : Address.t) :
  find (byUserId userId) (carts db) = Some c ->
  includeVariants db (cartItemsOf db (Cart.id c)) = Some lines ->
  lines <> [] ->
  find (byOwnedAddress (CreateOrderDto.addressId dto) userId) (addresses db)
    = Some address ->
  ((exists l, In l lines /\ ~ withinStock l) ->
   exists before l after,
     lines = (before ++ l :: after)%list
     /\ (forall x, In x before -> withinStock x)
     /\ ~ withinStock l
     /\ stockOf db (CartItem.variantId (item l))
        = Some (ProductVariant.stockQuantity (variant l))
     /\ checkoutPrepare userId dto db
        = (Throw (InsufficientStockException (ProductVariant.stockQuantity (variant l))),
           db)
     /\ checkout orderId orderNumber userId dto db
        = (Throw (InsufficientStockException (ProductVariant.stockQuantity (variant l))),
           db))
  /\ (forall plan d d' e,
        checkoutTransaction orderId orderNumber plan d = (Throw e, d') ->
        forall available, e <> InsufficientStockException available)
  /\ ((forall l, In l lines -> withinStock l) ->
      cartLinesUnique db (Cart.id c) = true ->
      orderNumberTaken orderId orderNumber db = false ->
      (forall cid, Cart.couponId c = Some cid ->
                   find (byCouponId cid) (coupons db) <> None) ->
      exists r db',
        checkout orderId orderNumber userId dto db = (Ok r, db')
        /\ (forall it s,
              In it (cartItemsOf db (Cart.id c)) ->
              stockOf db (CartItem.variantId it) = Some s ->
              stockOf db' (CartItem.variantId it) = Some (s - CartItem.quantity it))
        /\ (forall v,
              (forall it, In it (cartItemsOf db (Cart.id c)) -> CartItem.variantId it <> v) ->
              stockOf db' v = stockOf db v)).
Proof.
  intros Hc Hl Hne Ha. split; [| split].
  - now apply checkout_insufficient_first with (c := c) (address := address).
  - intros plan d d' e Hthrow available ->.
    destruct (checkoutTransaction_Throw _ _ _ _ _ _ Hthrow) as [code Hcode].
    discriminate.
  - intros Hall Huniq Hfresh Hcoupon.
    pose (subtotal := fold_left (fun sum l => (sum + lineTotal l)%float) lines 0%float).
    pose (plan := mkCheckoutPlan userId (CreateOrderDto.notes dto) c address
                    (map orderItemOf lines)
                    (couponDiscount (couponOf db c) subtotal) shippingCostFlat
                    (calculateOrderTotal subtotal shippingCostFlat
                       (couponDiscount (couponOf db c) subtotal))).
    assert (Hprep : checkoutPrepare userId dto db = (Ok plan, db)).
    { rewrite (checkoutPrepare_eval _ _ _ _ _ _ Hc Hl Hne Ha).
      rewrite (verifyStock_passes _ _ _ Hall). reflexivity. }
    destruct (includeVariants_lines _ _ _ Hl) as [Hmap Hrows].
    destruct (checkoutTransaction_succeeds orderId orderNumber plan db) as (r & db' & Hrun).
    + exact Hfresh.
    + cbn [planOrderItems plan]. intros i Hi. apply in_map_iff in Hi as (l & <- & Hin).
      destruct (Hrows l Hin) as [Hid Hs]. cbn [OrderItemData.variantId orderItemOf].
      rewrite Hid, Hs. discriminate.
    + exact Hcoupon.
    + cbn [planCart plan]. apply find_some in Hc as [Hin _]. intros Hnone.
      apply (find_none _ _ Hnone) in Hin. unfold byCartId in Hin.
      now rewrite String.eqb_refl in Hin.
    + exists r, db'. split.
      { unfold checkout, bind. rewrite Hprep. now apply transaction_commit. }
      destruct (checkoutTransaction_Ok_inv _ _ _ _ _ _ Hrun) as (_ & _ & _ & Hstock & _).
      cbn [planOrderItems plan] in Hstock.
      rewrite (movements_lines _ _ _ Hl) in Hstock.
      split.
      * intros it s Hin Hs. rewrite Hstock, Hs. cbn [option_map].
        now rewrite (quantityOf_unique CartItem.variantId CartItem.quantity _ it Huniq Hin).
      * intros v Hv. rewrite Hstock, (quantityOf_absent _ _ _ _ Hv).
        destruct (stockOf db v); [cbn; f_equal; lia | reflexivity].
Qed.

Lemma checkout_stock_check_witness :
  (exists r db',
      checkout "o9" "VT-9" "u1" (Example.toLagos "a1")
        (Example.shopDB 1 (Example.save10 true 1000 None 0 None) None)
      = (Ok r, db')
      /\ stockOf db' "vA" = Some 0)
  /\ checkout "o9" "VT-9" "u4" (Example.toLagos "a4") Example.greedyDB
     = (Throw (InsufficientStockException 2), Example.greedyDB).
Proof.
  split.
  - pose (db := Example.shopDB 1 (Example.save10 true 1000 None 0 None) None).
    pose (it := CartItem.mk "i1" "c1" "vA" 1).
    destruct (checkout_stock_check "o9" "VT-9" "u1" (Example.toLagos "a1") db
                (Cart.mk "c1" "u1" None)
                [mkCartLine it (Example.variantA 1) Example.dress]
                (Address.mk "a1" "u1" Example.lagos))
      as (_ & _ & Hok).
    + reflexivity.
    + reflexivity.
    + discriminate.
    + reflexivity.
    + destruct Hok as (r & db' & Hrun & Hdec & _).
      * intros l [<- | []]. unfold withinStock. simpl. lia.
      * reflexivity.
      * reflexivity.
      * intros cid H. discriminate.
      * exists r, db'. split; [exact Hrun |].
        apply (Hdec it 1); [left; reflexivity | reflexivity].
  - pose (first := mkCartLine (CartItem.mk "i4" "c4" "vA" 3) (Example.variantA 2)
                              Example.dress).
    pose (second := mkCartLine (CartItem.mk "i5" "c4" "vB" 9) Example.variantB
                               Example.dress).
    destruct (checkout_stock_check "o9" "VT-9" "u4" (Example.toLagos "a4")
                Example.greedyDB (Cart.mk "c4" "u4" None) [first; second]
                (Address.mk "a4" "u4" Example.lagos))
      as (Hfail & _).
    + reflexivity.
    + reflexivity.
    + discriminate.
    + reflexivity.
    + destruct Hfail as (before & l & after & E & Hall & _ & _ & _ & Hrun).
      * exists second. split; [right; left; reflexivity |].
        unfold withinStock. simpl. lia.
      * destruct before as [| x before'].
        -- injection E as <- _. exact Hrun.
        -- exfalso. injection E as <- _.
           specialize (Hall first (or_introl eq_refl)).
           unfold withinStock in Hall. simpl in Hall. lia.
Defined.

(* ===================================================================== *)
(** * Checkout: the coupon *)
(* ===================================================================== *)

Lemma find_map_keyed {A} (key : A -> string) (g : A -> A) (k : string) (rows : list A) :
  (forall r, key (g r) = key r) ->
  find (fun r => String.eqb (key r) k) (map g rows)
  = option_map g (find (fun r => String.eqb (key r) k) rows).
Proof.
  intros Hkey. induction rows as [| r rest IH]; simpl; [reflexivity |].
  rewrite Hkey. destruct (String.eqb (key r) k); [reflexivity | exact IH].
Qed.

Lemma couponDiscount_reads_type_and_value (k k' : Coupon.t) (subtotal : float) :
  Coupon.type k = Coupon.type k' -> Coupon.value k = Coupon.value k' ->
  couponDiscount (Some k) subtotal = couponDiscount (Some k') subtotal.
Proof. unfold couponDiscount. now intros -> ->. Qed.

(** The plan of a checkout does not depend on the validity fields of the
    coupon rows. *)
Lemma checkoutPrepare_ignores_validity (userId : string) (dto : CreateOrderDto.t)
    (db : DB) (g : Coupon.t -> Coupon.t) :
  (forall k, Coupon.id (g k) = Coupon.id k
             /\ Coupon.type (g k) = Coupon.type k
             /\ Coupon.value (g k) = Coupon.value k) ->
  fst (checkoutPrepare userId dto (setCoupons (map g (coupons db)) db))
  = fst (checkoutPrepare userId dto db).
Proof.
  intros Hg. unfold checkoutPrepare, bind, findCart, findFirst.
  cbn [carts setCoupons].
  destruct (find _ (carts db)) as [c |]; [| reflexivity].
  rewrite (includeVariants_frame db (setCoupons (map g (coupons db)) db))
    by reflexivity.
  change (cartItemsOf (setCoupons (map g (coupons db)) db) (Cart.id c))
    with (cartItemsOf db (Cart.id c)).
  destruct (includeVariants db _) as [lines |]; [| reflexivity].
  cbn [items cartRow coupon].
  destruct (length lines =? 0)%nat; [reflexivity |].
  unfold query. cbn [addresses setCoupons].
  destruct (find _ (addresses db)) as [address |]; [| reflexivity].
  destruct (verifyStock lines 0%float []) as [[subtotal its] | e]; [| reflexivity].
  unfold ret. cbn [fst].
  assert (E : couponDiscount (couponOf (setCoupons (map g (coupons db)) db) c) subtotal
              = couponDiscount (couponOf db c) subtotal).
  { unfold couponOf, findFirst. cbn [coupons setCoupons].
    destruct (Cart.couponId c) as [cid |]; [| reflexivity].
    rewrite (find_map_keyed Coupon.id g cid) by (intros k; apply Hg).
    destruct (find _ (coupons db)) as [k |]; [| reflexivity].
    apply couponDiscount_reads_type_and_value; apply Hg. }
  now rewrite E.
Qed.

(** The order of a committed checkout, from its cart. *)
Lemma checkout_Ok_order (orderId orderNumber userId : string) (dto : CreateOrderDto.t)
    (db db' : DB) (c : Cart.t) (lines : list CartLine) (r : Order.t * list OrderItem.t) :
  find (byUserId userId) (carts db) = Some c ->
  includeVariants db (cartItemsOf db (Cart.id c)) = Some lines ->
  checkout orderId orderNumber userId dto db = (Ok r, db') ->
  let subtotal := cartSubtotal lines in
  let discount := couponDiscount (couponOf db c) subtotal in
  let totals := calculateOrderTotal subtotal shippingCostFlat discount in
  Order.discount (fst r) = discount
  /\ Order.subtotal (fst r) = discountedSubtotal totals
  /\ Order.vat (fst r) = vat totals
  /\ Order.total (fst r) = total totals
  /\ Order.status (fst r) = OrderStatus.PENDING
  /\ (forall l, In l lines -> withinStock l).
Proof.
  intros Hc Hl. unfold checkout, bind.
  destruct (checkoutPrepare userId dto db) as [[plan | e] d] eqn:Hprep; [| discriminate].
  pose proof (checkoutPrepare_reads _ _ _ _ _ Hprep) as ->.
  intros Hrun. apply (proj1 (transaction_commit _ _ _ _)) in Hrun.
  destruct (checkoutTransaction_Ok_inv _ _ _ _ _ _ Hrun) as (-> & _).
  revert Hprep. unfold checkoutPrepare, bind. rewrite (findCart_eval _ _ _ _ Hc Hl).
  cbn [items cartRow coupon].
  destruct (length lines =? 0)%nat; [discriminate |].
  unfold query. destruct (findFirst _ (addresses db)) as [address |]; [| discriminate].
  destruct (verifyStock lines 0%float []) as [[subtotal its] | e] eqn:Hv; [| discriminate].
  destruct (verifyStock_Ok_inv _ _ _ _ _ Hv) as (Hall & -> & ->).
  unfold ret. intros [= <-]. cbn. repeat split; try reflexivity. exact Hall.
Qed.

(** C9, as stated, fails: [checkout] reads no clock and none of the
    coupon's validity fields.  A coupon that has expired at time 1000 is
    refused by [applyCoupon] at time 2000, yet a checkout of the cart it is
    attached to grants its 10 percent; so does a coupon that is inactive,
    used up and below its minimum order. *)
Lemma checkout_grants_discount_of_invalid_coupon :
  let expired := Example.save10 true 1000 None 0 None in
  let spent := Example.save10 false 1000 (Some 5) 5 (Some 50000%float) in
  (fst (applyCoupon Example.plainNaira 2000 "u1" "SAVE10"
          (Example.shopDB 5 expired (Some "k1")))
   = Throw (InvalidCouponException MESSAGES.COUPON_EXPIRED)
   /\ exists o rows db',
       checkout "o9" "VT-9" "u1" (Example.toLagos "a1")
         (Example.shopDB 5 expired (Some "k1"))
       = (Ok (o, rows), db')
       /\ Order.discount o = 1000%float /\ Order.total o = 12175%float)
  /\ (fst (applyCoupon Example.plainNaira 500 "u1" "SAVE10"
             (Example.shopDB 5 spent (Some "k1")))
      = Throw (InvalidCouponException MESSAGES.COUPON_NOT_ACTIVE)
      /\ exists o rows db',
          checkout "o9" "VT-9" "u1" (Example.toLagos "a1")
            (Example.shopDB 5 spent (Some "k1"))
          = (Ok (o, rows), db')
          /\ Order.discount o = 1000%float /\ Order.total o = 12175%float).
Proof.
  cbv zeta. split; (split; [vm_compute; reflexivity |]);
    eexists _, _, _; (split; [vm_compute; reflexivity |]);
    split; vm_compute; reflexivity.
Qed.

(** C9, amended.  At checkout the attached coupon is not validated again:
    the discount of the order is computed from the type and the value of
    the attached coupon on the subtotal recomputed from current prices
    (a percentage of the subtotal, the fixed amount, or nothing for a
    free-shipping coupon), and the totals from that discount; the coupon's
    active flag, validity window, usage counters and minimum order are not
    read, so whatever they hold the checkout computes the same plan, and a
    coupon that became invalid after it was attached still grants its
    discount. *)
Theorem checkout_coupon_not_revalidated (orderId orderNumber userId : string)
    (dto : CreateOrderDto.t) (db db' : DB) (c : Cart.t) (lines : list CartLine)
    (r : Order.t * list OrderItem.t) :
  find (byUserId userId) (carts db) = Some c ->
  includeVariants db (cartItemsOf db (Cart.id c)) = Some lines ->
  checkout orderId orderNumber userId dto db = (Ok r, db') ->
  let subtotal := cartSubtotal lines in
  Order.discount (fst r) = couponDiscount (couponOf db c) subtotal
  /\ Order.total (fst r)
     = total (calculateOrderTotal subtotal shippingCostFlat (Order.discount (fst r)))
  /\ (forall k, couponOf db c = Some k ->
        Order.discount (fst r) =
        match Coupon.type k with
        | CouponType.PERCENTAGE => (subtotal * Coupon.value k / 100)%float
        | CouponType.FIXED_AMOUNT => Coupon.value k
        | CouponType.FREE_SHIPPING => 0%float
        end)
  /\ (couponOf db c = None -> Order.discount (fst r) = 0%float)
  /\ (forall g : Coupon.t -> Coupon.t,
        (forall k, Coupon.id (g k) = Coupon.id k
                   /\ Coupon.type (g k) = Coupon.type k
                   /\ Coupon.value (g k) = Coupon.value k) ->
        fst (checkoutPrepare userId dto (setCoupons (map g (coupons db)) db))
        = fst (checkoutPrepare userId dto db)).
Proof.
  intros Hc Hl Hrun subtotal.
  destruct (checkout_Ok_order _ _ _ _ _ _ _ _ _ Hc Hl Hrun) as (Hd & _ & _ & Ht & _).
  fold subtotal in Hd, Ht.
  split; [exact Hd |]. split; [now rewrite Hd |].
  split; [intros k Hk; rewrite Hd, Hk; reflexivity |].
  split; [intros Hk; rewrite Hd, Hk; reflexivity |].
  intros g Hg. now apply checkoutPrepare_ignores_validity.
Qed.

Lemma checkout_coupon_not_revalidated_witness :
  exists r db',
    checkout "o9" "VT-9" "u1" (Example.toLagos "a1")
      (Example.shopDB 5 (Example.save10 true 1000 None 0 None) (Some "k1"))
    = (Ok r, db')
    /\ Order.discount (fst r) = 1000%float.
Proof.
  pose (k := Example.save10 true 1000 None 0 None).
  pose (db := Example.shopDB 5 k (Some "k1")).
  destruct (checkout "o9" "VT-9" "u1" (Example.toLagos "a1") db) as [[r | e] db']
    eqn:Hrun; [| vm_compute in Hrun; discriminate].
  exists r, db'. split; [exact Hrun |].
  destruct (checkout_coupon_not_revalidated "o9" "VT-9" "u1" (Example.toLagos "a1")
              db db' (Cart.mk "c1" "u1" (Some "k1"))
              [mkCartLine (CartItem.mk "i1" "c1" "vA" 1) (Example.variantA 5)
                          Example.dress]
              r eq_refl eq_refl Hrun) as (_ & _ & Hk & _).
  rewrite (Hk k eq_refl). vm_compute. reflexivity.
Defined.

(* ===================================================================== *)
(** * Several checkouts *)
(* ===================================================================== *)

(** A request that runs its two parts back to back is a [checkout]. *)
Lemma runSchedule_alone (r : CheckoutRequest) (db : DB) :
  runSchedule [r] [Prepare 0; Commit 0] db = runCheckout r db.
Proof.
  unfold runSchedule, runCheckout, checkout, bind. simpl.
  destruct (checkoutPrepare (reqUserId r) (reqDto r) db) as [[plan | e] d] eqn:Hprep;
    reflexivity.
Qed.

(** C3, as stated, fails: with stock 1 and two customers who each order
    one unit, the schedule in which both requests pass the stock check
    before either runs its transaction sells 2 units and leaves the stock
    at -1.  Served one after the other, the same two requests sell 1
    unit. *)
Lemma interleaved_checkouts_oversell :
  let db := Example.shopDB 1 (Example.save10 true 1000 None 0 None) None in
  let raced :=
    runSchedule Example.twoRequests [Prepare 0; Prepare 1; Commit 0; Commit 1] db in
  let served := runCheckouts Example.twoRequests db in
  stockOf db "vA" = Some 1
  /\ (stockOf raced "vA" = Some (-1) /\ unitsSold raced "vA" = 2)
  /\ (stockOf served "vA" = Some 0 /\ unitsSold served "vA" = 1).
Proof.
  vm_compute. repeat split; reflexivity.
Qed.

Lemma filter_filter_implies {A} (p q : A -> bool) (l : list A) :
  (forall x, p x = true -> q x = true) ->
  filter p (filter q l) = filter p l.
Proof.
  intros H. induction l as [| x rest IH]; simpl; [reflexivity |].
  destruct (q x) eqn:Hq; simpl.
  - now rewrite IH.
  - destruct (p x) eqn:Hp; [| exact IH]. apply H in Hp. congruence.
Qed.

(** Deleting the lines of one cart keeps the other carts' lines distinct. *)
Lemma cartItemsUnique_deleteMany (db db' : DB) (cartId : string) :
  cartItemsUnique db = true ->
  cartItems db'
  = deleteMany (fun i => String.eqb (CartItem.cartId i) cartId) (cartItems db) ->
  cartItemsUnique db' = true.
Proof.
  unfold cartItemsUnique, cartLinesUnique, cartItemsOf, findMany, deleteMany.
  intros Hu ->. rewrite forallb_forall in *. intros i Hi.
  apply filter_In in Hi as [Hin Hne]. apply negb_true_iff in Hne.
  rewrite filter_filter_implies; [now apply Hu |].
  intros x Hx. apply String.eqb_eq in Hx. rewrite Hx. now rewrite Hne.
Qed.

Lemma cartLinesUnique_of (db : DB) (cartId : string) (it : CartItem.t) :
  cartItemsUnique db = true -> In it (cartItemsOf db cartId) ->
  cartLinesUnique db cartId = true.
Proof.
  unfold cartItemsUnique, cartItemsOf, findMany. intros Hu Hin.
  apply filter_In in Hin as [Hin Hc]. apply String.eqb_eq in Hc. subst cartId.
  rewrite forallb_forall in Hu. now apply Hu.
Qed.

Lemma unitsSold_created (db db' : DB) (orderId v : string) (its : list OrderItemData.t) :
  orderItems db' = (orderItems db ++ map (OrderItemData.toRow orderId) its)%list ->
  unitsSold db' v
  = unitsSold db v
    + quantityOf v (movements OrderItemData.variantId OrderItemData.quantity its).
Proof.
  unfold unitsSold. intros ->. rewrite fold_right_app.
  induction (orderItems db) as [| x rest IH]; simpl.
  - induction its as [| i more IHi]; simpl; [reflexivity |].
    rewrite IHi. destruct (String.eqb (OrderItemData.variantId i) v); reflexivity.
  - rewrite IH. destruct (String.eqb (OrderItem.variantId x) v); lia.
Qed.

(** What [checkoutPrepare] has established when it returns a plan. *)
Lemma checkoutPrepare_Ok_inv (userId : string) (dto : CreateOrderDto.t) (db d : DB)
    (plan : CheckoutPlan) :
  checkoutPrepare userId dto db = (Ok plan, d) ->
  exists c lines,
    find (byUserId userId) (carts db) = Some c
    /\ includeVariants db (cartItemsOf db (Cart.id c)) = Some lines
    /\ (forall l, In l lines -> withinStock l)
    /\ planCart plan = c
    /\ planOrderItems plan = map orderItemOf lines.
Proof.
  unfold checkoutPrepare, bind, findCart, findFirst. fold (byUserId userId).
  destruct (find _ (carts db)) as [c |]; [| discriminate].
  destruct (includeVariants db _) as [lines |] eqn:Hl; [| discriminate].
  cbn [items cartRow coupon].
  destruct (length lines =? 0)%nat; [discriminate |].
  unfold query. destruct (find _ (addresses db)) as [address |]; [| discriminate].
  destruct (verifyStock lines 0%float []) as [[subtotal its] | e] eqn:Hv; [| discriminate].
  destruct (verifyStock_Ok_inv _ _ _ _ _ Hv) as (Hall & _ & ->).
  unfold ret. intros [= <- <-]. exists c, lines. repeat split; auto.
Qed.

(** One checkout, served alone: the lines of every cart stay distinct, no
    stock that was non-negative becomes negative, and what leaves the
    stock of a variant is what is sold of it. *)
Lemma runCheckout_step (r : CheckoutRequest) (db : DB) (v : string) (s : Z) :
  cartItemsUnique db = true ->
  stockOf db v = Some s -> 0 <= s ->
  cartItemsUnique (runCheckout r db) = true
  /\ exists s',
      stockOf (runCheckout r db) v = Some s' /\ 0 <= s'
      /\ unitsSold (runCheckout r db) v - unitsSold db v = s - s'.
Proof.
  intros Hu Hs Hpos. unfold runCheckout.
  destruct (checkout _ _ _ _ db) as [[res | e] db'] eqn:Hrun; cbn [snd].
  2:{ apply checkout_Throw_unchanged in Hrun. subst db'.
      split; [exact Hu |]. exists s. repeat split; auto; lia. }
  unfold checkout, bind in Hrun.
  destruct (checkoutPrepare _ _ db) as [[plan | e] d] eqn:Hprep; [| discriminate].
  pose proof (checkoutPrepare_reads _ _ _ _ _ Hprep) as ->.
  apply (proj1 (transaction_commit _ _ _ _)) in Hrun.
  destruct (checkoutPrepare_Ok_inv _ _ _ _ _ Hprep) as (c & lines & Hc & Hl & Hall & Hpc & Hpi).
  destruct (checkoutTransaction_Ok_inv _ _ _ _ _ _ Hrun)
    as (_ & _ & Hitems & Hstock & Hcart & _).
  rewrite Hpc in Hcart. rewrite Hpi in Hstock, Hitems.
  split; [exact (cartItemsUnique_deleteMany _ _ _ Hu Hcart) |].
  rewrite (unitsSold_created _ _ _ v _ Hitems), Hstock, Hs.
  rewrite (movements_lines _ _ _ Hl).
  set (its := cartItemsOf db (Cart.id c)) in *.
  set (q := quantityOf v (movements CartItem.variantId CartItem.quantity its)).
  exists (s - q). split; [reflexivity |]. split; [| lia].
  destruct (includeVariants_lines _ _ _ Hl) as [Hmap Hrows].
  destruct (existsb (fun it => String.eqb (CartItem.variantId it) v) its) eqn:Hex.
  - apply existsb_exists in Hex as (it & Hin & Hv). apply String.eqb_eq in Hv.
    assert (Hq : q = CartItem.quantity it).
    { unfold q. rewrite <- Hv.
      apply quantityOf_unique; [| exact Hin].
      exact (cartLinesUnique_of _ _ _ Hu Hin). }
    assert (Hline : exists l, In l lines /\ item l = it).
    { fold its in Hmap. rewrite <- Hmap in Hin.
      apply in_map_iff in Hin as (l & El & Hl'). eauto. }
    destruct Hline as (l & Hinl & El).
    destruct (Hrows l Hinl) as [_ Hsl]. rewrite El, Hv, Hs in Hsl.
    injection Hsl as ->.
    specialize (Hall l Hinl). unfold withinStock in Hall. rewrite El in Hall. lia.
  - assert (Hq : q = 0).
    { unfold q. apply quantityOf_absent. intros it Hin E.
      rewrite <- not_true_iff_false in Hex. apply Hex.
      apply existsb_exists. exists it. split; [exact Hin | now apply String.eqb_eq]. }
    lia.
Qed.

(** C3, amended.  For checkout attempts served one after another (no
    attempt's stock check separated from its transaction by another
    attempt), with the lines of every cart naming distinct variants:
    against a variant with stock N, at most N units are sold in total and
    the stock never goes below zero.  The check is a read made before the
    transaction and the decrement is unconditional, so the guarantee is
    that of the sequential order only, not one for interleaved
    attempts. *)
Theorem sequential_checkouts_never_oversell (rs : list CheckoutRequest) (db : DB)
    (v : string) (N : Z) :
  cartItemsUnique db = true ->
  stockOf db v = Some N -> 0 <= N ->
  exists s,
    stockOf (runCheckouts rs db) v = Some s
    /\ 0 <= s
    /\ unitsSold (runCheckouts rs db) v - unitsSold db v = N - s
    /\ unitsSold (runCheckouts rs db) v - unitsSold db v <= N.
Proof.
  revert db N. induction rs as [| r rest IH]; intros db N Hu Hs Hpos.
  - exists N. cbn. repeat split; auto; lia.
  - destruct (runCheckout_step r db v N Hu Hs Hpos) as (Hu1 & s1 & Hs1 & Hpos1 & Hsold1).
    destruct (IH (runCheckout r db) s1 Hu1 Hs1 Hpos1) as (s & Hs' & Hpos' & Hsold & _).
    exists s. cbn [runCheckouts fold_left].
    change (fold_left (fun d x => runCheckout x d) rest (runCheckout r db))
      with (runCheckouts rest (runCheckout r db)).
    repeat split; auto; lia.
Qed.

Lemma sequential_checkouts_never_oversell_witness :
  exists s,
    stockOf (runCheckouts Example.twoRequests
               (Example.shopDB 1 (Example.save10 true 1000 None 0 None) None)) "vA"
    = Some s
    /\ 0 <= s.
Proof.
  destruct (sequential_checkouts_never_oversell Example.twoRequests
              (Example.shopDB 1 (Example.save10 true 1000 None 0 None) None) "vA" 1)
    as (s & Hs & Hpos & _).
  - reflexivity.
  - reflexivity.
  - lia.
  - exists s. split; [exact Hs | exact Hpos].
Defined.

(* ===================================================================== *)
(** * Price helpers: further properties *)
(* ===================================================================== *)

Lemma identical_eq (a b : float) : identical a b = true -> a = b.
Proof.
  unfold identical. intros H. apply Prim2SF_inj.
  destruct (Prim2SF a) as [s1 | s1 | | s1 m1 e1], (Prim2SF b) as [s2 | s2 | | s2 m2 e2];
    try discriminate; try reflexivity.
  - apply Bool.eqb_prop in H. now subst.
  - apply Bool.eqb_prop in H. now subst.
  - apply andb_prop in H as [H He]. apply andb_prop in H as [Hs Hm].
    apply Bool.eqb_prop in Hs. apply Pos.eqb_eq in Hm. apply Z.eqb_eq in He.
    now subst.
Qed.

Lemma countFrom_In (k from : Z) (n : nat) :
  from <= k < from + Z.of_nat n -> In k (countFrom from n).
Proof.
  revert from. induction n as [| n IH]; intros from H; [lia |].
  cbn [countFrom]. destruct (Z.eq_dec from k) as [-> | Hne]; [now left |].
  right. apply IH. lia.
Qed.

Lemma upTo_In (k n : Z) : 0 <= k <= n -> In k (upTo n).
Proof.
  intros H. unfold upTo. apply countFrom_In. lia.
Qed.

Lemma vatWithinAKobo_spec (subtotal shippingCost discount : float) (d shipping : Z) :
  vatWithinAKobo subtotal shippingCost discount d shipping = true ->
  let r := calculateOrderTotal subtotal shippingCost discount in
  discountedSubtotal r = ofKobo d
  /\ exists paid,
      (paid = Stated.vat d
       \/ (d * 75) mod 1000 = 500 /\ paid = Stated.vat d - 1)
      /\ vat r = ofKobo paid
      /\ total r = ofKobo (d + paid + shipping).
Proof.
  unfold vatWithinAKobo. intros H. cbv zeta.
  apply andb_prop in H as [Hd H]. split; [now apply identical_eq |].
  apply orb_prop in H as [H | H].
  - apply andb_prop in H as [Hv Ht]. exists (Stated.vat d).
    split; [now left |]. split; now apply identical_eq.
  - apply andb_prop in H as [H Ht]. apply andb_prop in H as [Htie Hv].
    exists (Stated.vat d - 1). apply Z.eqb_eq in Htie.
    split; [now right |]. split; now apply identical_eq.
Qed.

Lemma wholeNaira_checked :
  forallb (fun n => vatWithinAKobo (Number_of_int n) 2500 0 (100 * n) 250000)
          (upTo 10000) = true.
Proof. vm_compute. reflexivity. Qed.

Lemma tenPercent_checked :
  forallb (fun n => vatWithinAKobo (Number_of_int n) 2500
                      (Number_of_int n * 10 / 100)%float (90 * n) 250000)
          (upTo 10000) = true.
Proof. vm_compute. reflexivity. Qed.

(** X1.  [calculateOrderTotal] on whole-naira subtotals up to 10000 with
    the flat shipping cost 2500, without discount and with the discount
    of a coupon of 10 percent as [checkout] computes it
    ([subtotal * 10 / 100]): the discounted subtotal returned is the
    exact one; the VAT returned is the exact VAT rounded to the kobo,
    halves upwards, or one kobo less, the latter only when the exact VAT
    falls on half a kobo; and the total returned is the sum of the
    returned discounted subtotal, the returned VAT and the shipping
    cost.  Amounts are counted in kobo on the right-hand sides. *)
Theorem calculateOrderTotal_whole_naira (n : Z) :
  0 <= n <= 10000 ->
  (let r := calculateOrderTotal (Number_of_int n) 2500 0 in
   discountedSubtotal r = ofKobo (100 * n)
   /\ exists paid,
       (paid = Stated.vat (100 * n)
        \/ (100 * n * 75) mod 1000 = 500 /\ paid = Stated.vat (100 * n) - 1)
       /\ vat r = ofKobo paid
       /\ total r = ofKobo (100 * n + paid + 250000))
  /\ (let r := calculateOrderTotal (Number_of_int n) 2500
                 (Number_of_int n * 10 / 100)%float in
      discountedSubtotal r = ofKobo (90 * n)
      /\ exists paid,
          (paid = Stated.vat (90 * n)
           \/ (90 * n * 75) mod 1000 = 500 /\ paid = Stated.vat (90 * n) - 1)
          /\ vat r = ofKobo paid
          /\ total r = ofKobo (90 * n + paid + 250000)).
Proof.
  intros Hn. apply upTo_In in Hn. split.
  - apply vatWithinAKobo_spec.
    exact (proj1 (forallb_forall _ _) wholeNaira_checked n Hn).
  - apply vatWithinAKobo_spec.
    exact (proj1 (forallb_forall _ _) tenPercent_checked n Hn).
Qed.

Lemma calculateOrderTotal_whole_naira_witness :
  0 <= 3 <= 10000
  /\ vat (calculateOrderTotal 3 2500 0) = 0.22%float
  /\ total (calculateOrderTotal 3 2500 0) = 2503.22%float
  /\ Stated.vat 300 = 23.
Proof.
  split; [lia |].
  destruct (calculateOrderTotal_whole_naira 3 ltac:(lia))
    as [(_ & paid & Hpaid & Hvat & Htotal) _].
  change (Number_of_int 3) with 3%float in Hvat, Htotal.
  split; [| split; [| reflexivity]].
  - rewrite Hvat. destruct Hpaid as [-> | [_ ->]]; [| reflexivity].
    exfalso. revert Hvat. apply different_numbers. vm_compute. discriminate.
  - rewrite Htotal. destruct Hpaid as [-> | [_ ->]]; [| reflexivity].
    exfalso. revert Hvat. apply different_numbers. vm_compute. discriminate.
Defined.

Lemma discount_checked :
  forallb (fun k => forallb (discountWithinAKobo k) (upTo 100)) (upTo 300) = true.
Proof. vm_compute. reflexivity. Qed.

Lemma fullDiscount_checked :
  forallb (fun k => identical (calculatePercentageDiscount (ofKobo k) 100) (ofKobo k)
                    && identical (calculatePercentageDiscount (ofKobo k) 0) 0)
          (upTo 10000) = true.
Proof. vm_compute. reflexivity. Qed.

(** X2.  [calculatePercentageDiscount] is [roundPrice] of
    [amount * percentage / 100], computed on doubles.  For an amount of
    [k] kobo up to 3.00 and a whole percentage from 0 to 100, the result
    is the exact discount rounded to the kobo, halves upwards, or one
    kobo less, the latter only when the exact discount falls on half a
    kobo; it is an amount between 0 and [k] kobo.  For an amount of up to
    100.00 the discount at 100 percent is the amount and the discount at
    0 percent is 0.  The discount of 50 percent on 1.15 is 0.57. *)
Theorem calculatePercentageDiscount_kobo (k p : Z) :
  (forall amount percentage,
      calculatePercentageDiscount amount percentage
      = roundPrice (amount * percentage / 100)%float)
  /\ calculatePercentageDiscount 1.15 50 = 0.57%float
  /\ (0 <= k <= 300 -> 0 <= p <= 100 ->
      exists d,
        calculatePercentageDiscount (ofKobo k) (Number_of_int p) = ofKobo d
        /\ (d = (k * p + 50) / 100
            \/ (k * p) mod 100 = 50 /\ d = (k * p + 50) / 100 - 1)
        /\ 0 <= d <= k)
  /\ (0 <= k <= 10000 ->
      calculatePercentageDiscount (ofKobo k) 100 = ofKobo k
      /\ calculatePercentageDiscount (ofKobo k) 0 = 0%float).
Proof.
  split; [reflexivity |]. split; [vm_compute; reflexivity |]. split.
  - intros Hk Hp.
    pose proof (proj1 (forallb_forall _ _) discount_checked k (upTo_In _ _ Hk)) as H.
    cbv beta in H.
    pose proof (proj1 (forallb_forall _ _) H p (upTo_In _ _ Hp)) as Hc.
    unfold discountWithinAKobo in Hc. cbv zeta in Hc.
    assert (Hlow : 0 <= (k * p + 50) / 100) by (apply Z.div_pos; nia).
    assert (Hhigh : (k * p + 50) / 100 <= k).
    { assert ((k * p + 50) / 100 < k + 1); [| lia].
      apply Z.div_lt_upper_bound; [lia |]. nia. }
    apply orb_prop in Hc as [Hc | Hc].
    + exists ((k * p + 50) / 100). split; [now apply identical_eq |].
      split; [now left | lia].
    + apply andb_prop in Hc as [Htie Hc]. apply Z.eqb_eq in Htie.
      exists ((k * p + 50) / 100 - 1). split; [now apply identical_eq |].
      split; [now right |].
      assert (1 <= (k * p + 50) / 100).
      { apply Z.div_le_lower_bound; [lia |].
        pose proof (Z.div_mod (k * p) 100 ltac:(lia)) as E.
        pose proof (Z.div_pos (k * p) 100 ltac:(nia) ltac:(lia)). lia. }
      lia.
  - intros Hk.
    pose proof (proj1 (forallb_forall _ _) fullDiscount_checked k (upTo_In _ _ Hk)) as H.
    cbv beta in H. apply andb_prop in H as [H1 H2].
    split; now apply identical_eq.
Qed.

Lemma calculatePercentageDiscount_kobo_witness :
  (0 <= 115 <= 300 /\ 0 <= 50 <= 100
   /\ calculatePercentageDiscount 1.15 50 = ofKobo 57
   /\ (115 * 50 + 50) / 100 = 58)
  /\ (0 <= 9999 <= 10000 /\ calculatePercentageDiscount 99.99 100 = 99.99%float).
Proof.
  destruct (calculatePercentageDiscount_kobo 115 50) as (_ & E & _).
  destruct (calculatePercentageDiscount_kobo 9999 0) as (_ & _ & _ & H).
  split.
  - split; [lia |]. split; [lia |]. split; [| reflexivity].
    rewrite E. vm_compute. reflexivity.
  - split; [lia |].
    destruct (H ltac:(lia)) as [Hfull _].
    change (ofKobo 9999) with 99.99%float in Hfull. exact Hfull.
Defined.

(* ===================================================================== *)
(** * Pagination: properties *)
(* ===================================================================== *)

Lemma firstn_plus {A} (a b : nat) (l : list A) :
  firstn (a + b) l = (firstn a l ++ firstn b (skipn a l))%list.
Proof.
  revert l. induction a as [| a IH]; intros l; [reflexivity |].
  destruct l as [| x l]; simpl.
  - now rewrite firstn_nil.
  - now rewrite IH.
Qed.

(** The first [k] windows of width [w], put end to end, are the first
    [k * w] rows. *)
Lemma windows_concat {A} (w k : nat) (l : list A) :
  concat (map (fun i => firstn w (skipn (i * w) l)) (seq 0 k)) = firstn (k * w) l.
Proof.
  induction k as [| k IH]; [reflexivity |].
  rewrite seq_S, map_app, concat_app, IH. simpl.
  rewrite app_nil_r, (Nat.add_comm w (k * w)). symmetry. apply firstn_plus.
Qed.

(** [Math.ceil (total / limit)] is the number of pages: the least [n] with
    [total <= n * limit]. *)
Lemma totalPages_spec (total limit : Z) :
  0 <= total -> 1 <= limit ->
  let n := Math_ceil (inject_Z total / inject_Z limit)%Q in
  (n - 1) * limit < total <= n * limit /\ 0 <= n.
Proof.
  intros Ht Hl n.
  pose proof (Qle_ceiling (inject_Z total / inject_Z limit)) as Hup.
  pose proof (Qceiling_lt (inject_Z total / inject_Z limit)) as Hlow.
  fold (Math_ceil (inject_Z total / inject_Z limit)) in Hup, Hlow. fold n in Hup, Hlow.
  assert (Hpos : (0 < inject_Z limit)%Q).
  { change 0%Q with (inject_Z 0). rewrite <- Zlt_Qlt. lia. }
  assert (Hne : ~ (inject_Z limit == 0)%Q).
  { intros E. rewrite E in Hpos. exact (Qlt_irrefl 0 Hpos). }
  assert (Hq : (inject_Z total / inject_Z limit * inject_Z limit == inject_Z total)%Q)
    by (field; exact Hne).
  apply (Qmult_le_compat_r _ _ (inject_Z limit)) in Hup; [| now apply Qlt_le_weak].
  apply (Qmult_lt_compat_r _ _ (inject_Z limit)) in Hlow; [| exact Hpos].
  rewrite Hq in Hup, Hlow.
  rewrite <- inject_Z_mult in Hup, Hlow.
  rewrite <- Zle_Qle in Hup. rewrite <- Zlt_Qlt in Hlow.
  split; [lia | nia].
Qed.

Lemma skipTake_page {A} (rows : list A) (page limit : Z) :
  1 <= page -> 1 <= limit ->
  fst (listPage rows page limit)
  = firstn (Z.to_nat limit) (skipn ((Z.to_nat page - 1) * Z.to_nat limit) rows).
Proof.
  intros Hp Hl. unfold listPage, calculatePagination, createPaginatedResult, skipTake.
  cbn [fst]. do 2 f_equal.
  rewrite Z2Nat.inj_mul by lia. f_equal. lia.
Qed.

(** X3.  With a limit of at least 1, the pages of a list endpoint put end
    to end, from page 1 to the [totalPages] of the metadata, are the
    selected rows, each once and in order; every page up to [totalPages]
    holds at least one row and at most [limit], and every later page is
    empty. *)
Theorem listPage_covers {A} (rows : list A) (limit : Z) :
  1 <= limit ->
  let totalPages := PaginationMeta.totalPages (snd (listPage rows 1 limit)) in
  concat (map (fun p => fst (listPage rows (Z.of_nat p) limit))
              (seq 1 (Z.to_nat totalPages))) = rows
  /\ (forall page, 1 <= page <= totalPages ->
        (0 < length (fst (listPage rows page limit)) <= Z.to_nat limit)%nat)
  /\ (forall page, totalPages < page -> fst (listPage rows page limit) = [])
  /\ PaginationMeta.total (snd (listPage rows 1 limit)) = Z.of_nat (length rows).
Proof.
  intros Hl totalPages.
  assert (Hn : (totalPages - 1) * limit < Z.of_nat (length rows) <= totalPages * limit
               /\ 0 <= totalPages).
  { apply (totalPages_spec (Z.of_nat (length rows)) limit); lia. }
  destruct Hn as [[Hlow Hup] Hn0].
  set (w := Z.to_nat limit). set (n := Z.to_nat totalPages).
  assert (Hw : Z.of_nat w = limit) by (unfold w; lia).
  assert (Hnz : Z.of_nat n = totalPages) by (unfold n; lia).
  split; [| split; [| split; [| reflexivity]]].
  - transitivity (firstn (n * w) rows); [| apply firstn_all2; nia].
    rewrite <- windows_concat, <- seq_shift, map_map.
    f_equal. apply map_ext_in. intros i _.
    rewrite skipTake_page by lia. rewrite Nat2Z.id. fold w.
    replace (S i - 1)%nat with i by lia. reflexivity.
  - intros page Hp. rewrite skipTake_page by lia. fold w.
    rewrite length_firstn, length_skipn. nia.
  - intros page Hp. rewrite skipTake_page by lia. fold w.
    rewrite skipn_all2; [apply firstn_nil | nia].
Qed.

Lemma listPage_covers_witness :
  concat (map (fun p => fst (listPage [1; 2; 3; 4; 5] (Z.of_nat p) 2)) (seq 1 3))
  = [1; 2; 3; 4; 5].
Proof.
  destruct (listPage_covers [1; 2; 3; 4; 5] 2) as (H & _); [lia |].
  exact H.
Defined.

(* ===================================================================== *)
(** * Unique slugs: properties *)
(* ===================================================================== *)

Lemma counterToText_injective (i j : nat) : counterToText i = counterToText j -> i = j.
Proof.
  unfold counterToText. intros E.
  apply DecimalNat.Unsigned.to_uint_inj.
  pose proof (DecimalString.NilEmpty.usu (Nat.to_uint i)) as Hi.
  pose proof (DecimalString.NilEmpty.usu (Nat.to_uint j)) as Hj.
  rewrite E in Hi. congruence.
Qed.

Lemma append_injective (s x y : string) : (s ++ x = s ++ y)%string -> x = y.
Proof.
  induction s as [| c s IH]; simpl; [trivial |].
  intros [= E]. now apply IH.
Qed.

Lemma append_longer (s x : string) (c : Ascii.ascii) : s <> (s ++ String c x)%string.
Proof.
  induction s as [| d s IH]; simpl; [discriminate |].
  intros [= E]. now apply IH.
Qed.

Section SlugProperties.
Variable generateSlug : string -> string.
Variable text : string.

Lemma candidate_injective (i j : nat) : slugCandidate generateSlug text i = slugCandidate generateSlug text j -> i = j.
Proof.
  destruct i as [| i], j as [| j]; simpl; intros E.
  - reflexivity.
  - now apply append_longer in E.
  - symmetry in E. now apply append_longer in E.
  - apply append_injective in E. injection E as E.
    now apply counterToText_injective.
Qed.

Lemma includes_In (slug : string) (l : list string) :
  existsb (String.eqb slug) l = true <-> In slug l.
Proof.
  rewrite existsb_exists. split.
  - intros (x & Hin & E). apply String.eqb_eq in E. now subst.
  - intros H. exists slug. split; [exact H | apply String.eqb_refl].
Qed.

(** The loop, started on the [c]-th slug, stops at the first slug from
    there on that is not taken, if its fuel reaches that far. *)
Lemma generateUniqueSlugLoop_finds (existingSlugs : list string) (fuel c k : nat) :
  (c <= k < c + fuel)%nat ->
  (forall j, (c <= j < k)%nat -> In (slugCandidate generateSlug text j) existingSlugs) ->
  ~ In (slugCandidate generateSlug text k) existingSlugs ->
  generateUniqueSlugLoop generateSlug fuel text existingSlugs (slugCandidate generateSlug text c) (S c)
  = Some (slugCandidate generateSlug text k).
Proof.
  revert c. induction fuel as [| fuel IH]; intros c Hk Hbefore Hfree; [lia |].
  simpl. destruct (existsb _ existingSlugs) eqn:E.
  - apply includes_In in E.
    assert (c <> k) by (intros ->; contradiction).
    refine (IH (S c) _ _ Hfree); [lia |]. intros j Hj. apply Hbefore. lia.
  - destruct (Nat.eq_dec c k) as [-> | Hne]; [reflexivity |].
    assert (Hin : In (slugCandidate generateSlug text c) existingSlugs) by (apply Hbefore; lia).
    apply includes_In in Hin. congruence.
Qed.

(** Among the first [n + 1] slugs one is not among [n] existing ones. *)
Lemma candidate_free (existingSlugs : list string) :
  exists k, (k <= length existingSlugs)%nat
            /\ ~ In (slugCandidate generateSlug text k) existingSlugs
            /\ forall j, (j < k)%nat -> In (slugCandidate generateSlug text j) existingSlugs.
Proof.
  assert (Hsome : exists k, (k <= length existingSlugs)%nat
                            /\ ~ In (slugCandidate generateSlug text k) existingSlugs).
  { destruct (Exists_dec (fun k => ~ In (slugCandidate generateSlug text k) existingSlugs)
                (seq 0 (S (length existingSlugs)))) as [Hex | Hall].
    - intros k. destruct (in_dec string_dec (slugCandidate generateSlug text k) existingSlugs); [right | left];
        tauto.
    - apply Exists_exists in Hex as (k & Hin & Hk). apply in_seq in Hin.
      exists k. split; [lia | exact Hk].
    - exfalso.
      assert (Hincl : incl (map (slugCandidate generateSlug text) (seq 0 (S (length existingSlugs))))
                           existingSlugs).
      { intros s Hs. apply in_map_iff in Hs as (k & <- & Hk).
        destruct (in_dec string_dec (slugCandidate generateSlug text k) existingSlugs) as [Hin | Hnin];
          [exact Hin |].
        elim Hall. apply Exists_exists. eauto. }
      apply NoDup_incl_length in Hincl.
      + rewrite length_map, length_seq in Hincl. lia.
      + apply NoDup_map_NoDup_ForallPairs; [| apply seq_NoDup].
        intros i j _ _. apply candidate_injective. }
  destruct Hsome as (k0 & Hk0 & Hfree0).
  (* the least such index *)
  revert Hk0 Hfree0. induction k0 as [k0 IH] using lt_wf_ind. intros Hk0 Hfree0.
  destruct (Exists_dec (fun j => ~ In (slugCandidate generateSlug text j) existingSlugs) (seq 0 k0))
    as [Hex | Hall].
  - intros j. destruct (in_dec string_dec (slugCandidate generateSlug text j) existingSlugs); [right | left];
      tauto.
  - apply Exists_exists in Hex as (j & Hin & Hj). apply in_seq in Hin.
    apply (IH j); [lia | lia | exact Hj].
  - exists k0. split; [exact Hk0 |]. split; [exact Hfree0 |].
    intros j Hj.
    destruct (in_dec string_dec (slugCandidate generateSlug text j) existingSlugs) as [Hin | Hnin];
      [exact Hin |].
    elim Hall. apply Exists_exists. exists j. split; [apply in_seq; lia | exact Hnin].
Qed.

(** X4.  [generateUniqueSlug] returns: its loop ends within one test more
    than there are existing slugs.  The slug it returns is not among the
    existing ones; it is the plain slug of the text when that is free,
    and otherwise the slug with the least suffix -1, -2, ... that is
    free, every smaller one being taken. *)
Theorem generateUniqueSlug_fresh (existingSlugs : list string) :
  exists k,
    generateUniqueSlug generateSlug text existingSlugs = Some (slugCandidate generateSlug text k)
    /\ ~ In (slugCandidate generateSlug text k) existingSlugs
    /\ (forall j, (j < k)%nat -> In (slugCandidate generateSlug text j) existingSlugs)
    /\ (k <= length existingSlugs)%nat
    /\ (~ In (generateSlug text) existingSlugs -> k = 0%nat).
Proof.
  destruct (candidate_free existingSlugs) as (k & Hk & Hfree & Hbefore).
  exists k. split; [| split; [exact Hfree | split; [exact Hbefore | split; [exact Hk |]]]].
  - unfold generateUniqueSlug.
    change (generateSlug text) with (slugCandidate generateSlug text 0).
    apply generateUniqueSlugLoop_finds; [lia | | exact Hfree].
    intros j Hj. apply Hbefore. lia.
  - intros Hplain. destruct k as [| k]; [reflexivity |].
    elim Hplain. apply (Hbefore 0%nat). lia.
Qed.

End SlugProperties.

(* ===================================================================== *)
(** * Tables: further lemmas *)
(* ===================================================================== *)

Section MoreTables.
Context {A : Type}.
Implicit Types (w q : A -> bool) (data : A -> A) (rows : list A).

Lemma updateRows_In w data rows r' rows' :
  updateRows w data rows = Some (r', rows') -> In r' rows'.
Proof.
  revert rows'. induction rows as [| x rest IH]; simpl; intros rows'; [discriminate |].
  destruct (w x).
  - intros [= <- <-]. now left.
  - destruct (updateRows w data rest) as [[y ys] |]; [| discriminate].
    intros [= <- <-]. right. now apply (IH ys).
Qed.

Lemma updateRows_none w data rows :
  find w rows = None -> updateRows w data rows = None.
Proof.
  induction rows as [| x rest IH]; simpl; [reflexivity |].
  destruct (w x); [discriminate |]. intros H. now rewrite (IH H).
Qed.

(** An update that keeps a column keeps the column of the table. *)
Lemma updateRows_column {B} (col : A -> B) w data rows r' rows' :
  (forall r, col (data r) = col r) ->
  updateRows w data rows = Some (r', rows') ->
  map col rows' = map col rows.
Proof.
  intros Hcol. revert rows'.
  induction rows as [| x rest IH]; simpl; intros rows'; [discriminate |].
  destruct (w x).
  - intros [= <- <-]. simpl. now rewrite Hcol.
  - destruct (updateRows w data rest) as [[y ys] |]; [| discriminate].
    intros [= <- <-]. simpl. now rewrite (IH ys eq_refl).
Qed.

Lemma deleteRow_found w rows r :
  find w rows = Some r -> exists rows', deleteRow w rows = Some (r, rows').
Proof.
  induction rows as [| x rest IH]; simpl; [discriminate |].
  destruct (w x).
  - intros [= ->]. eauto.
  - intros H. destruct (IH H) as [rows' ->]. eauto.
Qed.

(** The deleted row is the first one selected; the other rows stay, in
    their order. *)
Lemma deleteRow_split w rows r rows' :
  deleteRow w rows = Some (r, rows') ->
  exists before after,
    rows = (before ++ r :: after)%list /\ rows' = (before ++ after)%list
    /\ w r = true /\ forall x, In x before -> w x = false.
Proof.
  revert rows'. induction rows as [| x rest IH]; simpl; intros rows'; [discriminate |].
  destruct (w x) eqn:Hx.
  - intros [= <- <-]. exists [], rest. repeat split; trivial. intros y [].
  - destruct (deleteRow w rest) as [[y ys] |]; [| discriminate].
    intros [= <- <-]. destruct (IH ys eq_refl) as (b & a & -> & -> & Hr & Hb).
    exists (x :: b), a. repeat split; trivial.
    intros z [<- | Hz]; [exact Hx | now apply Hb].
Qed.

(** A lookup in a table that got a row at its end. *)
Lemma find_created w rows x :
  find w (rows ++ [x]) =
  match find w rows with
  | Some r => Some r
  | None => if w x then Some x else None
  end.
Proof.
  induction rows as [| y rest IH]; simpl; [reflexivity |].
  destruct (w y); [reflexivity | exact IH].
Qed.

End MoreTables.

Lemma uniqueStrings_NoDup (l : list string) : uniqueStrings l = true <-> NoDup l.
Proof.
  induction l as [| x rest IH]; simpl.
  - split; [constructor | reflexivity].
  - rewrite andb_true_iff, negb_true_iff, IH. split.
    + intros [Hx Hr]. constructor; [| exact Hr].
      intros Hin. apply not_true_iff_false in Hx. apply Hx.
      apply existsb_exists. exists x. split; [exact Hin | apply String.eqb_refl].
    + intros H. inversion H as [| ? ? Hx Hr]; subst. split; [| exact Hr].
      apply not_true_iff_false. intros E. apply existsb_exists in E as (y & Hy & E).
      apply String.eqb_eq in E. now subst.
Qed.

Lemma stockOf_known (db : DB) (v : string) :
  stockOf db v <> None ->
  existsb (fun x => String.eqb (ProductVariant.id x) v) (productVariants db) = true.
Proof.
  unfold stockOf, findFirst. intros H.
  destruct (find _ (productVariants db)) as [x |] eqn:E; [| now elim H].
  apply find_some in E as [Hin Hx]. apply existsb_exists. eauto.
Qed.

(* ===================================================================== *)
(** * OrdersService.updateStatus: properties *)
(* ===================================================================== *)

Lemma updateStatus_unfold (orderId : string) (status : OrderStatus.t) (db : DB) :
  updateStatus orderId status db =
  match updateRows (byOrderId orderId) (Order.withStatus status) (orders db) with
  | Some (o', orders') => (Ok o', setOrders orders' db)
  | None => (Throw OrderNotFoundException, db)
  end.
Proof.
  unfold updateStatus, bind, query, findFirst, update, throw.
  fold (byOrderId orderId).
  destruct (find (byOrderId orderId) (orders db)) as [o |] eqn:E.
  - destruct (updateRows_found _ (Order.withStatus status) _ _ E) as [rows' ->].
    reflexivity.
  - now rewrite (updateRows_none _ _ _ E).
Qed.

Lemma updateStatus_found (orderId : string) (status : OrderStatus.t) (db : DB)
    (o : Order.t) :
  find (byOrderId orderId) (orders db) = Some o ->
  exists orders',
    updateRows (byOrderId orderId) (Order.withStatus status) (orders db)
    = Some (Order.withStatus status o, orders')
    /\ updateStatus orderId status db
       = (Ok (Order.withStatus status o), setOrders orders' db)
    /\ find (byOrderId orderId) orders' = Some (Order.withStatus status o)
    /\ map Order.id orders' = map Order.id (orders db).
Proof.
  intros Hfind.
  destruct (updateRows_found _ (Order.withStatus status) _ _ Hfind) as [orders' Hup].
  exists orders'. split; [exact Hup |]. split; [| split].
  - now rewrite updateStatus_unfold, Hup.
  - unfold byOrderId.
    rewrite (find_updateRows_key Order.id orderId orderId (Order.withStatus status)
               _ _ _ (fun _ => eq_refl) Hup).
    now rewrite String.eqb_refl.
  - exact (updateRows_column Order.id _ (Order.withStatus status) _ _ _
             (fun _ => eq_refl) Hup).
Qed.

(** X5.  [updateStatus] fails with the order-not-found error, writing
    nothing, when no order has the identifier.  Otherwise it succeeds
    whatever the status the order has and the status asked for: the order
    is found with the new status afterwards, every other order is as
    before, and the orders table is the only one written, so that no
    stock moves and no payment changes, also when the new status is
    CANCELLED or REFUNDED. *)
Theorem updateStatus_sets_any_status (orderId : string) (status : OrderStatus.t)
    (db : DB) :
  (find (byOrderId orderId) (orders db) = None ->
   updateStatus orderId status db = (Throw OrderNotFoundException, db))
  /\ (forall o,
        find (byOrderId orderId) (orders db) = Some o ->
        exists orders',
          updateStatus orderId status db
          = (Ok (Order.withStatus status o), setOrders orders' db)
          /\ find (byOrderId orderId) orders' = Some (Order.withStatus status o)
          /\ (forall other, other <> orderId ->
                find (byOrderId other) orders' = find (byOrderId other) (orders db))
          /\ map Order.id orders' = map Order.id (orders db)).
Proof.
  split.
  - intros Hnone. now rewrite updateStatus_unfold, (updateRows_none _ _ _ Hnone).
  - intros o Hfind.
    destruct (updateStatus_found orderId status db o Hfind)
      as (orders' & Hup & Hrun & Hafter & Hids).
    exists orders'. split; [exact Hrun |]. split; [exact Hafter |].
    split; [| exact Hids].
    intros other Hother. unfold byOrderId.
    rewrite (find_updateRows_key Order.id orderId other (Order.withStatus status)
               _ _ _ (fun _ => eq_refl) Hup).
    destruct (String.eqb orderId other) eqn:E; [| reflexivity].
    apply String.eqb_eq in E. now elim Hother.
Qed.

Lemma updateStatus_sets_any_status_witness :
  exists orders',
    updateStatus "o1" OrderStatus.DELIVERED Example.cancelDB
    = (Ok (Order.withStatus OrderStatus.DELIVERED Example.order1),
       setOrders orders' Example.cancelDB).
Proof.
  destruct (updateStatus_sets_any_status "o1" OrderStatus.DELIVERED Example.cancelDB)
    as [_ H].
  destruct (H Example.order1 eq_refl) as (orders' & Hrun & _).
  exists orders'. exact Hrun.
Defined.

Lemma cancelOrder_Ok_inv (userId orderId : string) (db db1 : DB) (o1 : Order.t) :
  cancelOrder userId orderId db = (Ok o1, db1) ->
  exists o rows' orders',
    find (byOwnedOrder orderId userId) (orders db) = Some o
    /\ OrderStatus.includes [OrderStatus.PENDING; OrderStatus.CONFIRMED]
                            (Order.status o) = true
    /\ updateRows (byOrderId orderId) (Order.withStatus OrderStatus.CANCELLED)
                  (orders db) = Some (o1, orders')
    /\ (forall v,
          stockOf (setProductVariants rows' db) v =
          option_map
            (fun s => s + quantityOf v (movements OrderItem.variantId OrderItem.quantity
                                          (orderItemsOf db (Order.id o))))
            (stockOf db v))
    /\ db1 = setOrders orders' (setProductVariants rows' db).
Proof.
  rewrite cancelOrder_unfold.
  destruct (find (byOwnedOrder orderId userId) (orders db)) as [o |] eqn:Hfind;
    [| discriminate].
  destruct (OrderStatus.includes _ (Order.status o)) eqn:Hinc; [| discriminate].
  intros Hrun. apply (proj1 (transaction_commit _ _ _ _)) in Hrun.
  unfold cancelTransaction, bind in Hrun.
  destruct (forEach (orderItemsOf db (Order.id o)) _ db) as [[[] | e] d] eqn:Hloop;
    [| discriminate].
  destruct (forEach_stock_Ok OrderItem.variantId OrderItem.quantity
              (fun item => incrementStock (OrderItem.variantId item)
                                          (OrderItem.quantity item))
              (fun _ _ => eq_refl) _ _ _ Hloop) as [[rows' ->] Hstock].
  unfold update in Hrun. cbn [orders setProductVariants] in Hrun.
  fold (byOrderId orderId) in Hrun.
  destruct (updateRows (byOrderId orderId) _ (orders db)) as [[o' orders'] |] eqn:Hup;
    [| discriminate].
  injection Hrun as <- <-.
  exists o, rows', orders'. repeat split; trivial.
Qed.

(** X6.  [updateStatus] only rewrites the status, and [cancelOrder] only
    looks at the status: when an order that was cancelled is set back to
    PENDING, the stock its cancellation restored stays where it is, and
    a cancellation after that succeeds and restores the quantities of
    the order's items once more, so that every variant then holds the
    quantities of the order twice over its stock before the first
    cancellation. *)
Theorem cancelOrder_after_reopening (userId orderId : string) (db db1 : DB)
    (o1 : Order.t) :
  orderVariantsExist db orderId = true ->
  orderIdsUnique db = true ->
  cancelOrder userId orderId db = (Ok o1, db1) ->
  exists o2 db2,
    updateStatus orderId OrderStatus.PENDING db1 = (Ok o2, db2)
    /\ Order.status o2 = OrderStatus.PENDING
    /\ (forall v, stockOf db2 v = stockOf db1 v)
    /\ exists o3 db3,
        cancelOrder userId orderId db2 = (Ok o3, db3)
        /\ Order.status o3 = OrderStatus.CANCELLED
        /\ forall v,
            stockOf db3 v =
            option_map
              (fun s => s + 2 * quantityOf v (movements OrderItem.variantId
                                                OrderItem.quantity
                                                (orderItemsOf db orderId)))
              (stockOf db v).
Proof.
  intros Hfk Hu Hc.
  destruct (cancelOrder_Ok_inv _ _ _ _ _ Hc)
    as (o & rows' & orders' & Hfind & Hinc & Hup & Hstock & ->).
  destruct (byOwnedOrder_id _ _ _ _ Hfind) as [Hid Huser]. rewrite Hid in Hstock.
  assert (Hbyid : find (byOrderId orderId) (orders db) = Some o).
  { rewrite <- Hid. exact (find_unique_key Order.id _ _ _ Hu Hfind). }
  assert (Hq : forall s, byOwnedOrder orderId userId (Order.withStatus s o) = true).
  { intros s. apply find_some in Hfind as [_ H]. exact H. }
  destruct (find_updateRows_same _ _ (Order.withStatus OrderStatus.CANCELLED)
              _ _ Hfind Hbyid (Hq _)) as (orders1 & Hup1 & Hfind1).
  rewrite Hup in Hup1. injection Hup1 as -> <-.
  assert (Hbyid1 : find (byOrderId orderId) orders'
                   = Some (Order.withStatus OrderStatus.CANCELLED o)).
  { unfold byOrderId.
    rewrite (find_updateRows_key Order.id orderId orderId
               (Order.withStatus OrderStatus.CANCELLED) _ _ _ (fun _ => eq_refl) Hup).
    now rewrite String.eqb_refl. }
  set (db1 := setOrders orders' (setProductVariants rows' db)).
  destruct (updateStatus_found orderId OrderStatus.PENDING db1 _ Hbyid1)
    as (orders2 & Hup2 & Hrun2 & _ & Hids2).
  set (o2 := Order.withStatus OrderStatus.PENDING
               (Order.withStatus OrderStatus.CANCELLED o)) in *.
  set (db2 := setOrders orders2 db1) in *.
  exists o2, db2. split; [exact Hrun2 |]. split; [reflexivity |].
  split; [reflexivity |].
  assert (Hfind2 : find (byOwnedOrder orderId userId) (orders db2) = Some o2).
  { destruct (find_updateRows_same _ _ (Order.withStatus OrderStatus.PENDING)
                _ _ Hfind1 Hbyid1 (Hq _)) as (rows2 & Hup2' & Hf).
    cbn [orders db1 setOrders] in Hup2. rewrite Hup2 in Hup2'.
    injection Hup2' as <-. exact Hf. }
  assert (Hfk2 : orderVariantsExist db2 orderId = true).
  { unfold orderVariantsExist in *. rewrite forallb_forall in *. intros i Hi.
    apply (stockOf_known (setProductVariants rows' db)).
    rewrite Hstock. specialize (Hfk i Hi). apply stockOf_exists in Hfk.
    destruct (stockOf db (OrderItem.variantId i)); [discriminate | now elim Hfk]. }
  assert (Hu2 : orderIdsUnique db2 = true).
  { unfold orderIdsUnique in *. cbn [orders db2 setOrders]. rewrite Hids2.
    cbn [orders db1 setOrders].
    now rewrite (updateRows_column Order.id _ (Order.withStatus OrderStatus.CANCELLED)
                   _ _ _ (fun _ => eq_refl) Hup). }
  destruct (cancelTransaction_commits userId orderId db2 o2 Hfk2 Hu2 Hfind2)
    as (rows3 & orders3 & Hrun3 & _ & _ & Hstock3).
  exists (Order.withStatus OrderStatus.CANCELLED o2),
         (setOrders orders3 (setProductVariants rows3 db2)).
  split; [| split; [reflexivity |]].
  - rewrite cancelOrder_unfold, Hfind2. exact Hrun3.
  - intros v.
    change (stockOf (setOrders orders3 (setProductVariants rows3 db2)) v)
      with (stockOf (setProductVariants rows3 db2) v).
    rewrite Hstock3.
    change (stockOf db2 v) with (stockOf (setProductVariants rows' db) v).
    rewrite Hstock.
    change (orderItemsOf db2 orderId) with (orderItemsOf db orderId).
    destruct (stockOf db v); cbn [option_map]; [f_equal; lia | reflexivity].
Qed.

Lemma cancelOrder_after_reopening_witness :
  exists o2 db2 o3 db3,
    updateStatus "o1" OrderStatus.PENDING (snd (cancelOrder "u1" "o1" Example.cancelDB))
    = (Ok o2, db2)
    /\ cancelOrder "u1" "o1" db2 = (Ok o3, db3)
    /\ stockOf Example.cancelDB "vA" = Some 1
    /\ stockOf db3 "vA" = Some 5.
Proof.
  destruct (cancelOrder_after_reopening "u1" "o1" Example.cancelDB
              (snd (cancelOrder "u1" "o1" Example.cancelDB))
              (Order.withStatus OrderStatus.CANCELLED Example.order1)
              eq_refl eq_refl eq_refl)
    as (o2 & db2 & Hrun2 & _ & _ & o3 & db3 & Hrun3 & _ & Hstock).
  exists o2, db2, o3, db3. split; [exact Hrun2 |]. split; [exact Hrun3 |].
  split; [reflexivity |]. rewrite Hstock. reflexivity.
Defined.

(* ===================================================================== *)
(** * PaymentsService.initiateRefund: properties *)
(* ===================================================================== *)

Lemma isPaymentStatus_iff (s : PaymentStatus.t) (p : Payment.t) :
  isPaymentStatus s p = true <-> Payment.status p = s.
Proof.
  unfold isPaymentStatus. destruct s, (Payment.status p); split; congruence.
Qed.

Lemma initiateRefund_unfold (paymentId : string) (db : DB) :
  initiateRefund paymentId db =
  match find (byPaymentId paymentId) (payments db) with
  | None => (Throw PaymentFailedException, db)
  | Some p =>
      if isPaymentStatus PaymentStatus.SUCCESS p then
        match updateRows (byPaymentId paymentId)
                (withPaymentStatus PaymentStatus.REFUNDED) (payments db) with
        | None => (Throw (PrismaClientError "P2025"), db)
        | Some (refunded, pays') =>
            match updateRows (byOrderId (Payment.orderId p))
                    (Order.withStatus OrderStatus.REFUNDED) (orders db) with
            | None => (Throw (PrismaClientError "P2025"), db)
            | Some (_, orders') =>
                (Ok refunded, setOrders orders' (setPayments pays' db))
            end
        end
      else (Throw PaymentFailedException, db)
  end.
Proof.
  unfold initiateRefund, bind, query, findFirst, throw.
  fold (byPaymentId paymentId).
  destruct (find (byPaymentId paymentId) (payments db)) as [p |]; [| reflexivity].
  destruct (isPaymentStatus PaymentStatus.SUCCESS p); [| reflexivity].
  cbn [negb]. unfold transaction, bind, update, ret.
  fold (byOrderId (Payment.orderId p)).
  destruct (updateRows (byPaymentId paymentId) _ (payments db)) as [[r pays'] |];
    [| reflexivity].
  cbn [orders setPayments].
  destruct (updateRows (byOrderId (Payment.orderId p)) _ (orders db))
    as [[o' orders'] |]; reflexivity.
Qed.

(** X7.  [initiateRefund] fails with the payment-failed error, writing
    nothing, when no payment has the identifier or when the payment is
    in any status but SUCCESS.  For a SUCCESS payment whose order exists
    it marks the payment REFUNDED and the order REFUNDED and writes no
    other table, so that the stock of the order's items stays as it is;
    a second refund of the payment then fails.  When the order row is
    missing the payment update is rolled back with the transaction. *)
Theorem initiateRefund_correct (paymentId : string) (db : DB) :
  (find (byPaymentId paymentId) (payments db) = None ->
   initiateRefund paymentId db = (Throw PaymentFailedException, db))
  /\ (forall p,
        find (byPaymentId paymentId) (payments db) = Some p ->
        Payment.status p <> PaymentStatus.SUCCESS ->
        initiateRefund paymentId db = (Throw PaymentFailedException, db))
  /\ (forall p,
        find (byPaymentId paymentId) (payments db) = Some p ->
        Payment.status p = PaymentStatus.SUCCESS ->
        (find (byOrderId (Payment.orderId p)) (orders db) = None ->
         initiateRefund paymentId db = (Throw (PrismaClientError "P2025"), db))
        /\ (forall o,
              find (byOrderId (Payment.orderId p)) (orders db) = Some o ->
              exists pays' orders',
                initiateRefund paymentId db
                = (Ok (withPaymentStatus PaymentStatus.REFUNDED p),
                   setOrders orders' (setPayments pays' db))
                /\ find (byPaymentId paymentId) pays'
                   = Some (withPaymentStatus PaymentStatus.REFUNDED p)
                /\ find (byOrderId (Payment.orderId p)) orders'
                   = Some (Order.withStatus OrderStatus.REFUNDED o)
                /\ initiateRefund paymentId (setOrders orders' (setPayments pays' db))
                   = (Throw PaymentFailedException,
                      setOrders orders' (setPayments pays' db)))).
Proof.
  split; [| split].
  - intros Hnone. now rewrite initiateRefund_unfold, Hnone.
  - intros p Hfind Hst. rewrite initiateRefund_unfold, Hfind.
    destruct (isPaymentStatus PaymentStatus.SUCCESS p) eqn:E; [| reflexivity].
    apply isPaymentStatus_iff in E. contradiction.
  - intros p Hfind Hst.
    apply isPaymentStatus_iff in Hst.
    destruct (updateRows_found _ (withPaymentStatus PaymentStatus.REFUNDED) _ _ Hfind)
      as [pays' Hup].
    split.
    + intros Hnone.
      rewrite initiateRefund_unfold, Hfind, Hst, Hup.
      now rewrite (updateRows_none _ _ _ Hnone).
    + intros o Ho.
      destruct (updateRows_found _ (Order.withStatus OrderStatus.REFUNDED) _ _ Ho)
        as [orders' Hupo].
      assert (Hafter : find (byPaymentId paymentId) pays'
                       = Some (withPaymentStatus PaymentStatus.REFUNDED p)).
      { unfold byPaymentId.
        rewrite (find_updateRows_key Payment.id paymentId paymentId
                   (withPaymentStatus PaymentStatus.REFUNDED) _ _ _
                   (fun _ => eq_refl) Hup).
        now rewrite String.eqb_refl. }
      exists pays', orders'. split; [| split; [exact Hafter | split]].
      * now rewrite initiateRefund_unfold, Hfind, Hst, Hup, Hupo.
      * unfold byOrderId.
        rewrite (find_updateRows_key Order.id (Payment.orderId p) (Payment.orderId p)
                   (Order.withStatus OrderStatus.REFUNDED) _ _ _
                   (fun _ => eq_refl) Hupo).
        now rewrite String.eqb_refl.
      * rewrite initiateRefund_unfold. cbn [payments setOrders setPayments].
        rewrite Hafter. reflexivity.
Qed.

Lemma initiateRefund_correct_witness :
  let paid :=
    snd (handleWebhook 100 (Example.callback WebhookStatus.SUCCESS 12175)
           Example.paymentsDB) in
  exists refunded db',
    initiateRefund "pay1" paid = (Ok refunded, db')
    /\ Payment.status refunded = PaymentStatus.REFUNDED
    /\ initiateRefund "pay1" db' = (Throw PaymentFailedException, db').
Proof.
  intros paid.
  destruct (initiateRefund_correct "pay1" paid) as (_ & _ & H).
  destruct (H (reconcile 100 (Example.callback WebhookStatus.SUCCESS 12175)
                 Example.payment1) eq_refl eq_refl) as [_ H'].
  destruct (H' (Order.withStatus OrderStatus.CONFIRMED Example.order1) eq_refl)
    as (pays' & orders' & Hrun & _ & _ & Hagain).
  eexists _, _. split; [exact Hrun |]. split; [reflexivity | exact Hagain].
Defined.

(* ===================================================================== *)
(** * PaymentsService.initializePayment: properties *)
(* ===================================================================== *)

Section InitializePaymentProperties.
Variable frontendUrl : string.
Variable numberToText : float -> string.

Lemma initializePayment_unfold (newPaymentId newReference userId orderId : string)
    (db : DB) :
  initializePayment frontendUrl numberToText newPaymentId newReference userId orderId db =
  match find (byOwnedOrder orderId userId) (orders db) with
  | None => (Raised (Business OrderNotFoundException), db)
  | Some order =>
      match find (isPaymentStatus PaymentStatus.SUCCESS) (paymentsOf db orderId) with
      | Some _ => (Raised PaymentAlreadyPaidException, db)
      | None =>
          match find (isPaymentStatus PaymentStatus.PENDING) (paymentsOf db orderId) with
          | Some pendingPayment =>
              (Returned
                 (PaymentInitResponse.mk pendingPayment
                    (generatePaymentUrl frontendUrl numberToText
                       (Payment.reference pendingPayment) (Order.total order))
                    (Payment.reference pendingPayment),
                  GENERAL_SUCCESS), db)
          | None =>
              let p := Payment.mk newPaymentId orderId newReference
                         (Order.total order) PaymentStatus.PENDING None None None in
              if existsb (fun x => String.eqb (Payment.id x) newPaymentId
                                   || String.eqb (Payment.reference x) newReference)
                         (payments db)
              then (Raised (Business (PrismaClientError "P2002")), db)
              else (Returned
                      (PaymentInitResponse.mk p
                         (generatePaymentUrl frontendUrl numberToText newReference
                            (Order.total order))
                         newReference,
                       PAYMENT_INITIATED),
                    setPayments (payments db ++ [p]) db)
          end
      end
  end.
Proof.
  unfold initializePayment, bindS, lift, query, findFirst, raise, retS.
  fold (byOwnedOrder orderId userId).
  destruct (find (byOwnedOrder orderId userId) (orders db)) as [o |] eqn:Hfind;
    [| reflexivity].
  destruct (byOwnedOrder_id _ _ _ _ Hfind) as [Hid _]. rewrite Hid.
  destruct (find (isPaymentStatus PaymentStatus.SUCCESS) (paymentsOf db orderId));
    [reflexivity |].
  destruct (find (isPaymentStatus PaymentStatus.PENDING) (paymentsOf db orderId));
    [reflexivity |].
  unfold createPayment. cbn [Payment.id Payment.reference].
  destruct (existsb _ (payments db)); reflexivity.
Qed.

Lemma find_status_In (s : PaymentStatus.t) (rows : list Payment.t) (p : Payment.t) :
  In p rows -> Payment.status p = s ->
  exists p', find (isPaymentStatus s) rows = Some p'.
Proof.
  intros Hin Hst.
  destruct (find (isPaymentStatus s) rows) as [p' |] eqn:E; [eauto |].
  apply (find_none _ _ E) in Hin. apply isPaymentStatus_iff in Hst. congruence.
Qed.

Lemma find_status_none (s : PaymentStatus.t) (rows : list Payment.t) :
  (forall x, In x rows -> Payment.status x <> s) ->
  find (isPaymentStatus s) rows = None.
Proof.
  intros H. destruct (find (isPaymentStatus s) rows) as [p |] eqn:E; [| reflexivity].
  apply find_some in E as [Hin Hp]. apply isPaymentStatus_iff in Hp.
  now elim (H p Hin).
Qed.

(** X8.  [initializePayment] fails with the order-not-found error when
    the order does not exist or belongs to another user.  When one of
    the order's payments is SUCCESS it fails with the already-paid
    error, also when another payment of the order is still pending.
    When none is SUCCESS and one is PENDING it answers with the first
    pending payment, its reference and a URL for that reference and the
    order's total.  In these three cases nothing is written. *)
Theorem initializePayment_guards (newPaymentId newReference userId orderId : string)
    (db : DB) :
  let run :=
    initializePayment frontendUrl numberToText newPaymentId newReference
      userId orderId db in
  (find (byOwnedOrder orderId userId) (orders db) = None ->
   run = (Raised (Business OrderNotFoundException), db))
  /\ (forall o,
        find (byOwnedOrder orderId userId) (orders db) = Some o ->
        (forall paid,
           In paid (paymentsOf db orderId) ->
           Payment.status paid = PaymentStatus.SUCCESS ->
           run = (Raised PaymentAlreadyPaidException, db)
           /\ serviceErrorCode PaymentAlreadyPaidException = "ALREADY_PAID")
        /\ ((forall x, In x (paymentsOf db orderId) ->
                       Payment.status x <> PaymentStatus.SUCCESS) ->
            forall pending,
              find (isPaymentStatus PaymentStatus.PENDING) (paymentsOf db orderId)
                = Some pending ->
              run = (Returned
                       (PaymentInitResponse.mk pending
                          (generatePaymentUrl frontendUrl numberToText
                             (Payment.reference pending) (Order.total o))
                          (Payment.reference pending),
                        GENERAL_SUCCESS), db))).
Proof.
  intros run. unfold run. rewrite initializePayment_unfold. split.
  - now intros ->.
  - intros o ->. split.
    + intros paid Hin Hst. split; [| reflexivity].
      destruct (find_status_In _ _ _ Hin Hst) as [p' ->]. reflexivity.
    + intros Hnone pending Hp.
      now rewrite (find_status_none _ _ Hnone), Hp.
Qed.

Lemma paymentsOf_created (db : DB) (orderId : string) (p : Payment.t) :
  Payment.orderId p = orderId ->
  paymentsOf (setPayments (payments db ++ [p]) db) orderId
  = (paymentsOf db orderId ++ [p])%list.
Proof.
  intros Hp. unfold paymentsOf, findMany. cbn [payments setPayments].
  rewrite filter_app. simpl. rewrite Hp, String.eqb_refl. reflexivity.
Qed.

(** X9.  For an order of the user none of whose payments is SUCCESS or
    PENDING, and an identifier and a reference no payment has yet,
    [initializePayment] adds exactly one payment row: PENDING, for the
    order, with the new reference and the order's total as amount.  A
    call for the same order after that, whatever identifier and
    reference it would use, returns that payment and its reference and
    writes nothing: no second pending payment is created. *)
Theorem initializePayment_creates_once
    (newPaymentId newReference userId orderId : string) (db : DB) (o : Order.t) :
  find (byOwnedOrder orderId userId) (orders db) = Some o ->
  (forall x, In x (paymentsOf db orderId) ->
             Payment.status x <> PaymentStatus.SUCCESS
             /\ Payment.status x <> PaymentStatus.PENDING) ->
  (forall x, In x (payments db) ->
             Payment.id x <> newPaymentId /\ Payment.reference x <> newReference) ->
  let p := Payment.mk newPaymentId orderId newReference (Order.total o)
             PaymentStatus.PENDING None None None in
  let response :=
    PaymentInitResponse.mk p
      (generatePaymentUrl frontendUrl numberToText newReference (Order.total o))
      newReference in
  let db' := setPayments (payments db ++ [p]) db in
  initializePayment frontendUrl numberToText newPaymentId newReference userId orderId db
  = (Returned (response, PAYMENT_INITIATED), db')
  /\ forall otherId otherReference,
      initializePayment frontendUrl numberToText otherId otherReference
        userId orderId db'
      = (Returned (response, GENERAL_SUCCESS), db').
Proof.
  intros Hfind Hnone Hfresh p response db'.
  assert (Hs : find (isPaymentStatus PaymentStatus.SUCCESS) (paymentsOf db orderId)
               = None).
  { apply find_status_none. intros x Hx. now destruct (Hnone x Hx). }
  assert (Hp : find (isPaymentStatus PaymentStatus.PENDING) (paymentsOf db orderId)
               = None).
  { apply find_status_none. intros x Hx. now destruct (Hnone x Hx). }
  split.
  - rewrite initializePayment_unfold, Hfind, Hs, Hp. cbv zeta.
    destruct (existsb _ (payments db)) eqn:E; [| reflexivity].
    apply existsb_exists in E as (x & Hx & E). destruct (Hfresh x Hx) as [H1 H2].
    apply orb_true_iff in E as [E | E]; apply String.eqb_eq in E; contradiction.
  - intros otherId otherReference.
    rewrite initializePayment_unfold.
    change (orders db') with (orders db). rewrite Hfind.
    unfold db'. rewrite (paymentsOf_created db orderId p eq_refl).
    rewrite !find_created, Hs, Hp. reflexivity.
Qed.

(** X10.  Once [handleWebhook] has accepted a SUCCESS callback, the
    order of the payment it has updated counts as paid:
    [initializePayment] for that order, by the user who owns it, fails
    with the already-paid error and writes nothing. *)
Theorem initializePayment_after_success (now : Z) (dto : OPayWebhookDto.t)
    (db db' : DB) (paid : Payment.t)
    (newPaymentId newReference userId : string) (o : Order.t) :
  OPayWebhookDto.status dto = WebhookStatus.SUCCESS ->
  handleWebhook now dto db = (Ok paid, db') ->
  find (byOwnedOrder (Payment.orderId paid) userId) (orders db') = Some o ->
  initializePayment frontendUrl numberToText newPaymentId newReference
    userId (Payment.orderId paid) db'
  = (Raised PaymentAlreadyPaidException, db').
Proof.
  intros Hst Hrun Hfind.
  destruct (handleWebhook_Ok_inv _ _ _ _ _ Hrun) as (p & rows' & _ & _ & Hup & Hdb).
  rewrite Hst in Hdb. cbn [WebhookStatus.isSuccess] in Hdb.
  destruct Hdb as (o' & orders' & _ & ->).
  assert (Hin : In paid (paymentsOf (setOrders orders' (setPayments rows' db))
                           (Payment.orderId paid))).
  { unfold paymentsOf, findMany. cbn [payments setOrders setPayments].
    apply filter_In. split; [exact (updateRows_In _ _ _ _ _ Hup) |].
    apply String.eqb_refl. }
  assert (Hpaid : Payment.status paid = PaymentStatus.SUCCESS).
  { destruct (updateRows_source _ _ _ _ _ Hup) as (r & _ & ->).
    cbn [reconcile Payment.status]. now rewrite Hst. }
  rewrite initializePayment_unfold, Hfind.
  destruct (find_status_In _ _ _ Hin Hpaid) as [p' ->]. reflexivity.
Qed.

End InitializePaymentProperties.

Lemma initializePayment_guards_witness :
  initializePayment Scenario.frontend Scenario.wholeNaira "pay2" "PAY-2" "u1" "o1"
    Example.paymentsDB
  = (Returned
       (PaymentInitResponse.mk Example.payment1
          "http://localhost:3000/payment?ref=PAY-1&amount=12175" "PAY-1",
        GENERAL_SUCCESS),
     Example.paymentsDB).
Proof.
  destruct (initializePayment_guards Scenario.frontend Scenario.wholeNaira
              "pay2" "PAY-2" "u1" "o1" Example.paymentsDB) as [_ H].
  destruct (H Example.order1 eq_refl) as [_ H'].
  apply (H' ltac:(intros x [<- | []]; discriminate) Example.payment1 eq_refl).
Defined.

Lemma initializePayment_creates_once_witness :
  exists response db',
    initializePayment Scenario.frontend Scenario.wholeNaira "pay2" "PAY-2" "u1" "o1"
      Scenario.failedDB
    = (Returned (response, PAYMENT_INITIATED), db')
    /\ map Payment.status (payments db') = [PaymentStatus.FAILED; PaymentStatus.PENDING]
    /\ initializePayment Scenario.frontend Scenario.wholeNaira "pay3" "PAY-3" "u1" "o1" db'
       = (Returned (response, GENERAL_SUCCESS), db').
Proof.
  destruct (initializePayment_creates_once Scenario.frontend Scenario.wholeNaira
              "pay2" "PAY-2" "u1" "o1" Scenario.failedDB Example.order1 eq_refl)
    as [Hrun Hagain].
  - intros x [<- | []]. split; discriminate.
  - intros x [<- | []]. split; discriminate.
  - eexists _, _. split; [exact Hrun |]. split; [reflexivity |].
    exact (Hagain "pay3" "PAY-3").
Defined.

Lemma initializePayment_after_success_witness :
  let paid :=
    snd (handleWebhook 100 (Example.callback WebhookStatus.SUCCESS 12175)
           Example.paymentsDB) in
  initializePayment Scenario.frontend Scenario.wholeNaira "pay2" "PAY-2" "u1" "o1" paid
  = (Raised PaymentAlreadyPaidException, paid).
Proof.
  intros paid.
  exact (initializePayment_after_success Scenario.frontend Scenario.wholeNaira
           100 (Example.callback WebhookStatus.SUCCESS 12175) Example.paymentsDB paid
           (reconcile 100 (Example.callback WebhookStatus.SUCCESS 12175)
              Example.payment1)
           "pay2" "PAY-2" "u1"
           (Order.withStatus OrderStatus.CONFIRMED Example.order1)
           eq_refl eq_refl eq_refl).
Defined.

(* ===================================================================== *)
(** * CartService: reading the cart *)
(* ===================================================================== *)

Lemma getCart_reads (userId : string) (db db' : DB) (r : Result CartResponse.t) :
  getCart userId db = (r, db') -> db' = db.
Proof.
  unfold getCart. apply findCart_reads. intros [cart |].
  - destruct (calculateTotals (items cart) (coupon cart)) as [[s d] t].
    unfold ret. now intros [= _ <-].
  - unfold ret. now intros [= _ <-].
Qed.

Lemma getCart_eval (userId : string) (db : DB) (c : Cart.t) :
  find (byUserId userId) (carts db) = Some c ->
  getCart userId db =
  match includeVariants db (cartItemsOf db (Cart.id c)) with
  | Some lines => (Ok (cartResponseOf (mkCartWithItems c lines (couponOf db c))), db)
  | None => (Throw (PrismaClientError "inconsistent result"), db)
  end.
Proof.
  intros Hfind. unfold getCart, bind, findCart, findFirst.
  fold (byUserId userId). rewrite Hfind.
  destruct (includeVariants db (cartItemsOf db (Cart.id c))); reflexivity.
Qed.

Lemma getCart_no_cart (userId : string) (db : DB) :
  find (byUserId userId) (carts db) = None ->
  getCart userId db = (Ok (CartResponse.mk "" 0 0%float 0%float 0%float None), db).
Proof.
  intros Hfind. unfold getCart, bind, findCart, findFirst.
  fold (byUserId userId). now rewrite Hfind.
Qed.

Lemma find_weaker {A} (w q : A -> bool) (rows : list A) (r : A) :
  find w rows = Some r -> q r = true -> exists r', find q rows = Some r'.
Proof.
  intros Hfind Hq. destruct (find q rows) as [r' |] eqn:E; [eauto |].
  apply find_some in Hfind as [Hin _]. apply (find_none _ _ E) in Hin. congruence.
Qed.

Lemma updateRows_again {A} (w : A -> bool) (data : A -> A) (rows : list A)
    (r' : A) (rows' : list A) :
  (forall r, w (data r) = w r) -> (forall r, data (data r) = data r) ->
  updateRows w data rows = Some (r', rows') ->
  updateRows w data rows' = Some (r', rows').
Proof.
  intros Hw Hd. revert rows'.
  induction rows as [| x rest IH]; simpl; intros rows'; [discriminate |].
  destruct (w x) eqn:Hx.
  - intros [= <- <-]. simpl. now rewrite Hw, Hx, Hd.
  - destruct (updateRows w data rest) as [[y ys] |]; [| discriminate].
    intros [= <- <-]. simpl. now rewrite Hx, (IH ys eq_refl).
Qed.

(* ===================================================================== *)
(** * CartService.clearCart: properties *)
(* ===================================================================== *)

Lemma clearCart_unfold (userId : string) (db : DB) :
  clearCart userId db =
  match find (byUserId userId) (carts db) with
  | None => (Ok CART_MESSAGES.CART_CLEARED, db)
  | Some cart =>
      let emptied :=
        setCartItems
          (deleteMany (fun i => String.eqb (CartItem.cartId i) (Cart.id cart))
                      (cartItems db)) db in
      match updateRows (byCartId (Cart.id cart)) (Cart.withCouponId None) (carts db) with
      | Some (_, carts') => (Ok CART_MESSAGES.CART_CLEARED, setCarts carts' emptied)
      | None => (Throw (PrismaClientError "P2025"), emptied)
      end
  end.
Proof.
  unfold clearCart, bind, query, findFirst, exec, update, ret.
  fold (byUserId userId).
  destruct (find (byUserId userId) (carts db)) as [cart |]; [| reflexivity].
  fold (byCartId (Cart.id cart)). cbn [carts setCartItems].
  destruct (updateRows (byCartId (Cart.id cart)) _ (carts db)) as [[c' carts'] |];
    reflexivity.
Qed.

Lemma deleteMany_cart_again (cartId : string) (rows : list CartItem.t) :
  deleteMany (fun i => String.eqb (CartItem.cartId i) cartId)
    (deleteMany (fun i => String.eqb (CartItem.cartId i) cartId) rows)
  = deleteMany (fun i => String.eqb (CartItem.cartId i) cartId) rows.
Proof.
  unfold deleteMany. apply filter_filter_implies. trivial.
Qed.

Lemma deleteMany_cart_none (cartId : string) (rows : list CartItem.t) :
  filter (fun i => String.eqb (CartItem.cartId i) cartId)
    (deleteMany (fun i => String.eqb (CartItem.cartId i) cartId) rows) = [].
Proof.
  unfold deleteMany. induction rows as [| x rest IH]; simpl; [reflexivity |].
  destruct (String.eqb (CartItem.cartId x) cartId) eqn:E; simpl; [exact IH |].
  now rewrite E.
Qed.

Lemma deleteMany_cart_other (cartId other : string) (rows : list CartItem.t) :
  other <> cartId ->
  filter (fun i => String.eqb (CartItem.cartId i) other)
    (deleteMany (fun i => String.eqb (CartItem.cartId i) cartId) rows)
  = filter (fun i => String.eqb (CartItem.cartId i) other) rows.
Proof.
  intros Hne. unfold deleteMany. apply filter_filter_implies.
  intros x Hx. apply String.eqb_eq in Hx. apply negb_true_iff.
  apply String.eqb_neq. congruence.
Qed.

Lemma setters_eta (db : DB) : db = setCarts (carts db) (setCartItems (cartItems db) db).
Proof. destruct db. reflexivity. Qed.

(** The user's cart after its coupon was set on the first cart with its
    identifier. *)
Lemma find_owner_after_coupon (userId : string) (coupon : option string)
    (rows rows' : list Cart.t) (c r' : Cart.t) :
  find (byUserId userId) rows = Some c ->
  updateRows (byCartId (Cart.id c)) (Cart.withCouponId coupon) rows = Some (r', rows') ->
  exists c', find (byUserId userId) rows' = Some c' /\ Cart.id c' = Cart.id c
             /\ (uniqueStrings (map Cart.id rows) = true ->
                 c' = Cart.withCouponId coupon c).
Proof.
  intros Hfind Hup.
  destruct (find_updateRows (byUserId userId) _ (Cart.withCouponId coupon) _ _ _
              (fun _ => eq_refl) Hup)
    as [E | (r0 & E0 & E)].
  - exists c. split; [now rewrite E |]. split; [reflexivity |].
    intros Hu.
    pose proof (find_unique_key Cart.id _ _ _ Hu Hfind) as Hbyid.
    fold (byCartId (Cart.id c)) in Hbyid.
    assert (Hq : byUserId userId (Cart.withCouponId coupon c) = true).
    { apply find_some in Hfind as [_ H]. exact H. }
    destruct (find_updateRows_same _ _ (Cart.withCouponId coupon) _ _
                Hfind Hbyid Hq) as (rows1 & Hup1 & Hf).
    rewrite Hup in Hup1. injection Hup1 as _ <-. congruence.
  - rewrite Hfind in E0. injection E0 as <-.
    exists (Cart.withCouponId coupon c). repeat split; trivial.
Qed.

(** X11.  [clearCart] never fails.  After it the user's cart has no
    line, a checkout of the user fails with the empty-cart error, and
    clearing again changes nothing; the lines of the other carts are
    those from before, and no table but the cart lines and the carts is
    written.  With unique cart identifiers the cart has no coupon
    afterwards. *)
Theorem clearCart_empties (userId : string) (db : DB) :
  exists db',
    clearCart userId db = (Ok CART_MESSAGES.CART_CLEARED, db')
    /\ (forall c, find (byUserId userId) (carts db') = Some c ->
                  cartItemsOf db' (Cart.id c) = []
                  /\ (cartIdsUnique db = true -> Cart.couponId c = None))
    /\ (forall orderId orderNumber dto,
          checkout orderId orderNumber userId dto db'
          = (Throw EmptyCartException, db'))
    /\ clearCart userId db' = (Ok CART_MESSAGES.CART_CLEARED, db')
    /\ (forall c, find (byUserId userId) (carts db) = Some c ->
                  forall cartId, cartId <> Cart.id c ->
                                 cartItemsOf db' cartId = cartItemsOf db cartId)
    /\ exists carts' items', db' = setCarts carts' (setCartItems items' db).
Proof.
  rewrite clearCart_unfold.
  destruct (find (byUserId userId) (carts db)) as [c |] eqn:Hfind.
  - destruct (find_weaker _ (byCartId (Cart.id c)) _ _ Hfind (String.eqb_refl _))
      as [r Hr].
    destruct (updateRows_found _ (Cart.withCouponId None) _ _ Hr) as [carts' Hup].
    cbv zeta. rewrite Hup.
    set (items' := deleteMany (fun i => String.eqb (CartItem.cartId i) (Cart.id c))
                     (cartItems db)).
    set (db' := setCarts carts' (setCartItems items' db)).
    destruct (find_owner_after_coupon _ _ _ _ _ _ Hfind Hup) as (c' & Hfind' & Hid & Hc').
    assert (Hnone : cartItemsOf db' (Cart.id c') = []).
    { rewrite Hid. apply deleteMany_cart_none. }
    exists db'. split; [reflexivity |]. split; [| split; [| split; [| split]]].
    + intros c0 Hc0. cbn [carts db' setCarts] in Hc0. rewrite Hfind' in Hc0.
      injection Hc0 as <-. split; [exact Hnone |].
      intros Hu. now rewrite (Hc' Hu).
    + intros orderId orderNumber dto. apply checkout_empty_cart. right. eauto.
    + rewrite clearCart_unfold. cbn [carts db' setCarts]. rewrite Hfind', Hid.
      rewrite (updateRows_again (byCartId (Cart.id c)) (Cart.withCouponId None) _ _ _
                 (fun _ => eq_refl) (fun _ => eq_refl) Hup).
      cbv zeta. cbn [cartItems db' setCarts setCartItems].
      unfold items'. rewrite deleteMany_cart_again. reflexivity.
    + intros c0 [= <-] cartId Hne. now apply deleteMany_cart_other.
    + now exists carts', items'.
  - exists db. split; [reflexivity |]. split; [| split; [| split; [| split]]].
    + intros c Hc. congruence.
    + intros orderId orderNumber dto. apply checkout_empty_cart. now left.
    + now rewrite clearCart_unfold, Hfind.
    + discriminate.
    + exists (carts db), (cartItems db). apply setters_eta.
Qed.

Lemma clearCart_empties_witness :
  exists db',
    clearCart "u1" (Scenario.cartDB (Some "k1")) = (Ok CART_MESSAGES.CART_CLEARED, db')
    /\ map CartItem.id (cartItems db') = ["i2"]
    /\ checkout "o9" "VT-9" "u1" (Example.toLagos "a1") db'
       = (Throw EmptyCartException, db').
Proof.
  destruct (clearCart_empties "u1" (Scenario.cartDB (Some "k1")))
    as (db' & Hrun & _ & Hcheckout & _).
  exists db'. split; [exact Hrun |]. split; [| apply Hcheckout].
  injection Hrun as <-. reflexivity.
Defined.

(* ===================================================================== *)
(** * CartService.removeItem and updateItem: properties *)
(* ===================================================================== *)

Lemma removeItem_unfold (userId itemId : string) (db : DB) :
  removeItem userId itemId db =
  match find (byUserId userId) (carts db) with
  | None => (Throw EmptyCartException, db)
  | Some cart =>
      match find (byItemInCart itemId (Cart.id cart)) (cartItems db) with
      | None => (Throw (NotFoundException "Cart item"), db)
      | Some _ =>
          match deleteRow (byItemId itemId) (cartItems db) with
          | None => (Throw (PrismaClientError "P2025"), db)
          | Some (_, items') =>
              match getCart userId (setCartItems items' db) with
              | (Ok result, d) => (Ok (result, CART_MESSAGES.ITEM_REMOVED), d)
              | (Throw e, d) => (Throw e, d)
              end
          end
      end
  end.
Proof.
  unfold removeItem, bind, query, findFirst, throw, delete, ret.
  fold (byUserId userId).
  destruct (find (byUserId userId) (carts db)) as [cart |]; [| reflexivity].
  fold (byItemInCart itemId (Cart.id cart)) (byItemId itemId).
  destruct (find (byItemInCart itemId (Cart.id cart)) (cartItems db)); [| reflexivity].
  destruct (deleteRow (byItemId itemId) (cartItems db)) as [[r items'] |];
    [| reflexivity].
  destruct (getCart userId (setCartItems items' db)) as [[result | e] d]; reflexivity.
Qed.

Lemma byItemInCart_inv (itemId cartId : string) (rows : list CartItem.t)
    (it : CartItem.t) :
  find (byItemInCart itemId cartId) rows = Some it ->
  In it rows /\ CartItem.id it = itemId /\ CartItem.cartId it = cartId.
Proof.
  intros H. apply find_some in H as [Hin H]. unfold byItemInCart in H.
  apply andb_true_iff in H as [H1 H2].
  apply String.eqb_eq in H1, H2. auto.
Qed.

Lemma find_absent_key {A} (key : A -> string) (k : string) (rows : list A) :
  ~ In k (map key rows) -> find (fun r => String.eqb (key r) k) rows = None.
Proof.
  intros Hnin. destruct (find _ rows) as [r |] eqn:E; [| reflexivity].
  apply find_some in E as [Hin E]. apply String.eqb_eq in E. subst k.
  elim Hnin. now apply in_map.
Qed.

(** X12.  [removeItem] fails with the empty-cart error when the user has
    no cart, and with the not-found error when the item is not a line of
    the user's own cart, in particular when it is a line of another
    user's cart; in both cases nothing is written.  When it succeeds,
    with unique item identifiers, exactly the line with the identifier
    has left the cart lines, all others staying in their order, no
    other table is written, and removing the item again fails with the
    not-found error. *)
Theorem removeItem_correct (userId itemId : string) (db : DB) :
  (find (byUserId userId) (carts db) = None ->
   removeItem userId itemId db = (Throw EmptyCartException, db))
  /\ (forall c,
        find (byUserId userId) (carts db) = Some c ->
        find (byItemInCart itemId (Cart.id c)) (cartItems db) = None ->
        removeItem userId itemId db = (Throw (NotFoundException "Cart item"), db))
  /\ (forall resp msg db',
        cartItemIdsUnique db = true ->
        removeItem userId itemId db = (Ok (resp, msg), db') ->
        exists c it before after,
          find (byUserId userId) (carts db) = Some c
          /\ cartItems db = (before ++ it :: after)%list
          /\ CartItem.id it = itemId /\ CartItem.cartId it = Cart.id c
          /\ db' = setCartItems (before ++ after) db
          /\ (forall x, In x (cartItems db') -> CartItem.id x <> itemId)
          /\ msg = CART_MESSAGES.ITEM_REMOVED
          /\ removeItem userId itemId db'
             = (Throw (NotFoundException "Cart item"), db')).
Proof.
  split; [| split].
  - intros Hnone. now rewrite removeItem_unfold, Hnone.
  - intros c Hc Hnone. now rewrite removeItem_unfold, Hc, Hnone.
  - intros resp msg db' Hu. rewrite removeItem_unfold.
    destruct (find (byUserId userId) (carts db)) as [c |] eqn:Hc; [| discriminate].
    destruct (find (byItemInCart itemId (Cart.id c)) (cartItems db)) as [it |] eqn:Hit;
      [| discriminate].
    destruct (byItemInCart_inv _ _ _ _ Hit) as (Hin & Hid & Hcart).
    pose proof (find_unique_key CartItem.id _ _ _ Hu Hit) as Hbyid.
    rewrite Hid in Hbyid. fold (byItemId itemId) in Hbyid.
    destruct (deleteRow_found _ _ _ Hbyid) as [items' Hdel]. rewrite Hdel.
    destruct (deleteRow_split _ _ _ _ Hdel) as (before & after & Hrows & -> & _ & _).
    destruct (getCart userId (setCartItems (before ++ after) db))
      as [[result | e] d] eqn:Hget; [| discriminate].
    apply getCart_reads in Hget as Hd. subst d. intros [= <- <- <-].
    assert (Hgone : forall x, In x (before ++ after)%list -> CartItem.id x <> itemId).
    { unfold cartItemIdsUnique in Hu. apply uniqueStrings_NoDup in Hu.
      rewrite Hrows, map_app in Hu. simpl in Hu. apply NoDup_remove_2 in Hu.
      intros x Hx E. apply Hu. rewrite <- map_app, Hid, <- E. now apply in_map. }
    exists c, it, before, after. repeat split; trivial.
    rewrite removeItem_unfold. cbn [carts cartItems setCartItems]. rewrite Hc.
    destruct (find (byItemInCart itemId (Cart.id c)) (before ++ after)) as [x |] eqn:E;
      [| reflexivity].
    destruct (byItemInCart_inv _ _ _ _ E) as (Hx & Hxid & _).
    now elim (Hgone x Hx).
Qed.

Lemma removeItem_correct_witness :
  exists resp db',
    removeItem "u1" "i1" (Scenario.cartDB None)
    = (Ok (resp, CART_MESSAGES.ITEM_REMOVED), db')
    /\ map CartItem.id (cartItems db') = ["i2"]
    /\ removeItem "u1" "i2" db' = (Throw (NotFoundException "Cart item"), db').
Proof.
  destruct (removeItem_correct "u1" "i1" (Scenario.cartDB None)) as (_ & _ & H).
  destruct (H (CartResponse.mk "c1" 0 0 0 0 None)
              CART_MESSAGES.ITEM_REMOVED
              (setCartItems [CartItem.mk "i2" "c2" "vA" 1] (Scenario.cartDB None))
              eq_refl eq_refl)
    as (c & it & before & after & _ & _ & _ & _ & Hdb & _ & _ & Hagain).
  eexists _, _. split; [reflexivity |]. split; [reflexivity |].
  destruct (removeItem_correct "u1" "i2"
              (setCartItems [CartItem.mk "i2" "c2" "vA" 1] (Scenario.cartDB None)))
    as (_ & Hother & _).
  exact (Hother (Cart.mk "c1" "u1" None) eq_refl eq_refl).
Defined.

Lemma updateItem_unfold (userId itemId : string) (quantity : Z) (db : DB) :
  updateItem userId itemId quantity db =
  match find (byUserId userId) (carts db) with
  | None => (Throw EmptyCartException, db)
  | Some cart =>
      match find (byItemInCart itemId (Cart.id cart)) (cartItems db) with
      | None => (Throw (NotFoundException "Cart item"), db)
      | Some item =>
          match find (byVariantId (CartItem.variantId item)) (productVariants db) with
          | None => (Throw (PrismaClientError "inconsistent result"), db)
          | Some variant =>
              if quantity >? ProductVariant.stockQuantity variant
              then (Throw (InsufficientStockException
                             (ProductVariant.stockQuantity variant)), db)
              else
                match updateRows (byItemId itemId) (withQuantity quantity)
                        (cartItems db) with
                | None => (Throw (PrismaClientError "P2025"), db)
                | Some (_, items') =>
                    match getCart userId (setCartItems items' db) with
                    | (Ok result, d) => (Ok (result, CART_MESSAGES.ITEM_UPDATED), d)
                    | (Throw e, d) => (Throw e, d)
                    end
                end
          end
      end
  end.
Proof.
  unfold updateItem, bind, query, findItemWithVariant, findFirst, throw, update, ret.
  fold (byUserId userId).
  destruct (find (byUserId userId) (carts db)) as [cart |]; [| reflexivity].
  fold (byItemInCart itemId (Cart.id cart)) (byItemId itemId).
  destruct (find (byItemInCart itemId (Cart.id cart)) (cartItems db)) as [it |];
    [| reflexivity].
  fold (byVariantId (CartItem.variantId it)).
  destruct (find (byVariantId (CartItem.variantId it)) (productVariants db)) as [v |];
    [| reflexivity].
  destruct (quantity >? ProductVariant.stockQuantity v); [reflexivity |].
  destruct (updateRows (byItemId itemId) _ (cartItems db)) as [[r items'] |];
    [| reflexivity].
  destruct (getCart userId (setCartItems items' db)) as [[result | e] d]; reflexivity.
Qed.

(** X13.  [updateItem] fails with the empty-cart error when the user has
    no cart, with the not-found error when the item is not a line of the
    user's own cart, and with the insufficient-stock error, carrying the
    stock, when the quantity asked for exceeds the stock of the line's
    variant; in these cases nothing is written.  When it succeeds, with
    unique item identifiers, the line has the new quantity, which the
    stock covers, every other line is as before, and only the cart lines
    are written: the stock itself is not reserved. *)
Theorem updateItem_correct (userId itemId : string) (quantity : Z) (db : DB) :
  (find (byUserId userId) (carts db) = None ->
   updateItem userId itemId quantity db = (Throw EmptyCartException, db))
  /\ (forall c,
        find (byUserId userId) (carts db) = Some c ->
        find (byItemInCart itemId (Cart.id c)) (cartItems db) = None ->
        updateItem userId itemId quantity db
        = (Throw (NotFoundException "Cart item"), db))
  /\ (forall c it v,
        find (byUserId userId) (carts db) = Some c ->
        find (byItemInCart itemId (Cart.id c)) (cartItems db) = Some it ->
        find (byVariantId (CartItem.variantId it)) (productVariants db) = Some v ->
        ProductVariant.stockQuantity v < quantity ->
        updateItem userId itemId quantity db
        = (Throw (InsufficientStockException (ProductVariant.stockQuantity v)), db))
  /\ (forall resp msg db',
        cartItemIdsUnique db = true ->
        updateItem userId itemId quantity db = (Ok (resp, msg), db') ->
        exists c it v items',
          find (byUserId userId) (carts db) = Some c
          /\ find (byItemInCart itemId (Cart.id c)) (cartItems db) = Some it
          /\ stockOf db (CartItem.variantId it) = Some (ProductVariant.stockQuantity v)
          /\ quantity <= ProductVariant.stockQuantity v
          /\ find (byItemInCart itemId (Cart.id c)) items'
             = Some (withQuantity quantity it)
          /\ (forall other, other <> itemId ->
                find (byItemId other) items' = find (byItemId other) (cartItems db))
          /\ db' = setCartItems items' db
          /\ msg = CART_MESSAGES.ITEM_UPDATED).
Proof.
  split; [| split; [| split]].
  - intros Hnone. now rewrite updateItem_unfold, Hnone.
  - intros c Hc Hnone. now rewrite updateItem_unfold, Hc, Hnone.
  - intros c it v Hc Hit Hv Hlt. rewrite updateItem_unfold, Hc, Hit, Hv.
    destruct (quantity >? ProductVariant.stockQuantity v) eqn:E; [reflexivity | lia].
  - intros resp msg db' Hu. rewrite updateItem_unfold.
    destruct (find (byUserId userId) (carts db)) as [c |] eqn:Hc; [| discriminate].
    destruct (find (byItemInCart itemId (Cart.id c)) (cartItems db)) as [it |] eqn:Hit;
      [| discriminate].
    destruct (find (byVariantId (CartItem.variantId it)) (productVariants db))
      as [v |] eqn:Hv; [| discriminate].
    destruct (quantity >? ProductVariant.stockQuantity v) eqn:Hq; [discriminate |].
    destruct (byItemInCart_inv _ _ _ _ Hit) as (Hin & Hid & Hcart).
    pose proof (find_unique_key CartItem.id _ _ _ Hu Hit) as Hbyid.
    rewrite Hid in Hbyid. fold (byItemId itemId) in Hbyid.
    assert (Hkeep : byItemInCart itemId (Cart.id c) (withQuantity quantity it) = true).
    { apply find_some in Hit as [_ H]. exact H. }
    destruct (find_updateRows_same _ _ (withQuantity quantity) _ _ Hit Hbyid Hkeep)
      as (items' & Hup & Hafter).
    rewrite Hup.
    destruct (getCart userId (setCartItems items' db)) as [[result | e] d] eqn:Hget;
      [| discriminate].
    apply getCart_reads in Hget as Hd. subst d. intros [= <- <- <-].
    exists c, it, v, items'. split; [reflexivity |]. split; [exact Hit |].
    split; [| split; [lia | split; [exact Hafter | split; [| split; reflexivity]]]].
    + unfold stockOf, findFirst. fold (byVariantId (CartItem.variantId it)).
      now rewrite Hv.
    + intros other Hother. unfold byItemId.
      rewrite (find_updateRows_key CartItem.id itemId other (withQuantity quantity)
                 _ _ _ (fun _ => eq_refl) Hup).
      destruct (String.eqb itemId other) eqn:E; [| reflexivity].
      apply String.eqb_eq in E. now elim Hother.
Qed.

Lemma updateItem_correct_witness :
  updateItem "u1" "i1" 6 (Scenario.cartDB None)
  = (Throw (InsufficientStockException 5), Scenario.cartDB None)
  /\ updateItem "u1" "i2" 1 (Scenario.cartDB None)
     = (Throw (NotFoundException "Cart item"), Scenario.cartDB None)
  /\ exists items',
       snd (updateItem "u1" "i1" 5 (Scenario.cartDB None))
       = setCartItems items' (Scenario.cartDB None)
       /\ find (byItemInCart "i1" "c1") items' = Some (CartItem.mk "i1" "c1" "vA" 5).
Proof.
  destruct (updateItem_correct "u1" "i1" 6 (Scenario.cartDB None))
    as (_ & _ & Hstock & _).
  destruct (updateItem_correct "u1" "i2" 1 (Scenario.cartDB None))
    as (_ & Hother & _).
  destruct (updateItem_correct "u1" "i1" 5 (Scenario.cartDB None))
    as (_ & _ & _ & Hdone).
  split; [| split].
  - apply (Hstock (Cart.mk "c1" "u1" None) (CartItem.mk "i1" "c1" "vA" 2)
             (Example.variantA 5)); try reflexivity.
  - apply (Hother (Cart.mk "c1" "u1" None)); reflexivity.
  - destruct (updateItem "u1" "i1" 5 (Scenario.cartDB None))
      as [[[resp msg] | e] d] eqn:Hrun; [| discriminate Hrun].
    destruct (Hdone resp msg d eq_refl eq_refl)
      as (c & it & v & items' & Hc & Hit & _ & _ & Hafter & _ & Hdb & _).
    injection Hc as <-. injection Hit as <-.
    exists items'. split; [exact Hdb | exact Hafter].
Defined.

(* ===================================================================== *)
(** * CartService.getOrCreateCart and addItem: properties *)
(* ===================================================================== *)

Lemma getOrCreateCart_unfold (newCartId userId : string) (db : DB) :
  getOrCreateCart newCartId userId db =
  match find (byUserId userId) (carts db) with
  | Some cart => (Ok (Cart.id cart), db)
  | None =>
      if existsb (fun x => String.eqb (Cart.id x) newCartId
                           || String.eqb (Cart.userId x) userId) (carts db)
      then (Throw (PrismaClientError "P2002"), db)
      else (Ok newCartId, setCarts (carts db ++ [Cart.mk newCartId userId None]) db)
  end.
Proof.
  unfold getOrCreateCart, bind, query, findFirst, createCart, ret.
  fold (byUserId userId).
  destruct (find (byUserId userId) (carts db)); [reflexivity |].
  cbn [Cart.id Cart.userId].
  destruct (existsb _ (carts db)); reflexivity.
Qed.

(** After [getOrCreateCart] the user has a cart with the identifier it
    returns, and no table but the carts has changed. *)
Lemma getOrCreateCart_Ok (newCartId userId cartId : string) (db db1 : DB) :
  getOrCreateCart newCartId userId db = (Ok cartId, db1) ->
  (exists c, find (byUserId userId) (carts db1) = Some c /\ Cart.id c = cartId)
  /\ (exists carts1, db1 = setCarts carts1 db)
  /\ getOrCreateCart newCartId userId db1 = (Ok cartId, db1).
Proof.
  rewrite getOrCreateCart_unfold.
  destruct (find (byUserId userId) (carts db)) as [c |] eqn:Hfind.
  - intros [= <- <-]. split; [eauto |]. split.
    + exists (carts db). destruct db. reflexivity.
    + now rewrite getOrCreateCart_unfold, Hfind.
  - destruct (existsb _ (carts db)); [discriminate |]. intros [= <- <-].
    assert (Hnew : find (byUserId userId) (carts db ++ [Cart.mk newCartId userId None])
                   = Some (Cart.mk newCartId userId None)).
    { rewrite find_created, Hfind. unfold byUserId. cbn [Cart.userId].
      now rewrite String.eqb_refl. }
    split; [eauto |]. split; [eauto |].
    rewrite getOrCreateCart_unfold. cbn [carts setCarts]. now rewrite Hnew.
Qed.

Lemma addItem_unfold (newCartId newItemId userId : string) (dto : AddCartItemDto.t)
    (db : DB) :
  addItem newCartId newItemId userId dto db =
  match find (byVariantId (AddCartItemDto.variantId dto)) (productVariants db) with
  | None => (Raised (Business (NotFoundException "Product variant")), db)
  | Some v =>
      match find (fun p => String.eqb (Product.id p) (ProductVariant.productId v))
                 (products db) with
      | None => (Raised (Business (PrismaClientError "inconsistent result")), db)
      | Some _ =>
          if negb (ProductVariant.isActive v)
          then (Raised (Business (NotFoundException "Product variant")), db)
          else if ProductVariant.stockQuantity v <=? 0
          then (Raised OutOfStockException, db)
          else if ProductVariant.stockQuantity v <? AddCartItemDto.quantity dto
          then (Raised (Business (InsufficientStockException
                                    (ProductVariant.stockQuantity v))), db)
          else
            match getOrCreateCart newCartId userId db with
            | (Throw e, d) => (Raised (Business e), d)
            | (Ok cartId, db1) =>
                match addOrMerge newItemId cartId dto v
                        (find (byCartAndVariant cartId (AddCartItemDto.variantId dto))
                              (cartItems db1)) db1 with
                | (Raised e, d) => (Raised e, d)
                | (Returned _, db2) =>
                    match getCart userId db2 with
                    | (Ok result, d) =>
                        (Returned (result, CART_MESSAGES.ITEM_ADDED), d)
                    | (Throw e, d) => (Raised (Business e), d)
                    end
                end
            end
      end
  end.
Proof.
  unfold addItem, bindS, lift, findVariant, findFirst, raise, retS.
  fold (byVariantId (AddCartItemDto.variantId dto)).
  destruct (find (byVariantId (AddCartItemDto.variantId dto)) (productVariants db))
    as [v |]; [| reflexivity].
  destruct (find _ (products db)); [| reflexivity].
  destruct (negb (ProductVariant.isActive v)); [reflexivity |].
  destruct (ProductVariant.stockQuantity v <=? 0); [reflexivity |].
  destruct (ProductVariant.stockQuantity v <? AddCartItemDto.quantity dto);
    [reflexivity |].
  destruct (getOrCreateCart newCartId userId db) as [[cartId | e] db1]; [| reflexivity].
  unfold query. fold (byCartAndVariant cartId (AddCartItemDto.variantId dto)).
  destruct (addOrMerge newItemId cartId dto v _ db1) as [[[] | e] db2]; [| reflexivity].
  destruct (getCart userId db2) as [[result | e] d]; reflexivity.
Qed.

(** The write of [addItem]: the line of the variant in the cart grows by
    the quantity asked for, within the stock the caller has read. *)
Lemma addOrMerge_Returned (newItemId cartId : string) (dto : AddCartItemDto.t)
    (v : ProductVariant.t) (db1 db2 : DB) :
  cartItemIdsUnique db1 = true ->
  AddCartItemDto.quantity dto <= ProductVariant.stockQuantity v ->
  addOrMerge newItemId cartId dto v
    (find (byCartAndVariant cartId (AddCartItemDto.variantId dto)) (cartItems db1)) db1
  = (Returned tt, db2) ->
  (exists items2, db2 = setCartItems items2 db1)
  /\ lineQuantity db2 cartId (AddCartItemDto.variantId dto)
     = lineQuantity db1 cartId (AddCartItemDto.variantId dto)
       + AddCartItemDto.quantity dto
  /\ lineQuantity db2 cartId (AddCartItemDto.variantId dto)
     <= ProductVariant.stockQuantity v.
Proof.
  intros Hu Hqty. unfold lineQuantity, findFirst.
  destruct (find (byCartAndVariant cartId (AddCartItemDto.variantId dto))
              (cartItems db1)) as [existing |] eqn:Hline;
    unfold addOrMerge.
  - destruct (CartItem.quantity existing + AddCartItemDto.quantity dto
              >? ProductVariant.stockQuantity v) eqn:Hnew; [discriminate |].
    pose proof (find_unique_key CartItem.id _ _ _ Hu Hline) as Hbyid.
    assert (Hkeep : forall q, byCartAndVariant cartId (AddCartItemDto.variantId dto)
                                (withQuantity q existing) = true).
    { intros q. apply find_some in Hline as [_ H]. exact H. }
    destruct (find_updateRows_same _ _
                (withQuantity (CartItem.quantity existing + AddCartItemDto.quantity dto))
                _ _ Hline Hbyid (Hkeep _)) as (items2 & Hup & Hafter).
    unfold lift, bind, update, ret. rewrite Hup. intros [= <-].
    cbn [cartItems setCartItems]. rewrite Hafter. cbn [withQuantity CartItem.quantity].
    split; [eauto |]. split; [reflexivity | lia].
  - unfold lift, bind, createCartItem, ret.
    cbn [CartItem.id CartItem.cartId CartItem.variantId].
    destruct (existsb _ (cartItems db1)); [discriminate |]. intros [= <-].
    cbn [cartItems setCartItems]. rewrite find_created, Hline.
    unfold byCartAndVariant. cbn [CartItem.cartId CartItem.variantId].
    rewrite !String.eqb_refl. cbn [andb CartItem.quantity].
    split; [eauto |]. split; [reflexivity | lia].
Qed.

(** X14.  [addItem] rejects a request before it writes anything: with
    the not-found error when the variant does not exist or is inactive,
    with the out-of-stock error when the variant has no stock, and with
    the insufficient-stock error, carrying the stock, when the quantity
    asked for exceeds it; an inactive variant is reported as not found
    whatever its stock.  In none of these cases is a cart created. *)
Theorem addItem_guards (newCartId newItemId userId : string) (dto : AddCartItemDto.t)
    (db : DB) :
  let run := addItem newCartId newItemId userId dto db in
  (find (byVariantId (AddCartItemDto.variantId dto)) (productVariants db) = None ->
   run = (Raised (Business (NotFoundException "Product variant")), db))
  /\ (forall v p,
        find (byVariantId (AddCartItemDto.variantId dto)) (productVariants db) = Some v ->
        find (fun p => String.eqb (Product.id p) (ProductVariant.productId v))
             (products db) = Some p ->
        (ProductVariant.isActive v = false ->
         run = (Raised (Business (NotFoundException "Product variant")), db))
        /\ (ProductVariant.isActive v = true ->
            ProductVariant.stockQuantity v <= 0 ->
            run = (Raised OutOfStockException, db)
            /\ serviceErrorCode OutOfStockException = "OUT_OF_STOCK")
        /\ (ProductVariant.isActive v = true ->
            0 < ProductVariant.stockQuantity v < AddCartItemDto.quantity dto ->
            run = (Raised (Business (InsufficientStockException
                                       (ProductVariant.stockQuantity v))), db))).
Proof.
  intros run. unfold run. rewrite addItem_unfold. split.
  - now intros ->.
  - intros v p -> ->. split; [| split].
    + now intros ->.
    + intros -> Hs. split; [| reflexivity]. cbn [negb].
      destruct (ProductVariant.stockQuantity v <=? 0) eqn:E; [reflexivity | lia].
    + intros -> Hs. cbn [negb].
      destruct (ProductVariant.stockQuantity v <=? 0) eqn:E; [lia |].
      destruct (ProductVariant.stockQuantity v <? AddCartItemDto.quantity dto) eqn:E';
        [reflexivity | lia].
Qed.

Lemma addItem_guards_witness :
  addItem "c9" "i9" "u1" (AddCartItemDto.mk "vA" 6) (Scenario.cartDB None)
  = (Raised (Business (InsufficientStockException 5)), Scenario.cartDB None).
Proof.
  destruct (addItem_guards "c9" "i9" "u1" (AddCartItemDto.mk "vA" 6)
              (Scenario.cartDB None)) as [_ H].
  destruct (H (Example.variantA 5) Example.dress eq_refl eq_refl) as (_ & _ & H').
  apply H'; [reflexivity |]. cbn. lia.
Defined.

(** X15.  When [addItem] returns, with unique item identifiers: the
    user has a cart; the quantity of the variant in that cart is the
    quantity it had, 0 without a line, plus the quantity asked for, on
    one line; that quantity is covered by the stock of the variant,
    which is active; and the variants table is as before, the stock
    being read but not reserved. *)
Theorem addItem_within_stock (newCartId newItemId userId : string)
    (dto : AddCartItemDto.t) (db db' : DB) (resp : CartResponse.t) (msg : string) :
  cartItemIdsUnique db = true ->
  addItem newCartId newItemId userId dto db = (Returned (resp, msg), db') ->
  exists c v,
    find (byUserId userId) (carts db') = Some c
    /\ find (byVariantId (AddCartItemDto.variantId dto)) (productVariants db') = Some v
    /\ ProductVariant.isActive v = true
    /\ lineQuantity db' (Cart.id c) (AddCartItemDto.variantId dto)
       = lineQuantity db (Cart.id c) (AddCartItemDto.variantId dto)
         + AddCartItemDto.quantity dto
    /\ lineQuantity db' (Cart.id c) (AddCartItemDto.variantId dto)
       <= ProductVariant.stockQuantity v
    /\ productVariants db' = productVariants db
    /\ msg = CART_MESSAGES.ITEM_ADDED.
Proof.
  intros Hu. rewrite addItem_unfold.
  destruct (find (byVariantId (AddCartItemDto.variantId dto)) (productVariants db))
    as [v |] eqn:Hv; [| discriminate].
  destruct (find _ (products db)); [| discriminate].
  destruct (ProductVariant.isActive v) eqn:Hact; [| discriminate]. cbn [negb].
  destruct (ProductVariant.stockQuantity v <=? 0); [discriminate |].
  destruct (ProductVariant.stockQuantity v <? AddCartItemDto.quantity dto) eqn:Hqty;
    [discriminate |].
  destruct (getOrCreateCart newCartId userId db) as [[cartId | e] db1] eqn:Hcart;
    [| discriminate].
  destruct (getOrCreateCart_Ok _ _ _ _ _ Hcart) as ((c & Hc & Hid) & (carts1 & ->) & _).
  destruct (addOrMerge newItemId cartId dto v _ (setCarts carts1 db))
    as [[[] | e] db2] eqn:Hwrite; [| discriminate].
  assert (Hfits : AddCartItemDto.quantity dto <= ProductVariant.stockQuantity v) by lia.
  destruct (addOrMerge_Returned newItemId cartId dto v (setCarts carts1 db) db2
              Hu Hfits Hwrite)
    as ((items2 & ->) & Hsum & Hle).
  destruct (getCart userId _) as [[result | e] d] eqn:Hget; [| discriminate].
  apply getCart_reads in Hget as Hd. subst d. intros [= <- <- <-].
  exists c, v. rewrite Hid.
  split; [exact Hc |]. split; [exact Hv |]. split; [exact Hact |].
  split; [exact Hsum |]. split; [exact Hle |]. split; reflexivity.
Qed.

Lemma addItem_within_stock_witness :
  exists resp db',
    addItem "c9" "i9" "u1" (AddCartItemDto.mk "vA" 3) (Scenario.cartDB None)
    = (Returned (resp, CART_MESSAGES.ITEM_ADDED), db')
    /\ lineQuantity (Scenario.cartDB None) "c1" "vA" = 2
    /\ lineQuantity db' "c1" "vA" = 5.
Proof.
  destruct (addItem "c9" "i9" "u1" (AddCartItemDto.mk "vA" 3) (Scenario.cartDB None))
    as [[[resp msg] | e] d] eqn:Hrun; [| discriminate Hrun].
  destruct (addItem_within_stock "c9" "i9" "u1" (AddCartItemDto.mk "vA" 3)
              (Scenario.cartDB None) d resp msg eq_refl Hrun)
    as (c & v & Hc & _ & _ & Hsum & _ & _ & ->).
  exists resp, d. split; [reflexivity |]. split; [reflexivity |].
  injection Hrun as _ <-. reflexivity.
Defined.

Lemma filter_nothing {A} (f : A -> bool) (l : list A) :
  (forall x, In x l -> f x = false) -> filter f l = [].
Proof.
  induction l as [| x rest IH]; simpl; intros H; [reflexivity |].
  rewrite (H x (or_introl eq_refl)). apply IH. intros y Hy. apply H. now right.
Qed.

Lemma existsb_nothing {A} (f : A -> bool) (l : list A) :
  (forall x, In x l -> f x = false) -> existsb f l = false.
Proof.
  induction l as [| x rest IH]; simpl; intros H; [reflexivity |].
  rewrite (H x (or_introl eq_refl)). apply IH. intros y Hy. apply H. now right.
Qed.

(** X16.  The first item of a user without a cart.  For an active
    variant of an existing product whose stock covers the quantity
    asked for, and identifiers that are free, [addItem] succeeds: it
    creates the user's cart, without a coupon, and one line for the
    variant with the quantity, and the cart view it returns counts that
    quantity, with the unit price times the quantity, as doubles
    multiply, added to 0 as subtotal, and no discount.  Three scarves at
    1000.30 give a subtotal of 3000.8999999999996. *)
Theorem addItem_first_item (newCartId newItemId userId : string)
    (dto : AddCartItemDto.t) (db : DB) (v : ProductVariant.t) (p : Product.t) :
  find (byVariantId (AddCartItemDto.variantId dto)) (productVariants db) = Some v ->
  find (fun p => String.eqb (Product.id p) (ProductVariant.productId v)) (products db)
    = Some p ->
  ProductVariant.isActive v = true ->
  0 < AddCartItemDto.quantity dto <= ProductVariant.stockQuantity v ->
  find (byUserId userId) (carts db) = None ->
  (forall c, In c (carts db) -> Cart.id c <> newCartId) ->
  (forall i, In i (cartItems db) ->
             CartItem.id i <> newItemId /\ CartItem.cartId i <> newCartId) ->
  let line := CartItem.mk newItemId newCartId (AddCartItemDto.variantId dto)
                (AddCartItemDto.quantity dto) in
  exists resp,
    addItem newCartId newItemId userId dto db
    = (Returned (resp, CART_MESSAGES.ITEM_ADDED),
       setCartItems (cartItems db ++ [line])
         (setCarts (carts db ++ [Cart.mk newCartId userId None]) db))
    /\ CartResponse.id resp = newCartId
    /\ CartResponse.itemCount resp = AddCartItemDto.quantity dto
    /\ CartResponse.subtotal resp
       = (0 + (Product.basePrice p + ProductVariant.priceModifier v)
              * Number_of_int (AddCartItemDto.quantity dto))%float
    /\ CartResponse.discount resp = 0%float
    /\ CartResponse.total resp
       = Math_max 0 (CartResponse.subtotal resp - 0)%float
    /\ CartResponse.coupon resp = None.
Proof.
  intros Hv Hp Hact Hqty Hnocart Hcid Hitems line.
  set (cart := Cart.mk newCartId userId None).
  set (db1 := setCarts (carts db ++ [cart]) db).
  set (db2 := setCartItems (cartItems db ++ [line]) db1).
  assert (Hcreate : getOrCreateCart newCartId userId db = (Ok newCartId, db1)).
  { rewrite getOrCreateCart_unfold, Hnocart.
    rewrite existsb_nothing; [reflexivity |].
    intros c Hc. apply orb_false_iff. split.
    - apply String.eqb_neq. now apply Hcid.
    - exact (find_none _ _ Hnocart c Hc). }
  assert (Hline : find (byCartAndVariant newCartId (AddCartItemDto.variantId dto))
                    (cartItems db1) = None).
  { destruct (find _ (cartItems db1)) as [i |] eqn:E; [| reflexivity].
    apply find_some in E as [Hin E]. unfold byCartAndVariant in E.
    apply andb_true_iff in E as [E _]. apply String.eqb_eq in E.
    destruct (Hitems i Hin). contradiction. }
  assert (Hwrite : addOrMerge newItemId newCartId dto v None db1 = (Returned tt, db2)).
  { unfold addOrMerge, lift, bind, createCartItem, ret.
    cbn [CartItem.id CartItem.cartId CartItem.variantId].
    rewrite existsb_nothing; [reflexivity |].
    intros i Hi. destruct (Hitems i Hi) as [H1 H2].
    apply orb_false_iff. split; [now apply String.eqb_neq |].
    apply andb_false_iff. left. now apply String.eqb_neq. }
  assert (Hget : getCart userId db2
                 = (Ok (cartResponseOf
                          (mkCartWithItems cart [mkCartLine line v p] None)), db2)).
  { rewrite (getCart_eval userId db2 cart).
    - assert (Hlines : cartItemsOf db2 (Cart.id cart) = [line]).
      { unfold cartItemsOf, findMany. cbn [cartItems db2 db1 setCartItems setCarts].
        rewrite filter_app, filter_nothing.
        - simpl. now rewrite String.eqb_refl.
        - intros i Hi. apply String.eqb_neq. now destruct (Hitems i Hi). }
      rewrite Hlines. unfold includeVariants, includeVariant, findFirst.
      cbn [CartItem.variantId line productVariants products db2 db1
           setCartItems setCarts].
      fold (byVariantId (AddCartItemDto.variantId dto)). rewrite Hv, Hp.
      reflexivity.
    - cbn [carts db2 db1 setCartItems setCarts].
      rewrite find_created, Hnocart. unfold byUserId. cbn [Cart.userId cart].
      now rewrite String.eqb_refl. }
  eexists. split.
  - rewrite addItem_unfold, Hv, Hp, Hact. cbn [negb].
    destruct (ProductVariant.stockQuantity v <=? 0) eqn:E1; [lia |].
    destruct (ProductVariant.stockQuantity v <? AddCartItemDto.quantity dto) eqn:E2;
      [lia |].
    rewrite Hcreate, Hline, Hwrite, Hget. reflexivity.
  - repeat split.
Qed.

Lemma addItem_first_item_witness :
  (exists resp db',
      addItem "c3" "i3" "u3" (AddCartItemDto.mk "vB" 2) (Scenario.cartDB None)
      = (Returned (resp, CART_MESSAGES.ITEM_ADDED), db')
      /\ CartResponse.itemCount resp = 2
      /\ CartResponse.subtotal resp = 20000%float)
  /\ (exists resp db',
        addItem "c6" "i6" "u6" (AddCartItemDto.mk "vS" 3) Example.scarfDB
        = (Returned (resp, CART_MESSAGES.ITEM_ADDED), db')
        /\ CartResponse.subtotal resp = 3000.8999999999996%float).
Proof.
  split.
  - destruct (addItem_first_item "c3" "i3" "u3" (AddCartItemDto.mk "vB" 2)
                (Scenario.cartDB None) Example.variantB Example.dress
                eq_refl eq_refl eq_refl)
      as (resp & Hrun & _ & Hcount & Hsub & _).
    + cbn. lia.
    + reflexivity.
    + intros c [<- | [<- | []]]; discriminate.
    + intros i [<- | [<- | []]]; split; discriminate.
    + exists resp. eexists. split; [exact Hrun |]. split; [exact Hcount |].
      rewrite Hsub. vm_compute. reflexivity.
  - destruct (addItem_first_item "c6" "i6" "u6" (AddCartItemDto.mk "vS" 3)
                Example.scarfDB Example.scarfVariant Example.scarf
                eq_refl eq_refl eq_refl)
      as (resp & Hrun & _ & _ & Hsub & _).
    + cbn. lia.
    + reflexivity.
    + intros c [<- | []]; discriminate.
    + intros i [<- | []]; split; discriminate.
    + exists resp. eexists. split; [exact Hrun |].
      rewrite Hsub. vm_compute. reflexivity.
Defined.

(* ===================================================================== *)
(** * OrdersService.checkout: what a successful checkout leaves *)
(* ===================================================================== *)

(** What [checkout] has read and computed when it succeeds. *)
Lemma checkout_Ok_inv (orderId orderNumber userId : string) (dto : CreateOrderDto.t)
    (db db' : DB) (r : Order.t * list OrderItem.t) :
  checkout orderId orderNumber userId dto db = (Ok r, db') ->
  exists plan c lines,
    checkoutTransaction orderId orderNumber plan db = (Ok r, db')
    /\ find (byUserId userId) (carts db) = Some c
    /\ includeVariants db (cartItemsOf db (Cart.id c)) = Some lines
    /\ lines <> []
    /\ (forall l, In l lines -> withinStock l)
    /\ planCart plan = c
    /\ planOrderItems plan = map orderItemOf lines
    /\ planUserId plan = userId
    /\ planDiscount plan = couponDiscount (couponOf db c) (cartSubtotal lines)
    /\ planShippingCost plan = shippingCostFlat
    /\ planTotals plan
       = calculateOrderTotal (cartSubtotal lines) shippingCostFlat
           (couponDiscount (couponOf db c) (cartSubtotal lines)).
Proof.
  unfold checkout, bind.
  destruct (checkoutPrepare userId dto db) as [[plan | e] d] eqn:Hprep; [| discriminate].
  pose proof (checkoutPrepare_reads _ _ _ _ _ Hprep) as ->.
  intros Hrun. apply (proj1 (transaction_commit _ _ _ _)) in Hrun.
  exists plan. revert Hprep.
  unfold checkoutPrepare, bind, findCart, findFirst. fold (byUserId userId).
  destruct (find _ (carts db)) as [c |]; [| discriminate].
  destruct (includeVariants db _) as [lines |] eqn:Hl; [| discriminate].
  cbn [items cartRow coupon].
  destruct (length lines =? 0)%nat eqn:Hlen; [discriminate |].
  unfold query. destruct (find _ (addresses db)) as [address |]; [| discriminate].
  destruct (verifyStock lines 0%float []) as [[subtotal its] | e] eqn:Hv; [| discriminate].
  destruct (verifyStock_Ok_inv _ _ _ _ _ Hv) as (Hall & -> & ->).
  unfold ret. intros [= <-]. exists c, lines.
  split; [exact Hrun |]. split; [reflexivity |]. split; [exact Hl |].
  split; [| repeat split; auto].
  intros ->. discriminate.
Qed.

(** The tables the transaction of [checkout] writes beside the orders,
    the order items, the stock and the cart lines. *)
Lemma checkoutTransaction_Ok_tables (orderId orderNumber : string) (p : CheckoutPlan)
    (db db' : DB) (r : Order.t * list OrderItem.t) :
  checkoutTransaction orderId orderNumber p db = (Ok r, db') ->
  orderNumberTaken orderId orderNumber db = false
  /\ (exists c', updateRows (byCartId (Cart.id (planCart p))) (Cart.withCouponId None)
                   (carts db) = Some (c', carts db'))
  /\ (if truthyString (Cart.couponId (planCart p))
      then exists cid k',
          Cart.couponId (planCart p) = Some cid
          /\ updateRows (byCouponId cid) (Coupon.withUsedCount (fun n => n + 1))
               (coupons db) = Some (k', coupons db')
      else coupons db' = coupons db)
  /\ payments db' = payments db
  /\ addresses db' = addresses db.
Proof.
  unfold checkoutTransaction, bind at 1, createOrder, orderNumberTaken.
  cbn [Order.id Order.orderNumber].
  destruct (existsb _ (orders db)); [discriminate |].
  unfold bind at 1.
  destruct (forEach _ _ _) as [[[] | e1] db2] eqn:Hloop; [| discriminate].
  destruct (forEach_stock_Ok OrderItemData.variantId
              (fun i => - OrderItemData.quantity i) _
              (fun i d => decrementStock_incrementStock _ _ d) _ _ _ Hloop)
    as [[rows2 ->] _].
  unfold bind at 1.
  destruct (truthyString (Cart.couponId (planCart p))) eqn:Htruthy.
  - destruct (Cart.couponId (planCart p)) as [cid |]; [| discriminate].
    unfold bind at 1, update at 1.
    cbn [coupons setProductVariants setOrderItems setOrders].
    fold (byCouponId cid).
    destruct (updateRows (byCouponId cid) _ (coupons db)) as [[k' ks] |] eqn:Hk;
      [| discriminate].
    unfold ret at 1. unfold bind at 1, exec. unfold bind, update, ret.
    cbn [carts setCartItems setCoupons setProductVariants setOrderItems setOrders].
    fold (byCartId (Cart.id (planCart p))).
    destruct (updateRows _ _ (carts db)) as [[c' cs] |]; [| discriminate].
    intros [= <- <-]. cbn. split; [reflexivity |]. split; [eauto |].
    split; [| split; reflexivity]. exists cid, k'. split; [reflexivity | exact Hk].
  - unfold ret at 1. unfold bind at 1, exec. unfold bind, update, ret.
    cbn [carts setCartItems setCoupons setProductVariants setOrderItems setOrders].
    fold (byCartId (Cart.id (planCart p))).
    destruct (updateRows _ _ (carts db)) as [[c' cs] |]; [| discriminate].
    intros [= <- <-]. cbn. split; [reflexivity |]. split; [eauto |].
    split; [| split]; reflexivity.
Qed.

(** X17.  After a successful [checkout] the user's cart has no line, so
    that a second checkout of the user, whatever it asks for, fails with
    the empty-cart error and creates no second order; the lines of the
    other carts are as before; with unique cart identifiers the coupon
    is detached from the cart; and a coupon that was attached under a
    non-empty identifier has its use counted, once. *)
Theorem checkout_empties_cart (orderId orderNumber userId : string)
    (dto : CreateOrderDto.t) (db db' : DB) (r : Order.t * list OrderItem.t) :
  checkout orderId orderNumber userId dto db = (Ok r, db') ->
  exists c,
    find (byUserId userId) (carts db) = Some c
    /\ cartItemsOf db (Cart.id c) <> []
    /\ cartItemsOf db' (Cart.id c) = []
    /\ (forall orderId2 orderNumber2 dto2,
          checkout orderId2 orderNumber2 userId dto2 db'
          = (Throw EmptyCartException, db'))
    /\ (forall other, other <> Cart.id c ->
                      cartItemsOf db' other = cartItemsOf db other)
    /\ (cartIdsUnique db = true ->
        find (byUserId userId) (carts db') = Some (Cart.withCouponId None c))
    /\ (forall cid k,
          Cart.couponId c = Some cid -> cid <> "" ->
          find (byCouponId cid) (coupons db) = Some k ->
          find (byCouponId cid) (coupons db')
          = Some (Coupon.withUsedCount (fun n => n + 1) k))
    /\ (Cart.couponId c = None -> coupons db' = coupons db).
Proof.
  intros Hrun.
  destruct (checkout_Ok_inv _ _ _ _ _ _ _ Hrun)
    as (plan & c & lines & Htx & Hc & Hl & Hne & _ & Hcart & _).
  destruct (checkoutTransaction_Ok_inv _ _ _ _ _ _ Htx)
    as (_ & _ & _ & _ & Hitems & _).
  destruct (checkoutTransaction_Ok_tables _ _ _ _ _ _ Htx)
    as (_ & (c1 & Hup) & Hcoupon & _).
  rewrite Hcart in *.
  destruct (find_owner_after_coupon _ _ _ _ _ _ Hc Hup) as (c' & Hc' & Hid & Huniq).
  assert (Hnone : cartItemsOf db' (Cart.id c) = []).
  { unfold cartItemsOf, findMany. rewrite Hitems. apply deleteMany_cart_none. }
  exists c. split; [exact Hc |]. split; [| split; [exact Hnone |]].
  { intros E. rewrite E in Hl. injection Hl as <-. now elim Hne. }
  split; [| split; [| split; [| split]]].
  - intros orderId2 orderNumber2 dto2. apply checkout_empty_cart. right.
    exists c'. split; [exact Hc' |]. now rewrite Hid.
  - intros other Hother. unfold cartItemsOf, findMany. rewrite Hitems.
    now apply deleteMany_cart_other.
  - intros Hu. rewrite Hc'. f_equal. now apply Huniq.
  - intros cid k Hcid Hnonempty Hk. rewrite Hcid in Hcoupon.
    assert (Htruthy : truthyString (Some cid) = true).
    { cbn. apply negb_true_iff. now apply String.eqb_neq. }
    rewrite Htruthy in Hcoupon. destruct Hcoupon as (cid' & k' & [= <-] & Hupk).
    unfold byCouponId.
    rewrite (find_updateRows_key Coupon.id cid cid
               (Coupon.withUsedCount (fun n => n + 1)) _ _ _ (fun _ => eq_refl) Hupk).
    rewrite String.eqb_refl.
    destruct (updateRows_source _ _ _ _ _ Hupk) as (k0 & Hk0 & ->).
    fold (byCouponId cid) in Hk. rewrite Hk in Hk0. now injection Hk0 as <-.
  - intros Hnocoupon. rewrite Hnocoupon in Hcoupon. exact Hcoupon.
Qed.

Lemma checkout_empties_cart_witness :
  exists r db',
    checkout "o9" "VT-9" "u1" (Example.toLagos "a1") (Scenario.cartDB (Some "k1"))
    = (Ok r, db')
    /\ checkout "o10" "VT-10" "u1" (Example.toLagos "a1") db'
       = (Throw EmptyCartException, db')
    /\ map Coupon.usedCount (coupons db') = [1].
Proof.
  destruct (checkout "o9" "VT-9" "u1" (Example.toLagos "a1")
              (Scenario.cartDB (Some "k1"))) as [[r | e] db'] eqn:Hrun;
    [| discriminate Hrun].
  destruct (checkout_empties_cart _ _ _ _ _ _ _ Hrun)
    as (c & _ & _ & _ & Hagain & _).
  exists r, db'. split; [reflexivity |]. split; [apply Hagain |].
  vm_compute in Hrun. injection Hrun as _ <-. reflexivity.
Defined.

Lemma fold_left_mapped {A B C} (f : A -> C -> A) (g : B -> C) (l : list B) (a : A) :
  fold_left f (map g l) a = fold_left (fun acc x => f acc (g x)) l a.
Proof.
  revert a. induction l as [| x rest IH]; simpl; intros a; [reflexivity | apply IH].
Qed.

Lemma orderNumberTaken_fresh (orderId orderNumber : string) (db : DB) :
  orderNumberTaken orderId orderNumber db = false ->
  forall o, In o (orders db) -> Order.id o <> orderId.
Proof.
  unfold orderNumberTaken. intros H o Hin E.
  apply not_true_iff_false in H. apply H. apply existsb_exists.
  exists o. split; [exact Hin |]. apply orb_true_iff. left. now apply String.eqb_eq.
Qed.

(** X18.  The order a successful [checkout] creates agrees with the
    cart view [getCart] gives of the same store: its discount is the
    discount of the view, its subtotal is the total of the view rounded
    by [roundPrice], its VAT and its total are those the calculator
    derives from the total of the view (the VAT on it, and the view
    total plus that VAT plus the shipping cost, each rounded by
    [roundPrice]), its items carry the quantities and the line totals
    the view adds up, and the shipping cost is the flat rate 2500.  The
    order is PENDING, belongs to the user and is stored under its
    identifier.  All figures are doubles: for one kimono at 5000.15
    with the coupon of 10 percent the order holds the subtotal 4500.13,
    the VAT 337.51 and the total 7337.65. *)
Theorem checkout_order_matches_cart (orderId orderNumber userId : string)
    (dto : CreateOrderDto.t) (db db' : DB) (r : Order.t * list OrderItem.t) :
  checkout orderId orderNumber userId dto db = (Ok r, db') ->
  exists resp,
    getCart userId db = (Ok resp, db)
    /\ Order.discount (fst r) = CartResponse.discount resp
    /\ Order.subtotal (fst r) = roundPrice (CartResponse.total resp)
    /\ Order.vat (fst r) = roundPrice (calculateVAT (CartResponse.total resp))
    /\ Order.total (fst r)
       = roundPrice (CartResponse.total resp + calculateVAT (CartResponse.total resp)
                     + 2500)%float
    /\ fold_left (fun sum i => sum + OrderItem.quantity i) (snd r) 0
       = CartResponse.itemCount resp
    /\ fold_left (fun sum i => (sum + OrderItem.totalPrice i)%float) (snd r) 0%float
       = CartResponse.subtotal resp
    /\ Order.shippingCost (fst r) = 2500%float
    /\ Order.status (fst r) = OrderStatus.PENDING
    /\ Order.userId (fst r) = userId
    /\ find (byOrderId orderId) (orders db') = Some (fst r).
Proof.
  intros Hrun.
  destruct (checkout_Ok_inv _ _ _ _ _ _ _ Hrun)
    as (plan & c & lines & Htx & Hc & Hl & _ & _ & Hcart & Hits & Huser & Hdisc
        & Hship & Htotals).
  destruct (checkoutTransaction_Ok_inv _ _ _ _ _ _ Htx) as (-> & Horders & _).
  destruct (checkoutTransaction_Ok_tables _ _ _ _ _ _ Htx) as (Hfresh & _).
  exists (cartResponseOf (mkCartWithItems c lines (couponOf db c))).
  split; [now rewrite (getCart_eval _ _ _ Hc), Hl |].
  cbn [fst snd plannedOrder Order.discount Order.subtotal Order.shippingCost
       Order.total Order.vat Order.status Order.userId].
  unfold cartResponseOf, calculateTotals. cbn [items coupon cartRow
    CartResponse.discount CartResponse.total CartResponse.itemCount
    CartResponse.subtotal].
  rewrite Hdisc, Hship, Htotals, Hits, Huser.
  unfold calculateOrderTotal. cbn [discountedSubtotal vat total].
  rewrite <- (Math_max_zero_comm
                (cartSubtotal lines
                 - couponDiscount (couponOf db c) (cartSubtotal lines))%float).
  split; [reflexivity |]. split; [reflexivity |]. split; [reflexivity |].
  split; [reflexivity |].
  split; [rewrite map_map, fold_left_mapped; reflexivity |].
  split; [rewrite map_map, fold_left_mapped; reflexivity |].
  split; [reflexivity |]. split; [reflexivity |]. split; [reflexivity |].
  rewrite Horders, find_created. unfold byOrderId.
  rewrite (find_absent_key Order.id orderId (orders db)).
  - cbn [plannedOrder Order.id].
    rewrite String.eqb_refl. reflexivity.
  - intros Hin. apply in_map_iff in Hin as (o & Ho & Hin).
    exact (orderNumberTaken_fresh _ _ _ Hfresh o Hin Ho).
Qed.

Lemma checkout_order_matches_cart_witness :
  (exists o its db' resp,
      checkout "o9" "VT-9" "u1" (Example.toLagos "a1") (Scenario.cartDB (Some "k1"))
      = (Ok (o, its), db')
      /\ getCart "u1" (Scenario.cartDB (Some "k1"))
         = (Ok resp, Scenario.cartDB (Some "k1"))
      /\ CartResponse.total resp = 18000%float
      /\ Order.subtotal o = 18000%float
      /\ Order.total o = 21850%float)
  /\ (exists o its db' resp,
        checkout "o9" "VT-9" "u5" (Example.toLagos "a5") Scenario.kimonoDB
        = (Ok (o, its), db')
        /\ getCart "u5" Scenario.kimonoDB = (Ok resp, Scenario.kimonoDB)
        /\ CartResponse.total resp = 4500.1349999999993%float
        /\ Order.subtotal o = 4500.13%float
        /\ Order.vat o = 337.51%float
        /\ Order.total o = 7337.65%float).
Proof.
  split.
  - destruct (checkout "o9" "VT-9" "u1" (Example.toLagos "a1")
                (Scenario.cartDB (Some "k1"))) as [[[o its] | e] db'] eqn:Hrun;
      [| vm_compute in Hrun; discriminate Hrun].
    destruct (checkout_order_matches_cart _ _ _ _ _ _ _ Hrun)
      as (resp & Hget & _ & Hsub & _ & Htot & _).
    exists o, its, db', resp. split; [reflexivity |]. split; [exact Hget |].
    cbn [fst] in Hsub, Htot. rewrite Hsub, Htot.
    vm_compute in Hget. injection Hget as <-.
    repeat split; vm_compute; reflexivity.
  - destruct (checkout "o9" "VT-9" "u5" (Example.toLagos "a5") Scenario.kimonoDB)
      as [[[o its] | e] db'] eqn:Hrun; [| vm_compute in Hrun; discriminate Hrun].
    destruct (checkout_order_matches_cart _ _ _ _ _ _ _ Hrun)
      as (resp & Hget & _ & Hsub & Hvat & Htot & _).
    exists o, its, db', resp. split; [reflexivity |]. split; [exact Hget |].
    cbn [fst] in Hsub, Hvat, Htot. rewrite Hsub, Hvat, Htot.
    vm_compute in Hget. injection Hget as <-.
    repeat split; vm_compute; reflexivity.
Defined.

(* ===================================================================== *)
(** * Checkout, then cancellation *)
(* ===================================================================== *)

Lemma uniqueStrings_created (l : list string) (x : string) :
  uniqueStrings l = true -> ~ In x l -> uniqueStrings (l ++ [x]) = true.
Proof.
  intros Hu Hx. apply uniqueStrings_NoDup. apply uniqueStrings_NoDup in Hu.
  induction l as [| y rest IH]; simpl.
  - constructor; [intros [] | constructor].
  - inversion Hu as [| ? ? Hy Hrest]; subst. constructor.
    + rewrite in_app_iff. intros [H | [H | []]]; [contradiction |].
      apply Hx. now left.
    + apply IH; [exact Hrest |]. intros H. apply Hx. now right.
Qed.

Lemma movements_rows (orderId : string) (its : list OrderItemData.t) :
  movements OrderItem.variantId OrderItem.quantity
    (map (OrderItemData.toRow orderId) its)
  = movements OrderItemData.variantId OrderItemData.quantity its.
Proof.
  unfold movements. rewrite map_map. reflexivity.
Qed.

Lemma filter_rows_of_order (orderId : string) (its : list OrderItemData.t) :
  filter (fun i => String.eqb (OrderItem.orderId i) orderId)
    (map (OrderItemData.toRow orderId) its)
  = map (OrderItemData.toRow orderId) its.
Proof.
  induction its as [| i rest IH]; simpl; [reflexivity |].
  now rewrite String.eqb_refl, IH.
Qed.

(** X19.  Checkout, then cancellation of the created order by its
    owner.  With unique order identifiers and no order item left under
    the new identifier, the cancellation succeeds and the stock of every
    variant is back to what it was before the checkout.  The
    cancellation writes the stock and the order only: the cart stays
    empty and the use of the coupon stays counted. *)
Theorem checkout_then_cancelOrder (orderId orderNumber userId : string)
    (dto : CreateOrderDto.t) (db db1 : DB) (r : Order.t * list OrderItem.t) :
  orderIdsUnique db = true ->
  (forall i, In i (orderItems db) -> OrderItem.orderId i <> orderId) ->
  checkout orderId orderNumber userId dto db = (Ok r, db1) ->
  exists db2,
    cancelOrder userId orderId db1
    = (Ok (Order.withStatus OrderStatus.CANCELLED (fst r)), db2)
    /\ (forall v, stockOf db2 v = stockOf db v)
    /\ cartItems db2 = cartItems db1
    /\ carts db2 = carts db1
    /\ coupons db2 = coupons db1.
Proof.
  intros Hu Hnoitems Hrun.
  destruct (checkout_Ok_inv _ _ _ _ _ _ _ Hrun)
    as (plan & c & lines & Htx & Hc & Hl & _ & _ & Hcart & Hits & Huser & _).
  destruct (checkoutTransaction_Ok_inv _ _ _ _ _ _ Htx)
    as (-> & Horders & Hrows & Hstock & _).
  destruct (checkoutTransaction_Ok_tables _ _ _ _ _ _ Htx) as (Hfresh & _).
  cbn [fst].
  set (o := plannedOrder orderId orderNumber plan) in *.
  assert (Habsent : ~ In orderId (map Order.id (orders db))).
  { intros Hin. apply in_map_iff in Hin as (x & Hx & Hin).
    exact (orderNumberTaken_fresh _ _ _ Hfresh x Hin Hx). }
  assert (Hfind : find (byOwnedOrder orderId userId) (orders db1) = Some o).
  { rewrite Horders, find_created.
    destruct (find (byOwnedOrder orderId userId) (orders db)) as [x |] eqn:E.
    - apply byOwnedOrder_id in E as Hx. destruct Hx as [Hx _].
      apply find_some in E as [Hin _]. elim Habsent. rewrite <- Hx. now apply in_map.
    - unfold byOwnedOrder, o. cbn [plannedOrder Order.id Order.userId].
      now rewrite Huser, !String.eqb_refl. }
  assert (Hu1 : orderIdsUnique db1 = true).
  { unfold orderIdsUnique in *. rewrite Horders, map_app. cbn [map].
    now apply uniqueStrings_created. }
  assert (Hitems : orderItemsOf db1 orderId
                   = map (OrderItemData.toRow orderId) (planOrderItems plan)).
  { unfold orderItemsOf, findMany. rewrite Hrows, filter_app.
    rewrite filter_nothing.
    - apply filter_rows_of_order.
    - intros i Hi. apply String.eqb_neq. now apply Hnoitems. }
  assert (Hfk : orderVariantsExist db1 orderId = true).
  { unfold orderVariantsExist. rewrite Hitems, Hits. apply forallb_forall.
    intros i Hi. apply in_map_iff in Hi as (d & <- & Hd).
    apply in_map_iff in Hd as (l & <- & Hin).
    apply stockOf_known. cbn [OrderItemData.toRow OrderItem.variantId orderItemOf
                              OrderItemData.variantId].
    rewrite Hstock.
    destruct (includeVariants_lines _ _ _ Hl) as [_ Hlines].
    destruct (Hlines l Hin) as [-> ->]. discriminate. }
  destruct (cancelTransaction_commits userId orderId db1 o Hfk Hu1 Hfind)
    as (rows2 & orders2 & Hcancel & _ & _ & Hstock2).
  exists (setOrders orders2 (setProductVariants rows2 db1)).
  split; [| split; [| repeat split]].
  - rewrite cancelOrder_unfold, Hfind. exact Hcancel.
  - intros v.
    change (stockOf (setOrders orders2 (setProductVariants rows2 db1)) v)
      with (stockOf (setProductVariants rows2 db1) v).
    rewrite Hstock2, Hitems, movements_rows, Hstock.
    destruct (stockOf db v); cbn [option_map]; [f_equal; lia | reflexivity].
Qed.

Lemma checkout_then_cancelOrder_witness :
  exists r db1 o2 db2,
    checkout "o9" "VT-9" "u1" (Example.toLagos "a1") (Scenario.cartDB (Some "k1"))
    = (Ok r, db1)
    /\ stockOf db1 "vA" = Some 3
    /\ cancelOrder "u1" "o9" db1 = (Ok o2, db2)
    /\ stockOf db2 "vA" = Some 5
    /\ map Coupon.usedCount (coupons db2) = [1].
Proof.
  destruct (checkout "o9" "VT-9" "u1" (Example.toLagos "a1")
              (Scenario.cartDB (Some "k1"))) as [[r | e] db1] eqn:Hrun;
    [| discriminate Hrun].
  destruct (checkout_then_cancelOrder "o9" "VT-9" "u1" (Example.toLagos "a1")
              (Scenario.cartDB (Some "k1")) db1 r eq_refl
              ltac:(intros i []) Hrun)
    as (db2 & Hcancel & Hstock & _ & _ & Hcoupons).
  exists r, db1, (Order.withStatus OrderStatus.CANCELLED (fst r)), db2.
  split; [reflexivity |].
  assert (Hdb1 := Hrun). vm_compute in Hdb1. injection Hdb1 as _ Hdb1.
  split; [rewrite <- Hdb1; reflexivity |].
  split; [exact Hcancel |]. split; [rewrite Hstock; reflexivity |].
  rewrite Hcoupons, <- Hdb1. reflexivity.
Defined.

(* ===================================================================== *)
(** * CartService.removeCoupon: properties *)
(* ===================================================================== *)

Lemma removeCoupon_unfold (userId : string) (db : DB) :
  removeCoupon userId db =
  match find (byUserId userId) (carts db) with
  | None => (Throw EmptyCartException, db)
  | Some cart =>
      match updateRows (byCartId (Cart.id cart)) (Cart.withCouponId None) (carts db) with
      | None => (Throw (PrismaClientError "P2025"), db)
      | Some (_, carts') =>
          match getCart userId (setCarts carts' db) with
          | (Ok result, d) => (Ok (result, CART_MESSAGES.COUPON_REMOVED), d)
          | (Throw e, d) => (Throw e, d)
          end
      end
  end.
Proof.
  unfold removeCoupon, bind, query, findFirst, throw, update, ret.
  fold (byUserId userId).
  destruct (find (byUserId userId) (carts db)) as [cart |]; [| reflexivity].
  fold (byCartId (Cart.id cart)).
  destruct (updateRows (byCartId (Cart.id cart)) _ (carts db)) as [[c' carts'] |];
    [| reflexivity].
  destruct (getCart userId (setCarts carts' db)) as [[result | e] d]; reflexivity.
Qed.

Lemma updateRows_fixed {A} (w : A -> bool) (data : A -> A) (rows : list A) (r : A) :
  find w rows = Some r -> data r = r -> updateRows w data rows = Some (r, rows).
Proof.
  intros Hfind Hr. induction rows as [| x rest IH]; simpl in *; [discriminate |].
  destruct (w x).
  - injection Hfind as ->. now rewrite Hr.
  - now rewrite (IH Hfind).
Qed.

(** X20.  [removeCoupon] fails with the empty-cart error, writing
    nothing, when the user has no cart.  When it succeeds, with unique
    cart identifiers, the user's cart has no coupon; the view it
    returns shows no coupon and no discount, a total equal to the
    subtotal floored at 0, and the subtotal and item count of the view
    from before; only the carts table is written, the coupon row
    itself staying as it is; and removing the coupon again returns the
    same view and changes nothing. *)
Theorem removeCoupon_detaches (userId : string) (db : DB) :
  (find (byUserId userId) (carts db) = None ->
   removeCoupon userId db = (Throw EmptyCartException, db))
  /\ (forall resp msg db',
        cartIdsUnique db = true ->
        removeCoupon userId db = (Ok (resp, msg), db') ->
        exists c carts',
          find (byUserId userId) (carts db) = Some c
          /\ db' = setCarts carts' db
          /\ find (byUserId userId) carts' = Some (Cart.withCouponId None c)
          /\ CartResponse.coupon resp = None
          /\ CartResponse.discount resp = 0%float
          /\ CartResponse.total resp
             = Math_max 0%float (CartResponse.subtotal resp - 0)%float
          /\ (forall before,
                getCart userId db = (Ok before, db) ->
                CartResponse.subtotal resp = CartResponse.subtotal before
                /\ CartResponse.itemCount resp = CartResponse.itemCount before)
          /\ removeCoupon userId db' = (Ok (resp, msg), db')
          /\ msg = CART_MESSAGES.COUPON_REMOVED).
Proof.
  split.
  - intros Hnone. now rewrite removeCoupon_unfold, Hnone.
  - intros resp msg db' Hu. rewrite removeCoupon_unfold.
    destruct (find (byUserId userId) (carts db)) as [c |] eqn:Hc; [| discriminate].
    destruct (updateRows (byCartId (Cart.id c)) _ (carts db)) as [[c1 carts'] |] eqn:Hup;
      [| discriminate].
    destruct (find_owner_after_coupon _ _ _ _ _ _ Hc Hup) as (c' & Hc' & _ & Huniq).
    rewrite (Huniq Hu) in Hc'. clear Huniq.
    assert (Hlines : includeVariants (setCarts carts' db)
                       (cartItemsOf (setCarts carts' db) (Cart.id c))
                     = includeVariants db (cartItemsOf db (Cart.id c))).
    { apply includeVariants_frame; reflexivity. }
    rewrite (getCart_eval userId (setCarts carts' db) _ Hc').
    cbn [Cart.withCouponId Cart.id]. rewrite Hlines.
    destruct (includeVariants db (cartItemsOf db (Cart.id c))) as [lines |] eqn:Hl;
      [| discriminate].
    intros [= <- <- <-].
    exists c, carts'. split; [reflexivity |]. split; [reflexivity |].
    split; [exact Hc' |].
    split; [reflexivity |]. split; [reflexivity |]. split; [reflexivity |].
    split; [| split; [| reflexivity]].
    + intros before. rewrite (getCart_eval userId db c Hc), Hl.
      intros [= <-]. split; reflexivity.
    + rewrite removeCoupon_unfold. cbn [carts setCarts]. rewrite Hc'.
      cbn [Cart.withCouponId Cart.id].
      rewrite (updateRows_again (byCartId (Cart.id c)) (Cart.withCouponId None) _ _ _
                 (fun _ => eq_refl) (fun _ => eq_refl) Hup).
      change (setCarts carts' (setCarts carts' db)) with (setCarts carts' db).
      rewrite (getCart_eval userId (setCarts carts' db) _ Hc').
      cbn [Cart.withCouponId Cart.id]. rewrite Hlines. reflexivity.
Qed.

Lemma removeCoupon_detaches_witness :
  exists resp db',
    removeCoupon "u1" (Scenario.cartDB (Some "k1"))
    = (Ok (resp, CART_MESSAGES.COUPON_REMOVED), db')
    /\ map Cart.couponId (carts db') = [None; None]
    /\ CartResponse.total resp = 20000%float.
Proof.
  destruct (removeCoupon "u1" (Scenario.cartDB (Some "k1")))
    as [[[resp msg] | e] db'] eqn:Hrun; [| discriminate Hrun].
  destruct (removeCoupon_detaches "u1" (Scenario.cartDB (Some "k1"))) as [_ H].
  destruct (H resp msg db' eq_refl Hrun)
    as (c & carts' & _ & _ & _ & _ & _ & Htotal & _ & _ & ->).
  exists resp, db'. split; [reflexivity |].
  injection Hrun as <- <-. split; reflexivity.
Defined.

Section CouponRoundTrip.
Variable formatNaira : float -> string.

Lemma applyCoupon_Ok_inv (now : Z) (userId code : string) (db db1 : DB)
    (r : CartResponse.t * string) :
  applyCoupon formatNaira now userId code db = (Ok r, db1) ->
  exists c lines k resp carts1 c1,
    find (byUserId userId) (carts db) = Some c
    /\ includeVariants db (cartItemsOf db (Cart.id c)) = Some lines
    /\ find (byCode code) (coupons db) = Some k
    /\ updateRows (byCartId (Cart.id c)) (Cart.withCouponId (Some (Coupon.id k)))
         (carts db) = Some (c1, carts1)
    /\ getCart userId (setCarts carts1 db) = (Ok resp, setCarts carts1 db)
    /\ db1 = setCarts carts1 db
    /\ fst r = resp.
Proof.
  assert (Hattach : forall c lines k,
            attachCoupon formatNaira userId (mkCartWithItems c lines (couponOf db c)) k db
            = (Ok r, db1) ->
            exists resp carts1 c1,
              updateRows (byCartId (Cart.id c)) (Cart.withCouponId (Some (Coupon.id k)))
                (carts db) = Some (c1, carts1)
              /\ getCart userId (setCarts carts1 db) = (Ok resp, setCarts carts1 db)
              /\ db1 = setCarts carts1 db
              /\ fst r = resp).
  { intros c lines k. unfold attachCoupon, bind, update, ret. cbn [cartRow].
    fold (byCartId (Cart.id c)).
    destruct (updateRows (byCartId (Cart.id c)) _ (carts db)) as [[c1 carts1] |];
      [| discriminate].
    destruct (getCart userId (setCarts carts1 db)) as [[resp | e] d] eqn:Hget;
      [| discriminate].
    apply getCart_reads in Hget as Hd. subst d. intros [= <- <-].
    exists resp, carts1, c1. repeat split; trivial. }
  unfold applyCoupon, bind, findCart, findFirst. fold (byUserId userId).
  destruct (find (byUserId userId) (carts db)) as [c |]; [| discriminate].
  destruct (includeVariants db _) as [lines |] eqn:Hl; [| discriminate].
  cbn [items cartRow coupon].
  destruct (length lines =? 0)%nat; [discriminate |].
  unfold query. fold (byCode code).
  destruct (find (byCode code) (coupons db)) as [k |]; [| discriminate].
  destruct (negb (Coupon.isActive k)); [discriminate |].
  destruct ((Coupon.startsAt k >? now) || (Coupon.expiresAt k <? now));
    [discriminate |].
  destruct (truthyInt (Coupon.maxUses k) && _); [discriminate |].
  intros Hrun.
  assert (Hrun' : attachCoupon formatNaira userId
                    (mkCartWithItems c lines (couponOf db c)) k db = (Ok r, db1)).
  { destruct (Coupon.minOrderAmount k) as [m |]; [| exact Hrun].
    destruct (cartSubtotal lines <? m)%float; [discriminate | exact Hrun]. }
  destruct (Hattach c lines k Hrun') as (resp & carts1 & c1 & H1 & H2 & H3 & H4).
  exists c, lines, k, resp, carts1, c1. repeat split; trivial.
Qed.

(** X21.  Applying a coupon and removing it again is a round trip: when
    [applyCoupon] succeeds on a cart that had no coupon, with unique
    cart identifiers, [removeCoupon] succeeds after it and the store is
    again the store from before the coupon was applied, with the cart
    view from before as its answer. *)
Theorem applyCoupon_removeCoupon (now : Z) (userId code : string) (db db1 : DB)
    (r : CartResponse.t * string) (c : Cart.t) :
  cartIdsUnique db = true ->
  find (byUserId userId) (carts db) = Some c ->
  Cart.couponId c = None ->
  applyCoupon formatNaira now userId code db = (Ok r, db1) ->
  exists resp,
    removeCoupon userId db1 = (Ok (resp, CART_MESSAGES.COUPON_REMOVED), db)
    /\ getCart userId db = (Ok resp, db)
    /\ CartResponse.subtotal resp = CartResponse.subtotal (fst r)
    /\ CartResponse.discount resp = 0%float.
Proof.
  intros Hu Hc Hnone Hrun.
  destruct (applyCoupon_Ok_inv _ _ _ _ _ _ Hrun)
    as (c0 & lines & k & resp1 & carts1 & c1 & Hc0 & Hl & _ & Hup & Hget1 & -> & Hr).
  rewrite Hc in Hc0. injection Hc0 as <-.
  destruct (find_owner_after_coupon _ _ _ _ _ _ Hc Hup) as (c' & Hc' & _ & Huniq).
  rewrite (Huniq Hu) in Hc'. clear Huniq.
  pose proof (find_unique_key Cart.id _ _ _ Hu Hc) as Hbyid.
  fold (byCartId (Cart.id c)) in Hbyid.
  assert (Hback : updateRows (byCartId (Cart.id c)) (Cart.withCouponId None) carts1
                  = Some (c, carts db)).
  { rewrite (updateRows_twice (byCartId (Cart.id c))
               (Cart.withCouponId (Some (Coupon.id k))) (Cart.withCouponId None)
               _ _ _ (fun _ => eq_refl) Hup).
    apply updateRows_fixed; [exact Hbyid |].
    destruct c as [cid cuser ccoupon]. cbn in Hnone. subst ccoupon. reflexivity. }
  assert (Hview : getCart userId db
                  = (Ok (cartResponseOf (mkCartWithItems c lines (couponOf db c))), db)).
  { now rewrite (getCart_eval userId db c Hc), Hl. }
  exists (cartResponseOf (mkCartWithItems c lines (couponOf db c))).
  split; [| split; [exact Hview | split]].
  - rewrite removeCoupon_unfold. cbn [carts setCarts]. rewrite Hc'.
    cbn [Cart.withCouponId Cart.id]. rewrite Hback.
    replace (setCarts (carts db) (setCarts carts1 db)) with db
      by (destruct db; reflexivity).
    now rewrite Hview.
  - rewrite Hr.
    assert (Hlines : includeVariants (setCarts carts1 db)
                       (cartItemsOf (setCarts carts1 db) (Cart.id c))
                     = Some lines).
    { rewrite <- Hl. apply includeVariants_frame; reflexivity. }
    rewrite (getCart_eval userId (setCarts carts1 db) _ Hc') in Hget1.
    cbn [Cart.withCouponId Cart.id] in Hget1. rewrite Hlines in Hget1.
    injection Hget1 as <-. reflexivity.
  - unfold cartResponseOf, calculateTotals, couponOf. cbn [coupon cartRow].
    rewrite Hnone. reflexivity.
Qed.

End CouponRoundTrip.

Lemma applyCoupon_removeCoupon_witness :
  exists r db1 resp,
    applyCoupon Example.plainNaira 500 "u1" "SAVE10" (Scenario.cartDB None) = (Ok r, db1)
    /\ map Cart.couponId (carts db1) = [Some "k1"; None]
    /\ removeCoupon "u1" db1
       = (Ok (resp, CART_MESSAGES.COUPON_REMOVED), Scenario.cartDB None).
Proof.
  destruct (applyCoupon Example.plainNaira 500 "u1" "SAVE10" (Scenario.cartDB None))
    as [[r | e] db1] eqn:Hrun; [| discriminate Hrun].
  destruct (applyCoupon_removeCoupon Example.plainNaira 500 "u1" "SAVE10"
              (Scenario.cartDB None) db1 r (Cart.mk "c1" "u1" None)
              eq_refl eq_refl eq_refl Hrun) as (resp & Hback & _).
  exists r, db1, resp. split; [reflexivity |]. split; [| exact Hback].
  injection Hrun as _ <-. reflexivity.
Defined.

(* ===================================================================== *)
(** * The cart view: totals *)
(* ===================================================================== *)

(** X22.  [getCart] writes nothing.  In the view it returns the total
    is [Math.max(0, subtotal - discount)] on doubles: the difference
    when that is positive, 0 when it is not (NaN apart), and never a
    number below 0.  The discount shown is 0 without a coupon and for a
    free-shipping coupon, [subtotal * value / 100] for a percentage
    coupon, and the full value of a fixed-amount coupon, also when that
    exceeds the subtotal.  One kimono at 5000.15 with the coupon of 10
    percent shows the discount 500.015 and the total 4500.1349999999993. *)
Theorem getCart_totals (userId : string) (db db' : DB) (resp : CartResponse.t) :
  getCart userId db = (Ok resp, db') ->
  let difference := (CartResponse.subtotal resp - CartResponse.discount resp)%float in
  db' = db
  /\ CartResponse.total resp = Math_max 0 difference
  /\ (CartResponse.total resp <? 0)%float = false
  /\ (is_nan difference = false -> (0 <? difference)%float = true ->
      CartResponse.total resp = difference)
  /\ (is_nan difference = false -> (0 <? difference)%float = false ->
      CartResponse.total resp = 0%float)
  /\ match CartResponse.coupon resp with
     | None => CartResponse.discount resp = 0%float
     | Some (_, CouponType.PERCENTAGE, value) =>
         CartResponse.discount resp = (CartResponse.subtotal resp * value / 100)%float
     | Some (_, CouponType.FIXED_AMOUNT, value) => CartResponse.discount resp = value
     | Some (_, CouponType.FREE_SHIPPING, _) => CartResponse.discount resp = 0%float
     end.
Proof.
  intros Hrun difference. split; [exact (getCart_reads _ _ _ _ Hrun) |].
  assert (Htotal : CartResponse.total resp = Math_max 0 difference
                   /\ match CartResponse.coupon resp with
                      | None => CartResponse.discount resp = 0%float
                      | Some (_, CouponType.PERCENTAGE, value) =>
                          CartResponse.discount resp
                          = (CartResponse.subtotal resp * value / 100)%float
                      | Some (_, CouponType.FIXED_AMOUNT, value) =>
                          CartResponse.discount resp = value
                      | Some (_, CouponType.FREE_SHIPPING, _) =>
                          CartResponse.discount resp = 0%float
                      end).
  { unfold difference.
    destruct (find (byUserId userId) (carts db)) as [c |] eqn:Hc.
    - rewrite (getCart_eval userId db c Hc) in Hrun.
      destruct (includeVariants db (cartItemsOf db (Cart.id c))) as [lines |];
        [| discriminate].
      injection Hrun as <- _.
      unfold cartResponseOf, calculateTotals. cbn [items coupon cartRow
        CartResponse.total CartResponse.subtotal CartResponse.discount
        CartResponse.coupon].
      split; [reflexivity |].
      destruct (couponOf db c) as [k |]; [| reflexivity].
      unfold couponDiscount. destruct (Coupon.type k); reflexivity.
    - rewrite (getCart_no_cart userId db Hc) in Hrun. injection Hrun as <- _.
      split; reflexivity. }
  destruct Htotal as [Htotal Hdiscount].
  split; [exact Htotal |].
  rewrite Htotal, <- Math_max_zero_comm.
  split; [apply Math_max_not_negative |].
  split; [intros Hnan Hpos; now apply Math_max_floor |].
  split; [intros Hnan Hneg; now apply Math_max_floor |].
  exact Hdiscount.
Qed.

Lemma getCart_totals_witness :
  (exists resp,
      getCart "u1" (Scenario.cartDB (Some "k1"))
      = (Ok resp, Scenario.cartDB (Some "k1"))
      /\ is_nan (CartResponse.subtotal resp - CartResponse.discount resp)%float = false
      /\ (0 <? CartResponse.subtotal resp - CartResponse.discount resp)%float = true
      /\ CartResponse.discount resp = 2000%float
      /\ CartResponse.total resp = 18000%float)
  /\ (exists resp,
        getCart "u5" Scenario.kimonoDB = (Ok resp, Scenario.kimonoDB)
        /\ CartResponse.discount resp = 500.015%float
        /\ CartResponse.total resp = 4500.1349999999993%float).
Proof.
  split.
  - destruct (getCart "u1" (Scenario.cartDB (Some "k1"))) as [[resp | e] d] eqn:Hrun;
      [| vm_compute in Hrun; discriminate Hrun].
    destruct (getCart_totals _ _ _ _ Hrun) as (-> & _ & _ & Hpos & _ & Hdisc).
    exists resp. split; [reflexivity |].
    vm_compute in Hrun. injection Hrun as <-.
    split; [reflexivity |]. split; [reflexivity |].
    split; [vm_compute in Hdisc; exact Hdisc |].
    rewrite (Hpos eq_refl eq_refl). vm_compute. reflexivity.
  - destruct (getCart "u5" Scenario.kimonoDB) as [[resp | e] d] eqn:Hrun;
      [| vm_compute in Hrun; discriminate Hrun].
    destruct (getCart_totals _ _ _ _ Hrun) as (-> & _ & _ & Hpos & _ & Hdisc).
    exists resp. split; [reflexivity |].
    vm_compute in Hrun. injection Hrun as <-.
    split; [vm_compute in Hdisc; exact Hdisc |].
    rewrite (Hpos eq_refl eq_refl). vm_compute. reflexivity.
Defined.

(* ===================================================================== *)
(** * roundPrice *)
(* ===================================================================== *)

Lemma roundPrice_checked :
  forallb (fun k => identical (roundPrice (ofKobo k)) (ofKobo k)) (upTo 20000) = true.
Proof. vm_compute. reflexivity. Qed.

(** The integer [nearestInteger] gives for a number [m / 2^k] is the one
    [n] with [n <= m / 2^k + 1/2 < n + 1]. *)
Lemma nearestInteger_spec (negative : bool) (m : positive) (e : Z) :
  e < 0 ->
  let v := if negative then Z.neg m else Z.pos m in
  let n := nearestInteger negative m e in
  n * 2 ^ (1 - e) <= 2 * v + 2 ^ (- e) < (n + 1) * 2 ^ (1 - e).
Proof.
  intros He v n. unfold n, nearestInteger. fold v.
  rewrite Z.shiftl_1_l, Z.shiftr_div_pow2 by lia.
  assert (Hpow : 0 < 2 ^ (1 - e)) by (apply Z.pow_pos_nonneg; lia).
  pose proof (Z.div_mod (2 * v + 2 ^ (- e)) (2 ^ (1 - e)) ltac:(lia)) as Hdm.
  pose proof (Z.mod_pos_bound (2 * v + 2 ^ (- e)) (2 ^ (1 - e)) Hpow) as Hb.
  nia.
Qed.

(** X23.  [roundPrice x] is [Math.round(x * 100) / 100] on doubles.
    [Math.round] returns NaN, the infinities, the zeros and the numbers
    without fractional bits as they are; of any other number, of exact
    value [v], it returns the integer [n] with [n <= v + 1/2 < n + 1],
    so a value half-way between two integers goes up, and -0 when that
    integer is 0 and the number negative.  [roundPrice] leaves every
    amount of whole kobo up to 200.00 as it is.  The tie is decided on
    the product [x * 100] as computed: 1.005 * 100 is
    100.49999999999999, so [roundPrice 1.005] is 1 and not 1.01, while
    [roundPrice 1.015] is 1.01 and [roundPrice 0.125] is 0.13. *)
Theorem roundPrice_rounding (x : float) (k : Z) :
  roundPrice x = (Math_round (x * 100) / 100)%float
  /\ match Prim2SF x with
     | S754_finite s m e =>
         (0 <= e -> Math_round x = x)
         /\ (e < 0 ->
             let v := if s then Z.neg m else Z.pos m in
             exists n,
               n * 2 ^ (1 - e) <= 2 * v + 2 ^ (- e) < (n + 1) * 2 ^ (1 - e)
               /\ (n <> 0 -> Math_round x = Number_of_int n)
               /\ (n = 0 -> Math_round x = if s then (-0)%float else 0%float))
     | _ => Math_round x = x
     end
  /\ (0 <= k <= 20000 -> roundPrice (ofKobo k) = ofKobo k)
  /\ (1.005 * 100 = 100.49999999999999 /\ roundPrice 1.005 = 1
      /\ roundPrice 1.015 = 1.01 /\ roundPrice 0.125 = 0.13
      /\ Math_round 2.5 = 3 /\ Math_round (-2.5) = (-2)
      /\ Math_round (-0.5) = (-0) /\ Math_round 0.49999999999999994 = 0)%float.
Proof.
  split; [reflexivity |]. split; [| split].
  - unfold Math_round. destruct (Prim2SF x) as [s | s | | s m e] eqn:E; try reflexivity.
    split.
    + intros He. apply Z.leb_le in He. now rewrite He.
    + intros He. cbv zeta.
      assert (Hneg : (0 <=? e) = false) by (apply Z.leb_gt; exact He).
      rewrite Hneg. fold (nearestInteger s m e).
      exists (nearestInteger s m e).
      split; [exact (nearestInteger_spec s m e He) |].
      split.
      * intros Hn. unfold Number_of_int.
        destruct (nearestInteger s m e); [now elim Hn | reflexivity | reflexivity].
      * intros ->. destruct s; reflexivity.
  - intros Hk. apply identical_eq.
    exact (proj1 (forallb_forall _ _) roundPrice_checked k (upTo_In _ _ Hk)).
  - repeat split; vm_compute; reflexivity.
Qed.

Lemma roundPrice_rounding_witness :
  0 <= 101 <= 20000 /\ roundPrice 1.01 = 1.01%float.
Proof.
  split; [lia |].
  destruct (roundPrice_rounding 0 101) as (_ & _ & H & _).
  exact (H ltac:(lia)).
Defined.

(* ===================================================================== *)
(** * What cancelOrder and applyCoupon leave alone *)
(* ===================================================================== *)

(** X24.  [cancelOrder] writes the stock and the order, nothing else:
    whether it succeeds or fails, the payments, the coupons, the carts,
    the cart lines, the order items and every other order's status are
    as before.  In particular the payments of a CONFIRMED order stay
    SUCCESS when the order is cancelled, and the use of its coupon stays
    counted. *)
Theorem cancelOrder_leaves_payments (userId orderId : string) (db db' : DB)
    (r : Result Order.t) :
  cancelOrder userId orderId db = (r, db') ->
  payments db' = payments db
  /\ coupons db' = coupons db
  /\ carts db' = carts db
  /\ cartItems db' = cartItems db
  /\ orderItems db' = orderItems db
  /\ (forall other, other <> orderId ->
        find (byOrderId other) (orders db') = find (byOrderId other) (orders db)).
Proof.
  destruct r as [o1 | e]; intros Hrun.
  - destruct (cancelOrder_Ok_inv _ _ _ _ _ Hrun)
      as (o & rows' & orders' & _ & _ & Hup & _ & ->).
    repeat split.
    intros other Hother. cbn [orders setOrders]. unfold byOrderId.
    rewrite (find_updateRows_key Order.id orderId other
               (Order.withStatus OrderStatus.CANCELLED) _ _ _ (fun _ => eq_refl) Hup).
    destruct (String.eqb orderId other) eqn:E; [| reflexivity].
    apply String.eqb_eq in E. now elim Hother.
  - assert (Hdb : db' = db).
    { rewrite cancelOrder_unfold in Hrun.
      destruct (find (byOwnedOrder orderId userId) (orders db)) as [o |];
        [| now injection Hrun as _ <-].
      destruct (OrderStatus.includes _ (Order.status o));
        [| now injection Hrun as _ <-].
      exact (transaction_rollback _ _ _ _ Hrun). }
    subst db'. repeat split.
Qed.

Lemma cancelOrder_leaves_payments_witness :
  let paid :=
    snd (handleWebhook 100 (Example.callback WebhookStatus.SUCCESS 12175)
           Example.paymentsDB) in
  exists o db',
    cancelOrder "u1" "o1" paid = (Ok o, db')
    /\ Order.status o = OrderStatus.CANCELLED
    /\ map Payment.status (payments db') = [PaymentStatus.SUCCESS].
Proof.
  intros paid.
  destruct (cancelOrder "u1" "o1" paid) as [[o | e] db'] eqn:Hrun;
    [| discriminate Hrun].
  destruct (cancelOrder_leaves_payments _ _ _ _ _ Hrun) as (Hpay & _).
  exists o, db'. split; [reflexivity |]. split.
  - injection Hrun as <- _. reflexivity.
  - rewrite Hpay. reflexivity.
Defined.

Section ApplyCouponWrites.
Variable formatNaira : float -> string.

Lemma attachCoupon_writes (userId : string) (cart : CartWithItems) (k : Coupon.t)
    (db db1 : DB) (r : Result (CartResponse.t * string)) :
  attachCoupon formatNaira userId cart k db = (r, db1) ->
  exists carts1, db1 = setCarts carts1 db.
Proof.
  unfold attachCoupon, bind, update, ret.
  destruct (updateRows _ _ (carts db)) as [[c1 carts1] |].
  - destruct (getCart userId (setCarts carts1 db)) as [[resp | e] d] eqn:Hget;
      apply getCart_reads in Hget; subst d; intros [= _ <-]; eauto.
  - intros [= _ <-]. exists (carts db). destruct db. reflexivity.
Qed.

(** X25.  [applyCoupon] writes the carts table and nothing else,
    whatever its outcome: the coupon rows, and with them the count of
    uses, are as before, as are the cart lines and the stock, so that
    applying a coupon, once or many times, uses none of its uses up.
    When it fails with one of its own errors the store is unchanged
    altogether. *)
Theorem applyCoupon_writes_carts_only (now : Z) (userId code : string) (db db1 : DB)
    (r : Result (CartResponse.t * string)) :
  applyCoupon formatNaira now userId code db = (r, db1) ->
  (exists carts1, db1 = setCarts carts1 db)
  /\ coupons db1 = coupons db
  /\ cartItems db1 = cartItems db
  /\ productVariants db1 = productVariants db
  /\ (forall e, r = Throw e ->
        (e = EmptyCartException
         \/ (exists message, e = InvalidCouponException message)
         \/ (exists minAmount, e = CouponMinNotMetException minAmount)) ->
        db1 = db).
Proof.
  intros Hrun.
  assert (Hcarts : exists carts1, db1 = setCarts carts1 db).
  { revert Hrun. unfold applyCoupon, bind, findCart, findFirst.
    assert (Hsame : forall (e : Exception) (d : DB),
              (Throw e, db) = (r, d) -> exists carts1, d = setCarts carts1 db).
    { intros e d [= _ <-]. exists (carts db). destruct db. reflexivity. }
    destruct (find _ (carts db)) as [c |]; [| apply Hsame].
    destruct (includeVariants db _) as [lines |]; [| apply Hsame].
    cbn [items cartRow coupon].
    destruct (length lines =? 0)%nat; [apply Hsame |].
    unfold query.
    destruct (find _ (coupons db)) as [k |]; [| apply Hsame].
    destruct (negb (Coupon.isActive k)); [apply Hsame |].
    destruct ((Coupon.startsAt k >? now) || (Coupon.expiresAt k <? now));
      [apply Hsame |].
    destruct (truthyInt (Coupon.maxUses k) && _); [apply Hsame |].
    destruct (Coupon.minOrderAmount k) as [m |];
      [destruct ((cartSubtotal lines <? m)%float); [apply Hsame |] |];
      apply attachCoupon_writes. }
  split; [exact Hcarts |]. destruct Hcarts as [carts1 ->].
  split; [reflexivity |]. split; [reflexivity |]. split; [reflexivity |].
  intros e -> Hown. revert Hrun.
  unfold applyCoupon, bind, findCart, findFirst.
  assert (Hsame : forall (e' : Exception),
            (Throw e', db) = (@Throw (CartResponse.t * string) e, setCarts carts1 db) ->
            setCarts carts1 db = db).
  { intros e' [= _ <-]. reflexivity. }
  assert (Hattach : forall cart k,
            attachCoupon formatNaira userId cart k db
            = (Throw e, setCarts carts1 db) -> setCarts carts1 db = db).
  { intros cart k. unfold attachCoupon, bind, update, ret.
    destruct (updateRows _ _ (carts db)) as [[c1 cs] |].
    - destruct (getCart userId (setCarts cs db)) as [[resp | e'] d] eqn:Hget;
        [discriminate |].
      intros [= -> _]. exfalso.
      unfold getCart, bind, findCart in Hget.
      destruct (findFirst _ (carts (setCarts cs db))) as [c |].
      + destruct (includeVariants _ _) as [ls |].
        * destruct (calculateTotals _ _) as [[s d'] t]. discriminate.
        * injection Hget as <- _.
          destruct Hown as [H | [[m H] | [m H]]]; discriminate.
      + discriminate.
    - intros [= <- _]. destruct Hown as [H | [[m H] | [m H]]]; discriminate. }
  destruct (find _ (carts db)) as [c |]; [| apply Hsame].
  destruct (includeVariants db _) as [lines |]; [| apply Hsame].
  cbn [items cartRow coupon].
  destruct (length lines =? 0)%nat; [apply Hsame |].
  unfold query.
  destruct (find _ (coupons db)) as [k |]; [| apply Hsame].
  destruct (negb (Coupon.isActive k)); [apply Hsame |].
  destruct ((Coupon.startsAt k >? now) || (Coupon.expiresAt k <? now));
    [apply Hsame |].
  destruct (truthyInt (Coupon.maxUses k) && _); [apply Hsame |].
  destruct (Coupon.minOrderAmount k) as [m |];
    [destruct ((cartSubtotal lines <? m)%float); [apply Hsame |] |];
    apply Hattach.
Qed.

End ApplyCouponWrites.

Lemma applyCoupon_writes_carts_only_witness :
  exists r db1,
    applyCoupon Example.plainNaira 500 "u1" "SAVE10" (Scenario.cartDB None) = (Ok r, db1)
    /\ map Coupon.usedCount (coupons db1) = [0].
Proof.
  destruct (applyCoupon Example.plainNaira 500 "u1" "SAVE10" (Scenario.cartDB None))
    as [[r | e] db1] eqn:Hrun; [| discriminate Hrun].
  destruct (applyCoupon_writes_carts_only Example.plainNaira _ _ _ _ _ _ Hrun)
    as (_ & Hcoupons & _).
  exists r, db1. split; [reflexivity |]. rewrite Hcoupons. reflexivity.
Defined.
